(** * Order pricing, referral discounts and payment reconciliation

    A shallow embedding of the order / referral / webhook workflow of the
    shop backend (routes/orders.py, routes/auth.py, routes/referrals.py,
    models.py, database.py), followed by the properties of that workflow.

    Conventions.
    - A table is the list of its rows, in insertion order; a row is a record
      with the columns of models.py.  An ORM object is the row with its
      primary key: assigning an attribute updates the row with that key in
      the session's working copy.
    - The AsyncSession is a pair of databases: what has been committed and
      the working copy the request sees.  [commit] publishes the working
      copy, [rollback] discards it.
    - Every call that leaves the process (a SELECT, a COMMIT, a refresh, the
      gateway call) may fail.  The failures of one request are an input: a
      list of booleans consumed one per call, [true] meaning that this call
      raises.  An exhausted list means no further failure.
    - Python numbers are [pynum]: unbounded integers or binary64 floats.
    - What the environment generates (uuid4 values, the password hash, the
      session the gateway opens, the outcome of the signature check) is an
      argument of the handler that uses it.
    - Names are those of the source; the columns of a model carry a prefix
      ([u_], [o_], [rc_], [ru_]) since several models share column names.
    - The log keeps the level and the text of each record; the repr of whole
      objects that some records interpolate is left out. *)

From Stdlib Require Import ZArith Floats.
From stdpp Require Import base list strings gmap pretty.

(* Decimal literals such as 0.9 denote the nearest binary64 value, as they do
   in Python. *)
Set Warnings "-inexact-float,-register-all".

Open Scope Z_scope.

(** ** Python numbers *)

Inductive pynum :=
  | PyInt (z : Z)
  | PyFloat (f : float).

(** [float(z)] for a Python int: correctly rounded, [None] standing for
    OverflowError when the integer is beyond the binary64 range. *)
Definition float_of_int (z : Z) : option float :=
  match SpecFloat.binary_normalize prec emax z 0 false with
  | SpecFloat.S754_infinity _ => None
  | s => Some (SF2Prim s)
  end.

(** [x * c] for a float constant [c]. *)
Definition py_mul_float (x : pynum) (c : float) : option pynum :=
  match x with
  | PyInt z => f ← float_of_int z; Some (PyFloat (PrimFloat.mul f c))
  | PyFloat f => Some (PyFloat (PrimFloat.mul f c))
  end.

(** JSON values, as they arrive in [product_details]. *)
Inductive jval :=
  | JNull
  | JBool (b : bool)
  | JInt (z : Z)
  | JFloat (f : float)
  | JStr (s : string)
  | JArr (l : list jval)
  | JObj (l : list (string * jval)).

(** ** models.py *)

Record User := mkUser {
  u_id : Z;
  u_email : string;
  u_full_name : string;
  u_hashed_password : string;
  u_is_active : bool;
  u_is_admin : bool;
  u_referred_by : option string
}.

Record Order := mkOrder {
  o_id : Z;
  o_uuid : string;
  o_user_id : Z;
  o_product_type : string;
  o_material : string;
  o_teeth_selection : option (list Z);
  o_product_details : gmap string jval;
  o_total_price : pynum;
  o_shipping_full_name : string;
  o_shipping_address : string;
  o_shipping_city : string;
  o_shipping_zip_code : string;
  o_stripe_payment_intent : option string;
  o_payment_status : string
}.

Record ReferralCode := mkReferralCode {
  rc_id : Z;
  rc_code : string;
  rc_user_id : Z
}.

Record ReferralUse := mkReferralUse {
  ru_id : Z;
  ru_referral_code_id : Z;
  ru_referred_user_id : Z;
  ru_first_order_id : option Z;
  ru_referrer_discount_used : bool;
  ru_referee_discount_used : bool;
  ru_is_active : bool
}.

(** The timestamp columns (created_at, updated_at, used_at) and the Invoice
    table are not read by any of the functions below and are left out: the
    handlers that assign [order.payment_status] also assign
    [order.updated_at], and that write is not part of a database here.
    [o_total_price] is the Python number the code assigns; the Float column
    holds that number as a binary64, exactly for an integer up to 2^53,
    rounded beyond, and the insert fails for an integer beyond the binary64
    range. *)

Record DB := mkDB {
  users : list User;
  orders : list Order;
  referral_codes : list ReferralCode;
  referral_uses : list ReferralUse
}.

Definition empty_db : DB := mkDB [] [] [] [].

(** Attribute assignments. *)

Definition set_payment_status (s : string) (o : Order) : Order :=
  mkOrder (o_id o) (o_uuid o) (o_user_id o) (o_product_type o) (o_material o)
    (o_teeth_selection o) (o_product_details o) (o_total_price o)
    (o_shipping_full_name o) (o_shipping_address o) (o_shipping_city o)
    (o_shipping_zip_code o) (o_stripe_payment_intent o) s.

Definition set_stripe_payment_intent (s : string) (o : Order) : Order :=
  mkOrder (o_id o) (o_uuid o) (o_user_id o) (o_product_type o) (o_material o)
    (o_teeth_selection o) (o_product_details o) (o_total_price o)
    (o_shipping_full_name o) (o_shipping_address o) (o_shipping_city o)
    (o_shipping_zip_code o) (Some s) (o_payment_status o).

Definition set_referee_discount_used (r : ReferralUse) : ReferralUse :=
  mkReferralUse (ru_id r) (ru_referral_code_id r) (ru_referred_user_id r)
    (ru_first_order_id r) (ru_referrer_discount_used r) true (ru_is_active r).

Definition set_referrer_discount_used (r : ReferralUse) : ReferralUse :=
  mkReferralUse (ru_id r) (ru_referral_code_id r) (ru_referred_user_id r)
    (ru_first_order_id r) true (ru_referee_discount_used r) (ru_is_active r).

Definition set_active (order_id : Z) (r : ReferralUse) : ReferralUse :=
  mkReferralUse (ru_id r) (ru_referral_code_id r) (ru_referred_user_id r)
    (Some order_id) (ru_referrer_discount_used r) (ru_referee_discount_used r)
    true.

(** UPDATE ... WHERE id = key. *)
Definition update_row {A} (key : A → Z) (k : Z) (f : A → A) (t : list A) : list A :=
  (λ r, if bool_decide (key r = k) then f r else r) <$> t.

(** The key an autoincrementing table gives its next row. *)
Definition next_id {A} (key : A → Z) (t : list A) : Z :=
  1 + foldr Z.max 0 (key <$> t).

Definition with_users (f : list User → list User) (d : DB) : DB :=
  mkDB (f (users d)) (orders d) (referral_codes d) (referral_uses d).
Definition with_orders (f : list Order → list Order) (d : DB) : DB :=
  mkDB (users d) (f (orders d)) (referral_codes d) (referral_uses d).
Definition with_referral_codes (f : list ReferralCode → list ReferralCode) (d : DB) : DB :=
  mkDB (users d) (orders d) (f (referral_codes d)) (referral_uses d).
Definition with_referral_uses (f : list ReferralUse → list ReferralUse) (d : DB) : DB :=
  mkDB (users d) (orders d) (referral_codes d) (f (referral_uses d)).

(** ** Requests: state, failures, exceptions, log *)

Inductive exn :=
  | HTTPException (status_code : Z) (detail : string)
  | MultipleResultsFound
  | SQLAlchemyError
  | StripeError
  | TypeError
  | AttributeError
  | OverflowError
  | ValueError
  | SignatureVerificationError.

Definition exn_str (e : exn) : string :=
  match e with
  | HTTPException _ d => d
  | MultipleResultsFound => "Multiple rows were found when one or none was required"
  | SQLAlchemyError => "database error"
  | StripeError => "gateway error"
  | TypeError => "unsupported operand"
  | AttributeError => "attribute error"
  | OverflowError => "int too large to convert to float"
  | ValueError => "invalid value"
  | SignatureVerificationError => "signature mismatch"
  end.

Inductive level := INFO | WARNING | ERROR.

Record World := mkWorld {
  committed : DB;
  session : DB;
  faults : list bool;
  log : list (level * string)
}.

Definition M (A : Type) : Type := World → (exn + A) * World.

Definition ret {A} (a : A) : M A := λ w, (inr a, w).
Definition raise {A} (e : exn) : M A := λ w, (inl e, w).
Definition bind {A B} (m : M A) (k : A → M B) : M B :=
  λ w, match m w with
       | (inr a, w') => k a w'
       | (inl e, w') => (inl e, w')
       end.
(** [try: m except Exception as e: ...] gives the handler the outcome. *)
Definition attempt {A} (m : M A) : M (exn + A) :=
  λ w, let '(r, w') := m w in (inr r, w').

Declare Scope py_scope.
Delimit Scope py_scope with py.
Notation "'let*' x ':=' m 'in' k" := (bind m (λ x, k))
  (at level 10, x pattern, m at level 100, k at level 200) : py_scope.
Notation "m ';;' k" := (bind m (λ _, k))
  (at level 100, k at level 200, right associativity) : py_scope.
Open Scope py_scope.

(** A computation that touches neither the database nor the log. *)
Definition lift {A} (r : exn + A) : M A := λ w, (r, w).

Definition get_session : M DB := λ w, (inr (session w), w).

Definition modify_session (f : DB → DB) : M unit :=
  λ w, (inr (), mkWorld (committed w) (f (session w)) (faults w) (log w)).

Definition logger (l : level) (msg : string) : M unit :=
  λ w, (inr (), mkWorld (committed w) (session w) (faults w) (log w ++ [(l, msg)])).

(** One call that may fail: consumes the next failure bit. *)
Definition fallible (e : exn) : M unit :=
  λ w, match faults w with
       | true :: fs => (inl e, mkWorld (committed w) (session w) fs (log w))
       | false :: fs => (inr (), mkWorld (committed w) (session w) fs (log w))
       | [] => (inr (), w)
       end.

(** [await db.execute(select(...))]: the rows of the working copy. *)
Definition execute {A} (q : DB → list A) : M (list A) :=
  fallible SQLAlchemyError;;
  λ w, (inr (q (session w)), w).

Definition scalar_one_or_none {A} (rows : list A) : M (option A) :=
  match rows with
  | [] => ret None
  | [r] => ret (Some r)
  | _ => raise MultipleResultsFound
  end.

Definition commit : M unit :=
  fallible SQLAlchemyError;;
  λ w, (inr (), mkWorld (session w) (session w) (faults w) (log w)).

Definition rollback : M unit :=
  λ w, (inr (), mkWorld (committed w) (committed w) (faults w) (log w)).

Definition refresh : M unit := fallible SQLAlchemyError.

(** database.py, [get_db]: a request runs in a fresh session over the
    committed database; whatever is not committed when it ends is lost. *)
Definition start (d : DB) (fs : list bool) : World := mkWorld d d fs [].

Definition run_request {A} (m : M A) (d : DB) (fs : list bool) : (exn + A) * DB :=
  let '(r, w) := m (start d fs) in (r, committed w).

(** ** routes/orders.py: apply_referral_discount *)

Definition unused_referee (user_id : Z) (d : DB) : list ReferralUse :=
  filter (λ r, ru_referred_user_id r = user_id ∧ ru_referee_discount_used r = false)
         (referral_uses d).

Definition code_of_user (user_id : Z) (d : DB) : list ReferralCode :=
  filter (λ c, rc_user_id c = user_id) (referral_codes d).

Definition unused_referrer (code_id : Z) (d : DB) : list ReferralUse :=
  filter (λ r, ru_referral_code_id r = code_id ∧ ru_referrer_discount_used r = false)
         (referral_uses d).

Definition py_mul (x : pynum) (c : float) : M pynum :=
  lift match py_mul_float x c with
       | Some y => inr y
       | None => inl OverflowError
       end.

(** The body of the [try] up to, and without, the final commit; it returns
    the locals [total_price] and [discount_type]. *)
Definition apply_referral_discount_body (user_id : Z) (total_price : pynum)
  : M (pynum * option string) :=
  let* result := execute (unused_referee user_id) in
  let* referee_discount := scalar_one_or_none result in
  match referee_discount with
  | Some r =>
      let* total_price := py_mul total_price 0.9%float in
      modify_session (with_referral_uses (update_row ru_id (ru_id r) set_referee_discount_used));;
      ret (total_price, Some "referee")
  | None =>
      let* result := execute (code_of_user user_id) in
      let* referral_code := scalar_one_or_none result in
      match referral_code with
      | Some c =>
          let* result := execute (unused_referrer (rc_id c)) in
          let* referrer_discount := scalar_one_or_none result in
          match referrer_discount with
          | Some r =>
              let* total_price := py_mul total_price 0.8%float in
              modify_session (with_referral_uses (update_row ru_id (ru_id r) set_referrer_discount_used));;
              ret (total_price, Some "referrer")
          | None => ret (total_price, None)
          end
      | None => ret (total_price, None)
      end
  end.

(** An exception raised before the locals are assigned leaves them at their
    initial values; one raised by the commit leaves them assigned. *)
Definition apply_referral_discount (user_id : Z) (total_price : pynum)
  : M (pynum * option string) :=
  let* r := attempt (apply_referral_discount_body user_id total_price) in
  match r with
  | inl e =>
      logger ERROR ("Error applying referral discount: " +:+ exn_str e);;
      rollback;;
      ret (total_price, None)
  | inr locals =>
      let* c := attempt commit in
      match c with
      | inl e =>
          logger ERROR ("Error applying referral discount: " +:+ exn_str e);;
          rollback;;
          ret locals
      | inr _ => ret locals
      end
  end.

(** ** routes/referrals.py: check_available_discount *)

Definition active_unused_referrer (code_id : Z) (d : DB) : list ReferralUse :=
  filter (λ r, ru_referral_code_id r = code_id ∧ ru_referrer_discount_used r = false
               ∧ ru_is_active r = true)
         (referral_uses d).

(** The JSON answer [{"discount": ..., "type": ...}]. *)
Definition check_available_discount (current_user_id : Z) : M (pynum * option string) :=
  let* result := execute (unused_referee current_user_id) in
  let* referee_discount := scalar_one_or_none result in
  match referee_discount with
  | Some _ => ret (PyFloat 0.10%float, Some "referee")
  | None =>
      let* result := execute (code_of_user current_user_id) in
      let* referral_code := scalar_one_or_none result in
      let* found :=
        match referral_code with
        | Some c =>
            let* result := execute (active_unused_referrer (rc_id c)) in
            scalar_one_or_none result
        | None => ret None
        end in
      match found with
      | Some _ => ret (PyFloat 0.20%float, Some "referrer")
      | None => ret (PyInt 0, None)
      end
  end.

(** ** routes/orders.py: pricing table and create_order *)

Record MaterialConfig := mkMaterial {
  price : Z;
  name : string;
  description : string
}.

Definition GRILLZ_PRICES : gmap string MaterialConfig :=
  {[ "gold" := mkMaterial 299 "18K Gold" "Premium 18K gold finish";
     "silver" := mkMaterial 149 "Silver" "Sterling silver finish";
     "diamond" := mkMaterial 999 "Iced" "Premium diamond setting" ]}.

Record OrderCreate := mkOrderCreate {
  product_type : string;
  material : string;
  teeth_selection : option (list Z);
  product_details : option (gmap string jval);
  shipping_full_name : string;
  shipping_address : string;
  shipping_city : string;
  shipping_zip_code : string;
  use_referral_discount : option bool
}.

(** [total_price] is the number of the order: the answer carries
    [order.total_price] as the refresh reloads it from the Float column, the
    same number as a binary64 (see the note on [o_total_price]). *)
Record CreateOrderResponse := mkCreateOrderResponse {
  success : bool;
  order_uuid : string;
  total_price : pynum;
  currency : string;
  client_secret : option string;
  payment_intent_id : option string;
  message : string
}.

Definition HTTP_400_BAD_REQUEST : Z := 400.

(** [product_price <= 0] and the number that [total_price] then holds;
    Python's bool is an int, other JSON values do not compare with 0. *)
Definition price_of_jval (v : jval) : exn + pynum :=
  match v with
  | JInt z =>
      if bool_decide (z ≤ 0) then inl (HTTPException HTTP_400_BAD_REQUEST "Invalid product price")
      else inr (PyInt z)
  | JBool b =>
      if negb b then inl (HTTPException HTTP_400_BAD_REQUEST "Invalid product price")
      else inr (PyInt 1)
  | JFloat f =>
      if PrimFloat.leb f 0%float then inl (HTTPException HTTP_400_BAD_REQUEST "Invalid product price")
      else inr (PyFloat f)
  | _ => inl TypeError
  end.

(** Lines 147-172: validate and calculate the price. *)
Definition calculate_price (order_data : OrderCreate) : exn + pynum :=
  if bool_decide (product_type order_data = "grillz") then
    match GRILLZ_PRICES !! material order_data with
    | None =>
        inl (HTTPException HTTP_400_BAD_REQUEST
               ("Invalid material '" +:+ material order_data +:+ "' for grillz"))
    | Some material_config =>
        match teeth_selection order_data with
        | None | Some [] =>
            inl (HTTPException HTTP_400_BAD_REQUEST
                   "At least one tooth must be selected for grillz")
        | Some teeth => inr (PyInt (price material_config * Z.of_nat (length teeth)))
        end
    end
  else if bool_decide (product_type order_data = "watch" ∨ product_type order_data = "bracelet") then
    match product_details order_data with
    | None => inl AttributeError
    | Some details => price_of_jval (default (JInt 0) (details !! "price"))
    end
  else inr (PyInt 0).

(** [int(x)] for a float: truncation, ValueError on NaN, OverflowError on
    an infinity. *)
Definition int_of_float (f : float) : exn + Z :=
  match Prim2SF f with
  | SpecFloat.S754_nan => inl ValueError
  | SpecFloat.S754_infinity _ => inl OverflowError
  | SpecFloat.S754_zero _ => inr 0
  | SpecFloat.S754_finite s m e =>
      let a := if bool_decide (0 ≤ e) then Z.pos m * 2 ^ e else Z.pos m `div` 2 ^ (- e) in
      inr (if s then - a else a)
  end.

(** [int(total_price * 100)], the amount in cents sent to the gateway. *)
Definition unit_amount (total_price : pynum) : exn + Z :=
  match total_price with
  | PyInt z => inr (z * 100)
  | PyFloat f => int_of_float (PrimFloat.mul f 100%float)
  end.

Definition jval_of_discount (discount_type : option string) : jval :=
  match discount_type with
  | Some s => JStr s
  | None => JNull
  end.

(** [order_uuid] is the value [uuid.uuid4()] returns; [checkout_session] is
    the id and the url of the session the gateway opens when its call
    succeeds.  What is sent to the gateway is not kept, only its amount is
    computed (it may raise). *)
Definition create_order (order_data : OrderCreate) (current_user_id : Z)
    (order_uuid : string) (checkout_session : string * string)
  : M CreateOrderResponse :=
  logger INFO ("Creating order for user " +:+ pretty current_user_id);;
  let* total_price := lift (calculate_price order_data) in
  let* (total_price, discount_type) :=
    if default false (use_referral_discount order_data)
    then apply_referral_discount current_user_id total_price
    else ret (total_price, None) in
  let* details :=
    lift match product_details order_data with
         | None => inl TypeError
         | Some details => inr (<["discount_applied" := jval_of_discount discount_type]> details)
         end in
  let* d := get_session in
  let order_id := next_id o_id (orders d) in
  modify_session (with_orders (λ t, t ++ [
    mkOrder order_id order_uuid current_user_id (product_type order_data)
      (material order_data) (teeth_selection order_data) details total_price
      (shipping_full_name order_data) (shipping_address order_data)
      (shipping_city order_data) (shipping_zip_code order_data) None "pending"]));;
  commit;;
  refresh;;
  let* _ := lift (unit_amount total_price) in
  fallible StripeError;;
  modify_session (with_orders (update_row o_id order_id
    (set_stripe_payment_intent checkout_session.1)));;
  commit;;
  logger INFO ("Order and Stripe checkout session created: " +:+ order_uuid);;
  ret (mkCreateOrderResponse true order_uuid total_price "USD"
         (Some checkout_session.2) (Some checkout_session.1)
         "Order created successfully").

(** ** routes/orders.py: payment reconciliation *)

Definition order_of_session (checkout_session_id : string) (d : DB) : list Order :=
  filter (λ o, o_stripe_payment_intent o = Some checkout_session_id) (orders d).

Definition user_by_id (user_id : Z) (d : DB) : list User :=
  filter (λ u, u_id u = user_id) (users d).

Definition code_by_code (code : string) (d : DB) : list ReferralCode :=
  filter (λ c, rc_code c = code) (referral_codes d).

Definition use_of (code_id user_id : Z) (d : DB) : list ReferralUse :=
  filter (λ r, ru_referral_code_id r = code_id ∧ ru_referred_user_id r = user_id)
         (referral_uses d).

(** Python truthiness of [user.referred_by]: None and the empty string are
    false. *)
Definition truthy (s : option string) : option string :=
  match s with
  | Some "" | None => None
  | Some c => Some c
  end.

Definition activate_referral_bonus_body (user_id order_id : Z) : M unit :=
  let* user_result := execute (user_by_id user_id) in
  let* user := scalar_one_or_none user_result in
  match user ≫= (λ u, truthy (u_referred_by u)) with
  | None => ret ()
  | Some referred_by =>
      let* referral_code_result := execute (code_by_code referred_by) in
      let* referral_code := scalar_one_or_none referral_code_result in
      match referral_code with
      | None => logger WARNING ("Referral code " +:+ referred_by +:+ " not found")
      | Some c =>
          let* referral_use_result := execute (use_of (rc_id c) user_id) in
          let* referral_use := scalar_one_or_none referral_use_result in
          match referral_use with
          | None =>
              logger WARNING ("Referral use record not found for user " +:+ pretty user_id)
          | Some r =>
              if ru_is_active r then
                logger INFO ("Referral bonus already activated for user " +:+ pretty user_id)
              else
                modify_session (with_referral_uses
                  (update_row ru_id (ru_id r) (set_active order_id)));;
                commit;;
                logger INFO ("Activated referral bonus for user " +:+ pretty user_id
                             +:+ ", referrer gets commission")
          end
      end
  end.

Definition activate_referral_bonus (user_id order_id : Z) : M unit :=
  let* r := attempt (activate_referral_bonus_body user_id order_id) in
  match r with
  | inl e =>
      logger ERROR ("Error activating referral bonus: " +:+ exn_str e);;
      rollback
  | inr _ => ret ()
  end.

(** The text of a log line does not change what is stored or answered.
    After a rollback inside activate_referral_bonus the model keeps the last
    INFO line, where formatting it from the expired order object makes the
    webhook log an error instead; no property below reads that line. *)
Definition handle_successful_payment (checkout_session_id : string) : M unit :=
  let* result := execute (order_of_session checkout_session_id) in
  let* order := scalar_one_or_none result in
  match order with
  | None => logger ERROR ("Order not found for checkout session: " +:+ checkout_session_id)
  | Some order =>
      if bool_decide (o_payment_status order = "paid") then
        logger INFO ("Order " +:+ o_uuid order +:+ " already marked as paid")
      else
        modify_session (with_orders (update_row o_id (o_id order) (set_payment_status "paid")));;
        logger INFO ("Order " +:+ o_uuid order +:+ " marked as paid");;
        activate_referral_bonus (o_user_id order) (o_id order);;
        commit;;
        logger INFO ("Successfully processed payment for order " +:+ o_uuid order)
  end.

Definition handle_failed_payment (checkout_session_id : string) : M unit :=
  let* result := execute (order_of_session checkout_session_id) in
  let* order := scalar_one_or_none result in
  match order with
  | None => logger ERROR ("Order not found for checkout session: " +:+ checkout_session_id)
  | Some order =>
      modify_session (with_orders (update_row o_id (o_id order) (set_payment_status "failed")));;
      commit;;
      logger INFO ("Order " +:+ o_uuid order +:+ " marked as failed")
  end.

(** A gateway event: its type and the id of its checkout session. *)
Record Event := mkEvent {
  ev_type : string;
  ev_session_id : string
}.

(** [secret] is STRIPE_WEBHOOK_SECRET; [constructed] is the outcome of
    [stripe.Webhook.construct_event] on the raw body and signature header:
    the verified event, or the exception it raises. *)
Definition stripe_webhook (secret : option string) (constructed : exn + Event) : M string :=
  match truthy secret with
  | None =>
      logger ERROR "STRIPE_WEBHOOK_SECRET not configured";;
      raise (HTTPException 500 "Webhook secret not configured")
  | Some _ =>
      let* event :=
        match constructed with
        | inr event =>
            logger INFO ("Verified Stripe webhook event: " +:+ ev_type event);;
            ret event
        | inl ValueError =>
            logger ERROR "Invalid payload";;
            raise (HTTPException 400 "Invalid payload")
        | inl SignatureVerificationError =>
            logger ERROR "Invalid signature";;
            raise (HTTPException 400 "Invalid signature")
        | inl e => raise e
        end in
      (if bool_decide (ev_type event = "checkout.session.completed") then
         logger INFO ("Processing checkout session completed: " +:+ ev_session_id event);;
         let* r := attempt (handle_successful_payment (ev_session_id event)) in
         match r with
         | inl e => logger ERROR ("Error processing successful payment: " +:+ exn_str e)
         | inr _ => ret ()
         end
       else if bool_decide (ev_type event = "checkout.session.expired") then
         logger INFO ("Processing checkout session expired: " +:+ ev_session_id event);;
         let* r := attempt (handle_failed_payment (ev_session_id event)) in
         match r with
         | inl e => logger ERROR ("Error processing failed payment: " +:+ exn_str e)
         | inr _ => ret ()
         end
       else logger INFO ("Unhandled event type: " +:+ ev_type event));;
      ret "success"
  end.

(** ** routes/auth.py: register *)

Record UserCreate := mkUserCreate {
  email : string;
  password : string;
  full_name : string;
  referral_code : option string
}.

Record UserResponse := mkUserResponse {
  resp_email : string;
  resp_full_name : string;
  resp_is_admin : bool
}.

Definition user_by_email (e : string) (d : DB) : list User :=
  filter (λ u, u_email u = e) (users d).

(** [hashed] is [get_password_hash(user_data.password)], [code8] is
    [str(uuid.uuid4())[:8]]; [referral_code_row] is the source's local
    [referral_code], the row found for the supplied code.  The column
    referral_codes.code is UNIQUE: when [code8] is already in use the second
    commit raises, which is one of the failures of that commit; a property
    that asserts a successful registration assumes that [code8] is not in
    use. *)
Definition register (user_data : UserCreate) (hashed code8 : string) : M UserResponse :=
  let* result := execute (user_by_email (email user_data)) in
  let* existing := scalar_one_or_none result in
  (if existing is Some _ then
     raise (HTTPException HTTP_400_BAD_REQUEST "Email already registered")
   else ret ());;
  let* referral_code_row :=
    match truthy (referral_code user_data) with
    | Some code =>
        let* result := execute (code_by_code code) in
        let* found := scalar_one_or_none result in
        match found with
        | None => raise (HTTPException HTTP_400_BAD_REQUEST "Invalid referral code")
        | Some c => ret (Some c)
        end
    | None => ret None
    end in
  let* d := get_session in
  let user := mkUser (next_id u_id (users d)) (email user_data)
                (full_name user_data) hashed true false (referral_code user_data) in
  modify_session (with_users (λ t, t ++ [user]));;
  commit;;
  refresh;;
  modify_session (with_referral_codes (λ t, t ++ [
    mkReferralCode (next_id rc_id t) code8 (u_id user)]));;
  (match referral_code_row with
   | Some c =>
       modify_session (with_referral_uses (λ t, t ++ [
         mkReferralUse (next_id ru_id t) (rc_id c) (u_id user) None false false false]))
   | None => ret ()
   end);;
  commit;;
  ret (mkUserResponse (u_email user) (u_full_name user) (u_is_admin user)).

(** Delivery of one signature-verified event to the webhook endpoint, the
    secret being configured: the database it leaves. *)
Definition deliver (event : Event) (d : DB) (fs : list bool) : DB :=
  (run_request (stripe_webhook (Some "whsec") (inr event)) d fs).2.

Definition completed (sid : string) : Event := mkEvent "checkout.session.completed" sid.
Definition expired (sid : string) : Event := mkEvent "checkout.session.expired" sid.

(** * The system and the vocabulary of the properties *)

(** The requests that write to the database. *)
Inductive request :=
  | Register (user_data : UserCreate) (hashed code8 : string)
  | CreateOrder (order_data : OrderCreate) (current_user_id : Z) (order_uuid : string)
      (checkout_session : string * string)
  | Webhook (secret : option string) (constructed : exn + Event).

(** The database a request leaves, [fs] being the failures met. *)
Definition handle (req : request) (d : DB) (fs : list bool) : DB :=
  match req with
  | Register ud hashed code8 => (run_request (register ud hashed code8) d fs).2
  | CreateOrder od uid uuid cs => (run_request (create_order od uid uuid cs) d fs).2
  | Webhook secret constructed => (run_request (stripe_webhook secret constructed) d fs).2
  end.

(** The databases the system reaches from the empty one.  The endpoints
    that are not modelled (the admin back-office and the pages) neither
    write to referral_uses nor add or delete a user: they are the steps that
    leave the referral_uses table and the keys of the users as they are. *)
Inductive reachable : DB → Prop :=
  | reachable_empty : reachable empty_db
  | reachable_step d req fs : reachable d → reachable (handle req d fs)
  | reachable_other d d' :
      reachable d → referral_uses d' = referral_uses d →
      u_id <$> users d' = u_id <$> users d → reachable d'.

(** The log record of a lookup that finds no order. *)
Definition not_found_entry (sid : string) : level * string :=
  (ERROR, "Order not found for checkout session: " +:+ sid).

(** The row [register] builds for the new user. *)
Definition new_user (ud : UserCreate) (hashed : string) (d : DB) : User :=
  mkUser (next_id u_id (users d)) (email ud) (full_name ud) hashed true false (referral_code ud).

(** [order.payment_status = 'paid'] on the database. *)
Definition mark_paid (o : Order) (d : DB) : DB :=
  with_orders (update_row o_id (o_id o) (set_payment_status "paid")) d.

(** [referral_use.is_active = True; referral_use.first_order_id = order_id]. *)
Definition mark_active (order_id : Z) (r : ReferralUse) (d : DB) : DB :=
  with_referral_uses (update_row ru_id (ru_id r) (set_active order_id)) d.

(** What activate_referral_bonus finds when no call fails: the row to
    activate, nothing to do, or the exception of an ambiguous lookup
    ([activate_referral_bonus_spec] relates it to the code). *)
Definition activation_target (user_id : Z) (s : DB) : exn + option ReferralUse :=
  match user_by_id user_id s with
  | [] => inr None
  | [u] =>
      match truthy (u_referred_by u) with
      | None => inr None
      | Some code =>
          match code_by_code code s with
          | [] => inr None
          | [c] =>
              match use_of (rc_id c) user_id s with
              | [] => inr None
              | [r] => if ru_is_active r then inr None else inr (Some r)
              | _ => inl MultipleResultsFound
              end
          | _ => inl MultipleResultsFound
          end
      end
  | _ => inl MultipleResultsFound
  end.

(** The three ways activate_referral_bonus can leave the session. *)
Definition rolled_back (w w' : World) : Prop :=
  session w' = committed w ∧ committed w' = committed w.

Definition untouched (w w' : World) : Prop :=
  session w' = session w ∧ committed w' = committed w.

Definition activated (order_id : Z) (r : ReferralUse) (w w' : World) : Prop :=
  let s := with_referral_uses (update_row ru_id (ru_id r) (set_active order_id)) (session w) in
  session w' = s ∧ committed w' = s.

(** The lookups of the reconciliation are unambiguous: primary key of
    users, unique referral code, one ReferralUse per (code, referred user). *)
Definition lookups_unique (d : DB) : Prop :=
  NoDup (u_id <$> users d) ∧
  NoDup (rc_code <$> referral_codes d) ∧
  NoDup ((λ r, (ru_referral_code_id r, ru_referred_user_id r)) <$> referral_uses d).

(** What a request may do to the users and referral_uses tables: nothing,
    mark a discount flag used, activate an inactive row, add a user, add a
    user and the row that refers to it. *)
Inductive db_step (d : DB) : DB → Prop :=
  | step_same d' :
      users d' = users d → referral_uses d' = referral_uses d → db_step d d'
  | step_flag d' k f :
      f = set_referee_discount_used ∨ f = set_referrer_discount_used →
      users d' = users d →
      referral_uses d' = update_row ru_id k f (referral_uses d) → db_step d d'
  | step_activate d' r order_id :
      r ∈ referral_uses d → ru_is_active r = false →
      users d' = users d →
      referral_uses d' = update_row ru_id (ru_id r) (set_active order_id) (referral_uses d) →
      db_step d d'
  | step_user d' u :
      u_id u = next_id u_id (users d) → users d' = users d ++ [u] →
      referral_uses d' = referral_uses d → db_step d d'
  | step_referred d' u code_id :
      u_id u = next_id u_id (users d) → users d' = users d ++ [u] →
      referral_uses d'
      = referral_uses d ++ [mkReferralUse (next_id ru_id (referral_uses d)) code_id (u_id u)
                              None false false false] →
      db_step d d'.

(** The same, seen on the referral_uses table alone. *)
Inductive ru_change (t : list ReferralUse) : list ReferralUse → Prop :=
  | ru_same : ru_change t t
  | ru_flag k f :
      f = set_referee_discount_used ∨ f = set_referrer_discount_used →
      ru_change t (update_row ru_id k f t)
  | ru_activate r order_id :
      r ∈ t → ru_is_active r = false →
      ru_change t (update_row ru_id (ru_id r) (set_active order_id) t)
  | ru_insert code_id user_id :
      ru_change t (t ++ [mkReferralUse (next_id ru_id t) code_id user_id None false false false]).

(** A row keeps its key, stays active once active, and keeps its first
    order once it has one. *)
Definition row_kept (r r' : ReferralUse) : Prop :=
  ru_id r' = ru_id r ∧
  (ru_is_active r = true → ru_is_active r' = true) ∧
  (∀ k, ru_first_order_id r = Some k → ru_first_order_id r' = Some k).

(** Row by row, in place: the table only grows and every row is kept. *)
Definition ru_evolves (t t' : list ReferralUse) : Prop :=
  ∀ i r, t !! i = Some r → ∃ r', t' !! i = Some r' ∧ row_kept r r'.

(** Keys are distinct, and a row that is not active has no first order. *)
Definition ru_inv (t : list ReferralUse) : Prop :=
  NoDup (ru_id <$> t) ∧
  ∀ r, r ∈ t → ru_is_active r = false → ru_first_order_id r = None.

(** A user is referred at most once, and by a row made after the user. *)
Definition referred_once (d : DB) : Prop :=
  NoDup (ru_referred_user_id <$> referral_uses d) ∧
  ∀ r, r ∈ referral_uses d → ru_referred_user_id r < next_id u_id (users d).

(** C3 as the claim states it, for one request: if the request leaves no
    new order, it leaves the referral flags as they were. *)
Definition flag_rolled_back_with_order (od : OrderCreate) (uid : Z) (uuid : string)
    (cs : string * string) (d : DB) (fs : list bool) : Prop :=
  let d' := (run_request (create_order od uid uuid cs) d fs).2 in
  orders d' = orders d → referral_uses d' = referral_uses d.

(** C8 as the claim states it, for one registration and with no call
    failing: a supplied code that matches no ReferralCode row is answered
    with a 400 and no User row is created. *)
Definition unknown_code_rejected (ud : UserCreate) (hashed code8 : string) (d : DB) : Prop :=
  ∀ code, referral_code ud = Some code → code_by_code code d = [] →
  let '(r, d') := run_request (register ud hashed code8) d [] in
  (∃ detail, r = inl (HTTPException 400 detail)) ∧ users d' = users d.

(** ** Concrete states used below *)

Module Examples.

(** User 1 owns code 1; user 2 registered with it and has not paid yet. *)
Definition inactive_referral : DB :=
  mkDB [mkUser 1 "ann@example.com" "Ann" "h1" true false None;
        mkUser 2 "bob@example.com" "Bob" "h2" true false (Some "AAAA1111")]
       []
       [mkReferralCode 1 "AAAA1111" 1; mkReferralCode 2 "BBBB2222" 2]
       [mkReferralUse 1 1 2 None false true false].

(** The same with Bob's referee discount still unused. *)
Definition fresh_referral : DB :=
  with_referral_uses (λ _, [mkReferralUse 1 1 2 None false false false]) inactive_referral.

Definition gold4 (discount : bool) : OrderCreate :=
  mkOrderCreate "grillz" "gold" (Some [11; 12; 21; 22]) (Some ∅)
    "Bob" "1 Main St" "Springfield" "12345" (Some discount).

(** Bob's order, paid, with checkout session cs_1. *)
Definition paid_order : Order :=
  mkOrder 1 "uuid-1" 2 "grillz" "gold" (Some [11; 12; 21; 22])
    {[ "discount_applied" := JNull ]} (PyInt 1196)
    "Bob" "1 Main St" "Springfield" "12345" (Some "cs_1") "paid".

Definition paid_db : DB := with_orders (λ _, [paid_order]) inactive_referral.

(** The same order still pending, Bob's referee discount unused. *)
Definition pending_order : Order :=
  mkOrder 1 "uuid-1" 2 "grillz" "gold" (Some [11; 12; 21; 22])
    {[ "discount_applied" := JNull ]} (PyInt 1196)
    "Bob" "1 Main St" "Springfield" "12345" (Some "cs_1") "pending".

Definition pending_db : DB := with_orders (λ _, [pending_order]) fresh_referral.

(** Ann registers; Bob registers with Ann's code; Carol registers with
    Bob's code, orders with her referee discount and pays.  Bob has then not
    used his referee discount, and has an active, unused referrer discount. *)
Definition both_discounts : DB :=
  handle (Webhook (Some "whsec") (inr (completed "cs_1")))
    (handle (CreateOrder (gold4 true) 3 "uuid-1" ("cs_1", "https://pay/cs_1"))
       (handle (Register (mkUserCreate "carol@example.com" "pw" "Carol" (Some "BBBB2222"))
                  "h3" "CCCC3333")
          (handle (Register (mkUserCreate "bob@example.com" "pw" "Bob" (Some "AAAA1111"))
                     "h2" "BBBB2222")
             (handle (Register (mkUserCreate "ann@example.com" "pw" "Ann" None)
                        "h1" "AAAA1111")
                empty_db []) []) []) []) [].

End Examples.

(** * The other endpoints *)

(** The overrides of the back-office and its gate, the login and the
    identification of the caller, and the referral statistics. *)

(** ** routes/admin.py: require_admin *)

(** An HTTPException together with its Location header, when it has one. *)
Record Denial := mkDenial {
  denial_status : Z;
  denial_detail : string;
  denial_location : option string
}.

(** [current_user] is what get_optional_current_user returned, [path] is
    [request.url.path]. *)
Definition require_admin (path : string) (current_user : option User) : Denial + User :=
  match current_user with
  | None =>
      if String.prefix "/admin/api/" path
      then inl (mkDenial 401 "Authentication required" None)
      else inl (mkDenial 303 "Redirecting to login" (Some "/auth/login"))
  | Some u =>
      if negb (u_is_admin u) then inl (mkDenial 403 "Admin access required" None)
      else inr u
  end.

(** ** routes/admin.py: update_order_status *)

Record OrderStatusUpdated := mkOrderStatusUpdated {
  osu_success : bool;
  osu_order_id : Z;
  osu_old_status : string;
  osu_new_status : string;
  osu_message : string
}.

Definition STATUSES : list string := ["pending"; "paid"; "shipped"; "failed"; "cancelled"].

Definition order_by_id (order_id : Z) (d : DB) : list Order :=
  filter (λ o, o_id o = order_id) (orders d).

(** The body of the [try]. *)
Definition update_order_status_body (order_id : Z) (status : string) : M OrderStatusUpdated :=
  (if bool_decide (status ∈ STATUSES) then ret ()
   else raise (HTTPException HTTP_400_BAD_REQUEST
                 "Invalid status. Must be one of: pending, paid, shipped, failed, cancelled"));;
  let* result := execute (order_by_id order_id) in
  let* order := scalar_one_or_none result in
  match order with
  | None => raise (HTTPException 404 "Order not found")
  | Some order =>
      let old_status := o_payment_status order in
      modify_session (with_orders (update_row o_id (o_id order) (set_payment_status status)));;
      commit;;
      ret (mkOrderStatusUpdated true order_id old_status status
             ("Order status updated from " +:+ old_status +:+ " to " +:+ status))
  end.

(** [except HTTPException: raise] lets the 400 and the 404 through; any
    other exception rolls back and becomes a 500.  The handler runs once
    require_admin has returned a user; it does not read that user.  What it
    prints goes to the standard output, not to the log; the assignment to
    updated_at is left out with the timestamp columns. *)
Definition update_order_status (order_id : Z) (status : string) : M OrderStatusUpdated :=
  let* r := attempt (update_order_status_body order_id status) in
  match r with
  | inr answer => ret answer
  | inl (HTTPException status_code detail) => raise (HTTPException status_code detail)
  | inl _ =>
      rollback;;
      raise (HTTPException 500 "Failed to update order status")
  end.

(** ** routes/admin.py: toggle_user_admin *)

Record AdminToggled := mkAdminToggled {
  at_success : bool;
  at_message : string;
  at_user_id : Z;
  at_is_admin : bool
}.

Definition set_is_admin (b : bool) (u : User) : User :=
  mkUser (u_id u) (u_email u) (u_full_name u) (u_hashed_password u) (u_is_active u) b
    (u_referred_by u).

Definition toggle_user_admin_body (user_id : Z) (current_user : User) : M AdminToggled :=
  let* result := execute (user_by_id user_id) in
  let* target_user := scalar_one_or_none result in
  match target_user with
  | None => raise (HTTPException 404 "User not found")
  | Some target_user =>
      if bool_decide (u_id target_user = u_id current_user) && u_is_admin target_user then
        raise (HTTPException HTTP_400_BAD_REQUEST "Cannot remove your own admin status")
      else
        let is_admin := negb (u_is_admin target_user) in
        modify_session (with_users (update_row u_id (u_id target_user) (set_is_admin is_admin)));;
        commit;;
        ret (mkAdminToggled true
               ("User " +:+ (if is_admin then "granted" else "removed") +:+ " admin access")
               user_id is_admin)
  end.

Definition toggle_user_admin (user_id : Z) (current_user : User) : M AdminToggled :=
  let* r := attempt (toggle_user_admin_body user_id current_user) in
  match r with
  | inr answer => ret answer
  | inl (HTTPException status_code detail) => raise (HTTPException status_code detail)
  | inl _ =>
      rollback;;
      raise (HTTPException 500 "Failed to update user admin status")
  end.


(** ** auth.py: passwords, tokens and the current user *)

Definition SECRET_KEY : string := "your-secret-key-keep-it-secret".
Definition ALGORITHM : string := "HS256".
Definition ACCESS_TOKEN_EXPIRE_MINUTES : Z := 30.
Definition HTTP_401_UNAUTHORIZED : Z := 401.

(** [timedelta(minutes=m)], in seconds. *)
Definition minutes (m : Z) : Z := 60 * m.

Section tokens.

(** The libraries and the clock: [pwd_context.verify] (which raises on a
    hash it does not recognise); [jwt.encode] of the claims under a key and
    an algorithm; [jwt.decode] of a token under a key and an algorithm,
    followed by [payload.get("sub")]: [None] when decode raises JWTError
    (a bad signature, an expired token, a subject that is not a string),
    [Some None] for a payload without subject; [datetime.utcnow()] as
    seconds since the epoch. *)
Variable pwd_verify : string → string → exn + bool.
Variable jwt_encode : gmap string jval → string → string → string.
Variable jwt_decode : string → string → string → option (option string).
Variable utcnow : Z.

Definition verify_password (plain_password hashed_password : string) : exn + bool :=
  pwd_verify plain_password hashed_password.

(** [expires_delta or timedelta(minutes=15)]: a zero timedelta is false. *)
Definition create_access_token (data : gmap string jval) (expires_delta : option Z) : string :=
  let delta := match expires_delta with
               | Some s => if bool_decide (s = 0) then minutes 15 else s
               | None => minutes 15
               end in
  let expire := utcnow + delta in
  jwt_encode (<["exp" := JInt expire]> data) SECRET_KEY ALGORITHM.

Definition credentials_exception : exn :=
  HTTPException HTTP_401_UNAUTHORIZED "Not authenticated".

(** [auth_token] is the auth_token cookie of the request. *)
Definition get_current_user (auth_token : option string) : M User :=
  match truthy auth_token with
  | None => raise credentials_exception
  | Some auth_token =>
      let* email :=
        match jwt_decode auth_token SECRET_KEY ALGORITHM with
        | Some (Some email) => ret email
        | Some None => raise credentials_exception
        | None => raise credentials_exception
        end in
      let* result := execute (user_by_email email) in
      let* user := scalar_one_or_none result in
      match user with
      | None => raise credentials_exception
      | Some user => ret user
      end
  end.

Definition get_optional_current_user (auth_token : option string) : M (option User) :=
  match truthy auth_token with
  | None => ret None
  | Some _ =>
      let* r := attempt (get_current_user auth_token) in
      match r with
      | inr user => ret (Some user)
      | inl (HTTPException _ _) => ret None
      | inl e => raise e
      end
  end.

(** ** routes/auth.py: login *)

Record UserLogin := mkUserLogin {
  login_email : string;
  login_password : string
}.

(** What [response.set_cookie] adds to the response. *)
Record Cookie := mkCookie {
  cookie_key : string;
  cookie_value : string;
  cookie_httponly : bool;
  cookie_max_age : Z;
  cookie_samesite : string
}.

Record LoginResponse := mkLoginResponse {
  login_message : string;
  login_cookie : Cookie
}.

(** [not user or not verify_password(...)]: the password is checked only
    when a user was found. *)
Definition login (user_data : UserLogin) : M LoginResponse :=
  let* result := execute (user_by_email (login_email user_data)) in
  let* user := scalar_one_or_none result in
  let* rejected :=
    match user with
    | None => ret true
    | Some user =>
        let* ok := lift (verify_password (login_password user_data) (u_hashed_password user)) in
        ret (negb ok)
    end in
  match rejected, user with
  | false, Some user =>
      let access_token :=
        create_access_token {[ "sub" := JStr (u_email user) ]}
          (Some (minutes ACCESS_TOKEN_EXPIRE_MINUTES)) in
      ret (mkLoginResponse "Login successful"
             (mkCookie "auth_token" access_token true (60 * 60 * 24) "lax"))
  | _, _ =>
      raise (HTTPException HTTP_401_UNAUTHORIZED "Incorrect email or password")
  end.

End tokens.

(** ** routes/admin.py behind its dependencies *)

(** [Depends(require_admin)] over [Depends(get_optional_current_user)]: the
    user a handler of the back-office receives, or the denial. *)
Definition admin_of_request (jwt_decode : string → string → string → option (option string))
    (path : string) (auth_token : option string) : M (Denial + User) :=
  let* current_user := get_optional_current_user jwt_decode auth_token in
  ret (require_admin path current_user).

(** ** routes/referrals.py: get_referral_stats *)

Record ReferralStats := mkReferralStats {
  stats_code : string;
  total_referrals : Z;
  successful_referrals : Z;
  available_discounts : Z;
  referral_url : string
}.

(** [func.count(ReferralUse.id)] over the rows that pass [P]. *)
Definition count {A} (P : A → Prop) `{∀ x, Decision (P x)} (rows : list A) : Z :=
  Z.of_nat (length (filter P rows)).

(** The one row of the aggregate query: total, active, available. *)
Definition referral_counts (code_id : Z) (d : DB) : list (Z * Z * Z) :=
  let rows := filter (λ r, ru_referral_code_id r = code_id) (referral_uses d) in
  [(count (λ _, True) rows,
    count (λ r, ru_is_active r = true) rows,
    count (λ r, ru_is_active r = true ∧ ru_referrer_discount_used r = false) rows)].

(** [x or 0] for an integer. *)
Definition or_zero (x : Z) : Z := if bool_decide (x = 0) then 0 else x.

Definition get_referral_stats (current_user_id : Z) : M ReferralStats :=
  let* result := execute (code_of_user current_user_id) in
  let* referral_code := scalar_one_or_none result in
  match referral_code with
  | None => raise (HTTPException 404 "No referral code found")
  | Some referral_code =>
      let* result := execute (referral_counts (rc_id referral_code)) in
      match head result with
      | None => raise TypeError
      | Some stats =>
          ret (mkReferralStats (rc_code referral_code)
                 (or_zero stats.1.1) (or_zero stats.1.2) (or_zero stats.2)
                 ("/register?ref=" +:+ rc_code referral_code))
      end
  end.

(** ** More vocabulary *)

(** [order.payment_status = 'failed'] on the database. *)
Definition mark_failed (o : Order) (d : DB) : DB :=
  with_orders (update_row o_id (o_id o) (set_payment_status "failed")) d.

(** One order was appended by create_order: pending, with the next key, the
    caller as owner and the columns of the request. *)
Definition order_added (od : OrderCreate) (uid : Z) (uuid : string) (cs : string * string)
    (d d' : DB) : Prop :=
  ∃ details total intent,
    orders d' = orders d ++ [
      mkOrder (next_id o_id (orders d)) uuid uid (product_type od) (material od)
        (teeth_selection od) details total (shipping_full_name od) (shipping_address od)
        (shipping_city od) (shipping_zip_code od) intent "pending"] ∧
    (intent = None ∨ intent = Some cs.1).

Definition create_order_effect (od : OrderCreate) (uid : Z) (uuid : string)
    (cs : string * string) (d d' : DB) : Prop :=
  users d' = users d ∧ referral_codes d' = referral_codes d ∧
  (orders d' = orders d ∨ order_added od uid uuid cs d d').

(** The primary keys of the four tables are distinct. *)
Definition keys_unique (d : DB) : Prop :=
  NoDup (u_id <$> users d) ∧ NoDup (o_id <$> orders d) ∧
  NoDup (rc_id <$> referral_codes d) ∧ NoDup (ru_id <$> referral_uses d).

(** Every write to the database that is modelled: the public requests and
    the two admin overrides. *)
Inductive any_request :=
  | Public (req : request)
  | UpdateOrderStatus (order_id : Z) (status : string)
  | ToggleUserAdmin (user_id : Z) (current_user : User).

Definition handle_any (req : any_request) (d : DB) (fs : list bool) : DB :=
  match req with
  | Public req => handle req d fs
  | UpdateOrderStatus order_id status =>
      (run_request (update_order_status order_id status) d fs).2
  | ToggleUserAdmin user_id current_user =>
      (run_request (toggle_user_admin user_id current_user) d fs).2
  end.

(** What a webhook delivery may do besides activating a referral: set the
    payment_status of the one order found by the event's checkout session. *)
Definition webhook_effect (constructed : exn + Event) (d d' : DB) : Prop :=
  users d' = users d ∧ referral_codes d' = referral_codes d ∧
  (orders d' = orders d ∨
   ∃ ev o s, constructed = inr ev ∧ order_of_session (ev_session_id ev) d = [o] ∧
             (s = "paid" ∨ s = "failed") ∧
             orders d' = update_row o_id (o_id o) (set_payment_status s) (orders d)).

(** ** More concrete states and stand-ins for the libraries *)

Module Scenarios.

(** Ann's code was used by Bob and by Carol; neither use is marked. *)
Definition two_referrals : DB :=
  mkDB [mkUser 1 "ann@example.com" "Ann" "h1" true false None;
        mkUser 2 "bob@example.com" "Bob" "h2" true false (Some "AAAA1111");
        mkUser 3 "carol@example.com" "Carol" "h3" true false (Some "AAAA1111")]
       []
       [mkReferralCode 1 "AAAA1111" 1; mkReferralCode 2 "BBBB2222" 2;
        mkReferralCode 3 "CCCC3333" 3]
       [mkReferralUse 1 1 2 (Some 1) false true true;
        mkReferralUse 2 1 3 (Some 2) false true true].

(** Ann as an administrator, beside Bob and his paid order. *)
Definition ann_admin : User := mkUser 1 "ann@example.com" "Ann" "h1" true true None.
Definition bob : User := mkUser 2 "bob@example.com" "Bob" "h2" true false (Some "AAAA1111").
Definition bob_admin : User := set_is_admin true bob.

Definition back_office : DB :=
  with_users (λ _, [ann_admin; bob_admin]) Examples.paid_db.

(** A password library that stores the password behind a prefix, and a
    token library whose tokens spell out their subject. *)
Definition plain_verify (plain_password hashed_password : string) : exn + bool :=
  inr (bool_decide (hashed_password = "hash:" +:+ plain_password)).

Definition plain_encode (claims : gmap string jval) (key algorithm : string) : string :=
  match claims !! "sub" with
  | Some (JStr s) => "sub:" +:+ s
  | _ => "none"
  end.

Definition plain_decode (token key algorithm : string) : option (option string) :=
  if String.prefix "sub:" token
  then Some (Some (String.substring 4 (String.length token - 4) token))
  else if bool_decide (token = "none") then Some None else None.

(** Bob, with the hash of the password pw. *)
Definition with_password : DB :=
  with_users (λ _, [mkUser 1 "ann@example.com" "Ann" "hash:a" true false None;
                    mkUser 2 "bob@example.com" "Bob" "hash:pw" true false (Some "AAAA1111")])
    Examples.paid_db.

Definition dora : UserCreate := mkUserCreate "dora@example.com" "pw" "Dora" (Some "AAAA1111").

End Scenarios.

(** * Properties *)

(** ** Tactics: running a handler over the cases of its lookups and failures *)

Ltac case_step :=
  match goal with
  | H : ?x = _ |- context [match ?x with [] => _ | _ :: _ => _ end] => rewrite H
  | H : ?x = _ |- context [match ?x with Some _ => _ | None => _ end] => rewrite H
  | H : ?x = _ |- context [if ?x then _ else _] => rewrite H
  | |- context [match ?x with [] => _ | _ :: _ => _ end] => is_var x; destruct x
  | |- context [if ?b then _ else _] => is_var b; destruct b
  | |- context [match ?x with [] => _ | _ :: _ => _ end] => destruct x eqn:?
  | |- context [match ?x with Some _ => _ | None => _ end] => destruct x eqn:?
  | |- context [if ?b then _ else _] => destruct b eqn:?
  end.

Ltac unfold_M :=
  unfold bind, attempt, execute, scalar_one_or_none, commit, refresh, rollback, logger,
    modify_session, get_session, py_mul, lift, fallible, raise, ret in *.

Ltac run_cases := repeat (unfold_M; cbn in *; try case_step).

(** Closes a goal [db_step d d'] whose [d'] is [d] with rows added. *)
Ltac close_step :=
  solve [ by apply step_same
        | eapply step_user; [|reflexivity|reflexivity]; reflexivity
        | eapply step_referred; [|reflexivity|reflexivity]; reflexivity ].

(** The same, also splitting on the outcome of pure computations. *)
Ltac run_all_cases :=
  repeat (unfold_M; cbn in *;
          try first [ case_step
                    | match goal with
                      | |- context [match ?x with inl _ => _ | inr _ => _ end] =>
                          destruct x eqn:?
                      end ]).

(** ** The expired handler *)

(** C1, evaluated on the code: an order that is 'paid' is set to 'failed'
    by a checkout.session.expired event for its checkout session;
    handle_failed_payment has no test of the current status. *)
Lemma expired_overwrites_paid :
  o_payment_status <$> orders Examples.paid_db = ["paid"] ∧
  o_payment_status <$> orders (deliver (expired "cs_1") Examples.paid_db []) = ["failed"].
Proof. split; vm_compute; reflexivity. Qed.

(** ** Referrer discount at order creation *)

(** C2, evaluated on the code: Ann has no referee discount, and the only
    ReferralUse under her code is not active; order creation with
    use_referral_discount still takes 20% off and marks the referrer flag
    used. *)
Lemma inactive_referral_gives_referrer_discount :
  unused_referee 1 Examples.inactive_referral = [] ∧
  ru_is_active <$> referral_uses Examples.inactive_referral = [false] ∧
  let '(r, d) := run_request (create_order (Examples.gold4 true) 1 "uuid-9" ("cs_9", "https://pay/cs_9"))
                   Examples.inactive_referral [] in
  sum_map id total_price r = inr (PyFloat 956.8000000000001%float) ∧
  (o_product_details <$> orders d) = [ {[ "discount_applied" := JStr "referrer" ]} ] ∧
  ru_referrer_discount_used <$> referral_uses d = [true].
Proof. vm_compute. repeat split; reflexivity. Qed.

(** C10: check-discount and order-time discount application disagree on a
    referrer whose only referral is not active: the preview reports no
    discount, the order gets the 20% referrer discount. *)
Theorem check_discount_differs_from_apply :
  ∃ (d : DB) (user_id : Z) (total : pynum),
    unused_referee user_id d = [] ∧
    (∃ r, referral_uses d = [r] ∧ ru_referrer_discount_used r = false ∧ ru_is_active r = false
          ∧ ∃ c, code_of_user user_id d = [c] ∧ ru_referral_code_id r = rc_id c) ∧
    (run_request (check_available_discount user_id) d []).1 = inr (PyInt 0, None) ∧
    (run_request (apply_referral_discount user_id total) d []).1
      = inr (PyFloat 956.8000000000001%float, Some "referrer") ∧
    py_mul_float total 0.8%float = Some (PyFloat 956.8000000000001%float) ∧
    calculate_price (Examples.gold4 true) = inr total ∧
    sum_map id total_price
      (run_request (create_order (Examples.gold4 true) user_id "uuid-9"
                      ("cs_9", "https://pay/cs_9")) d []).1
    = inr (PyFloat 956.8000000000001%float).
Proof.
  exists Examples.inactive_referral, 1, (PyInt 1196).
  split; [reflexivity|]. split.
  - eexists. split; [reflexivity|]. do 2 (split; [reflexivity|]).
    eexists. split; reflexivity.
  - vm_compute. repeat split; reflexivity.
Qed.

(** ** Tables *)

Section tables.
Context {A : Type} (key : A → Z).

Lemma next_id_gt (t : list A) (r : A) : r ∈ t → key r < next_id key t.
Proof.
  unfold next_id. induction t as [|x t IH]; intros Hin.
  - by apply elem_of_nil in Hin.
  - apply elem_of_cons in Hin as [-> | Hin]; cbn; [lia | specialize (IH Hin); lia].
Qed.

Lemma update_row_app (k : Z) (f : A → A) (t1 t2 : list A) :
  update_row key k f (t1 ++ t2) = update_row key k f t1 ++ update_row key k f t2.
Proof. unfold update_row. apply fmap_app. Qed.

Lemma update_row_absent (k : Z) (f : A → A) (t : list A) :
  (∀ r, r ∈ t → key r ≠ k) → update_row key k f t = t.
Proof.
  intros Hk. unfold update_row. induction t as [|x t IH]; [done|].
  cbn. rewrite bool_decide_eq_false_2 by (apply Hk; left).
  f_equal. apply IH. intros r Hr. apply Hk. by right.
Qed.

Lemma update_row_next_id (f : A → A) (t : list A) :
  update_row key (next_id key t) f t = t.
Proof.
  apply update_row_absent. intros r Hr. pose proof (next_id_gt t r Hr). lia.
Qed.

Lemma update_row_length (k : Z) (f : A → A) (t : list A) :
  length (update_row key k f t) = length t.
Proof. unfold update_row. apply length_fmap. Qed.

Lemma update_row_lookup (k : Z) (f : A → A) (t : list A) (i : nat) :
  update_row key k f t !! i
  = (λ r, if bool_decide (key r = k) then f r else r) <$> t !! i.
Proof. unfold update_row. apply list_lookup_fmap. Qed.
Lemma update_row_unique (f : A → A) (t : list A) (i : nat) (r : A) :
  NoDup (key <$> t) → t !! i = Some r →
  update_row key (key r) f t = <[i := f r]> t.
Proof.
  intros Hnd Hi. apply list_eq. intros j.
  rewrite update_row_lookup.
  destruct (decide (i = j)) as [<-|Hij].
  - rewrite list_lookup_insert_eq by (by eapply lookup_lt_Some).
    rewrite Hi. cbn. by rewrite bool_decide_eq_true_2.
  - rewrite list_lookup_insert_ne by done.
    destruct (t !! j) as [x|] eqn:Hj; [|done]. cbn.
    rewrite bool_decide_eq_false_2; [done|]. intros Hk.
    apply Hij. eapply NoDup_lookup; [exact Hnd| |].
    + rewrite list_lookup_fmap, Hi. reflexivity.
    + rewrite list_lookup_fmap, Hj. cbn. by rewrite Hk.
Qed.
Lemma next_id_app_ge (t1 t2 : list A) : next_id key t1 ≤ next_id key (t1 ++ t2).
Proof. unfold next_id. induction t1 as [|x t IH]; cbn; [|lia].
  induction t2; cbn; lia. Qed.

Lemma next_id_ext (t1 t2 : list A) : key <$> t1 = key <$> t2 → next_id key t1 = next_id key t2.
Proof. unfold next_id. by intros ->. Qed.
End tables.

(** ** Pricing *)

Lemma calculate_price_grillz (od : OrderCreate) (cfg : MaterialConfig) (t : Z) (ts : list Z) :
  product_type od = "grillz" →
  GRILLZ_PRICES !! material od = Some cfg →
  teeth_selection od = Some (t :: ts) →
  calculate_price od = inr (PyInt (price cfg * Z.of_nat (length (t :: ts)))).
Proof.
  intros Hty Hm Ht. unfold calculate_price.
  rewrite bool_decide_eq_true_2 by done. rewrite Hm, Ht. reflexivity.
Qed.

Lemma calculate_price_no_teeth (od : OrderCreate) (cfg : MaterialConfig) :
  product_type od = "grillz" →
  GRILLZ_PRICES !! material od = Some cfg →
  teeth_selection od = None ∨ teeth_selection od = Some [] →
  calculate_price od
  = inl (HTTPException 400 "At least one tooth must be selected for grillz").
Proof.
  intros Hty Hm Ht. unfold calculate_price.
  rewrite bool_decide_eq_true_2 by done. rewrite Hm.
  destruct Ht as [-> | ->]; reflexivity.
Qed.

Lemma calculate_price_unknown_material (od : OrderCreate) :
  product_type od = "grillz" →
  GRILLZ_PRICES !! material od = None →
  calculate_price od
  = inl (HTTPException 400 ("Invalid material '" +:+ material od +:+ "' for grillz")).
Proof.
  intros Hty Hm. unfold calculate_price.
  rewrite bool_decide_eq_true_2 by done. rewrite Hm. reflexivity.
Qed.

(** A request rejected while the price is calculated leaves the database
    as it was. *)
Lemma create_order_rejected (od : OrderCreate) (uid : Z) (uuid : string)
    (cs : string * string) (d : DB) (fs : list bool) (e : exn) :
  calculate_price od = inl e →
  run_request (create_order od uid uuid cs) d fs = (inl e, d).
Proof.
  intros Hc. unfold run_request, create_order, bind, logger, lift, start. cbn.
  rewrite Hc. reflexivity.
Qed.

(** What an order without discount does when no call fails. *)
Lemma create_order_plain (od : OrderCreate) (uid : Z) (uuid : string)
    (cs : string * string) (d : DB) (p : Z) (details : gmap string jval) :
  calculate_price od = inr (PyInt p) →
  default false (use_referral_discount od) = false →
  product_details od = Some details →
  run_request (create_order od uid uuid cs) d []
  = (inr (mkCreateOrderResponse true uuid (PyInt p) "USD" (Some cs.2) (Some cs.1)
            "Order created successfully"),
     with_orders (λ t, t ++ [
       mkOrder (next_id o_id (orders d)) uuid uid (product_type od) (material od)
         (teeth_selection od) (<["discount_applied" := JNull]> details) (PyInt p)
         (shipping_full_name od) (shipping_address od) (shipping_city od)
         (shipping_zip_code od) (Some cs.1) "pending"]) d).
Proof.
  intros Hc Hd Hdet. unfold run_request, create_order, bind, logger, lift, start. cbn.
  rewrite Hc, Hd. cbn. rewrite Hdet. cbn.
  f_equal. unfold with_orders. cbn [orders users referral_codes referral_uses]. f_equal.
  rewrite update_row_app, update_row_next_id. f_equal.
  cbn. rewrite bool_decide_eq_true_2 by done. reflexivity.
Qed.

(** C5: for a grillz order the base price is the unit price of the material
    times the number of selected teeth; a missing or empty selection and an
    unknown material are rejected with a 400 and the database is left as it
    was, whatever fails or not.  Without discount and without failure the
    order is stored, pending, at that price.  Gold is 299 a tooth: 4 teeth
    are 1196, and 1076.40 (the binary64 number Python prints as 1076.4)
    once the referee discount is applied. *)
Theorem grillz_price :
  (∀ (od : OrderCreate) (uid : Z) (uuid : string) (cs : string * string)
     (d : DB) (fs : list bool),
     product_type od = "grillz" →
     match GRILLZ_PRICES !! material od, teeth_selection od with
     | Some cfg, Some (t :: ts) =>
         let p := price cfg * Z.of_nat (length (t :: ts)) in
         calculate_price od = inr (PyInt p) ∧
         (∀ details,
            default false (use_referral_discount od) = false →
            product_details od = Some details →
            ∃ o, run_request (create_order od uid uuid cs) d []
                 = (inr (mkCreateOrderResponse true uuid (PyInt p) "USD" (Some cs.2)
                           (Some cs.1) "Order created successfully"),
                    with_orders (λ t, t ++ [o]) d)
                 ∧ o_total_price o = PyInt p ∧ o_payment_status o = "pending")
     | Some _, _ =>
         run_request (create_order od uid uuid cs) d fs
         = (inl (HTTPException 400 "At least one tooth must be selected for grillz"), d)
     | None, _ =>
         run_request (create_order od uid uuid cs) d fs
         = (inl (HTTPException 400 ("Invalid material '" +:+ material od +:+ "' for grillz")), d)
     end) ∧
  (price <$> GRILLZ_PRICES !! "gold" = Some 299 ∧
   (∀ b, calculate_price (Examples.gold4 b) = inr (PyInt 1196)) ∧
   py_mul_float (PyInt 1196) 0.9%float = Some (PyFloat 1076.4%float) ∧
   sum_map id total_price
     (run_request (create_order (Examples.gold4 true) 2 "uuid-1" ("cs_1", "https://pay/cs_1"))
        Examples.fresh_referral []).1
   = inr (PyFloat 1076.4%float)).
Proof.
  split.
  - intros od uid uuid cs d fs Hty.
    destruct (GRILLZ_PRICES !! material od) as [cfg|] eqn:Hm.
    + destruct (teeth_selection od) as [[|t ts]|] eqn:Ht.
      * apply create_order_rejected.
        apply (calculate_price_no_teeth od cfg); auto.
      * split.
        -- by apply calculate_price_grillz.
        -- intros details Hd Hdet. eexists. split; [|split].
           ++ apply create_order_plain; [|done..].
              by apply calculate_price_grillz.
           ++ reflexivity.
           ++ reflexivity.
      * apply create_order_rejected.
        apply (calculate_price_no_teeth od cfg); auto.
    + apply create_order_rejected.
      by apply calculate_price_unknown_material.
  - split; [reflexivity|]. split; [intros b; reflexivity|].
    split; vm_compute; reflexivity.
Qed.

(** The general part of [grillz_price] at the gold order of four teeth. *)
Lemma grillz_price_witness :
  product_type (Examples.gold4 false) = "grillz" ∧
  calculate_price (Examples.gold4 false) = inr (PyInt (299 * 4)).
Proof.
  split; [reflexivity|].
  pose proof (proj1 grillz_price (Examples.gold4 false) 2 "uuid-1"
                ("cs_1", "https://pay/cs_1") Examples.fresh_referral []
                eq_refl) as H.
  exact (proj1 H).
Defined.

(** ** The webhook endpoint *)

Lemma truthy_nonempty (s : string) : s ≠ "" → truthy (Some s) = Some s.
Proof. destruct s; [done|reflexivity]. Qed.

Lemma handle_successful_payment_unknown (sid : string) (w : World) :
  order_of_session sid (session w) = [] →
  let '(r, w') := handle_successful_payment sid w in
  committed w' = committed w ∧
  (r = inr () ∧ log w' = log w ++ [not_found_entry sid] ∨
   head (faults w) = Some true ∧ r = inl SQLAlchemyError ∧ log w' = log w).
Proof.
  intros Hno. unfold handle_successful_payment, bind, execute, fallible, bind.
  destruct w as [c s [|[] fs] l]; cbn in *; rewrite ?Hno; cbn; auto.
Qed.

Lemma handle_failed_payment_unknown (sid : string) (w : World) :
  order_of_session sid (session w) = [] →
  let '(r, w') := handle_failed_payment sid w in
  committed w' = committed w ∧
  (r = inr () ∧ log w' = log w ++ [not_found_entry sid] ∨
   head (faults w) = Some true ∧ r = inl SQLAlchemyError ∧ log w' = log w).
Proof.
  intros Hno. unfold handle_failed_payment, bind, execute, fallible, bind.
  destruct w as [c s [|[] fs] l]; cbn in *; rewrite ?Hno; cbn; auto.
Qed.

(** C9: once the signature is verified the endpoint answers "success",
    whatever the event and whatever fails inside the handlers (their
    exceptions are caught and logged).  When the event's checkout session
    matches no order the database is left as it was and, for a completed or
    expired event, an error is logged: "Order not found" when the lookup
    itself does not fail, the caught exception otherwise. *)
Theorem webhook_acknowledges (secret : string) (ev : Event) (d : DB) (fs : list bool) :
  secret ≠ "" →
  let '(r, w) := stripe_webhook (Some secret) (inr ev) (start d fs) in
  r = inr "success" ∧
  (order_of_session (ev_session_id ev) d = [] →
   committed w = d ∧
   (ev_type ev = "checkout.session.completed" ∨ ev_type ev = "checkout.session.expired" →
    (∃ msg, (ERROR, msg) ∈ log w) ∧
    (head fs ≠ Some true → not_found_entry (ev_session_id ev) ∈ log w))).
Proof.
  intros Hs. unfold stripe_webhook. rewrite (truthy_nonempty _ Hs).
  unfold bind, logger, start, attempt. cbn.
  repeat case_bool_decide.
  - match goal with |- context [handle_successful_payment ?a ?b] =>
      pose proof (handle_successful_payment_unknown a b) as Hh;
      destruct (handle_successful_payment a b) as [[e|[]] w] end; cbn in *.
    all: split; [reflexivity|]; intros Hno; destruct (Hh Hno) as [Hc Hl].
    all: split; [done|]; intros _.
    all: destruct Hl as [[He Hlog]|(Hf & He & Hlog)]; try discriminate He.
    all: rewrite Hlog; split; [eexists; repeat constructor|].
    all: intros Hf'; try done; repeat constructor.
  - match goal with |- context [handle_failed_payment ?a ?b] =>
      pose proof (handle_failed_payment_unknown a b) as Hh;
      destruct (handle_failed_payment a b) as [[e|[]] w] end; cbn in *.
    all: split; [reflexivity|]; intros Hno; destruct (Hh Hno) as [Hc Hl].
    all: split; [done|]; intros _.
    all: destruct Hl as [[He Hlog]|(Hf & He & Hlog)]; try discriminate He.
    all: rewrite Hlog; split; [eexists; repeat constructor|].
    all: intros Hf'; try done; repeat constructor.
  - cbn. split; [reflexivity|]. intros _. split; [reflexivity|]. intros [?|?]; congruence.
Qed.

(** [webhook_acknowledges] for an unknown session, once with a lookup that
    succeeds and once with a lookup that raises inside the handler. *)
Lemma webhook_acknowledges_witness :
  let run fs := stripe_webhook (Some "whsec") (inr (completed "cs_404"))
                  (start Examples.paid_db fs) in
  ((run []).1 = inr "success" ∧ committed (run []).2 = Examples.paid_db
   ∧ not_found_entry "cs_404" ∈ log (run []).2)
  ∧ ((run [true]).1 = inr "success" ∧ committed (run [true]).2 = Examples.paid_db).
Proof.
  assert (Hs : "whsec" ≠ "") by discriminate.
  cbv zeta. split.
  - pose proof (webhook_acknowledges "whsec" (completed "cs_404") Examples.paid_db [] Hs) as H.
    destruct (stripe_webhook _ _ _) as [r w]. destruct H as [Hr Hd].
    destruct (Hd eq_refl) as [Hc Hl]. repeat split; [done..|].
    apply Hl; [by left | discriminate].
  - pose proof (webhook_acknowledges "whsec" (completed "cs_404") Examples.paid_db [true] Hs) as H.
    destruct (stripe_webhook _ _ _) as [r w]. destruct H as [Hr Hd].
    destruct (Hd eq_refl) as [Hc Hl]. by split.
Defined.

(** ** Registration *)

Lemma filter_none {A} (P : A → Prop) `{∀ x, Decision (P x)} (l : list A) :
  (∀ x, x ∈ l → ¬ P x) → filter P l = [].
Proof.
  induction l as [|x l IH]; intros Hl; [done|].
  rewrite filter_cons_False by (apply Hl; left). apply IH.
  intros y Hy. apply Hl. by right.
Qed.

Lemma register_unknown_code (ud : UserCreate) (code hashed code8 : string) (d : DB) (fs : list bool) :
  referral_code ud = Some code → code ≠ "" → code_by_code code d = [] →
  let '(r, d') := run_request (register ud hashed code8) d fs in
  d' = d ∧ (∃ e, r = inl e) ∧
  (fs = [] → (length (user_by_email (email ud) d) ≤ 1)%nat →
   ∃ detail, r = inl (HTTPException 400 detail)).
Proof.
  intros Hc Hne Hno. unfold run_request, register, start, bind, execute, fallible, bind.
  rewrite Hc, (truthy_nonempty _ Hne).
  destruct fs as [|[] fs]; cbn.
  - destruct (user_by_email (email ud) d) as [|u [|u' us]]; cbn; rewrite ?Hno; cbn.
    all: split; [done|]; split; [eauto|]; intros _ Hlen; cbn in Hlen; try lia; eauto.
  - split; [done|]; split; [eauto|]; done.
  - destruct (user_by_email (email ud) d) as [|u [|u' us]]; cbn.
    2,3: split; [done|]; split; [eauto|]; done.
    destruct fs as [|[] fs]; cbn; rewrite ?Hno; cbn.
    all: split; [done|]; split; [eauto|]; done.
Qed.

Lemma register_ambiguous_code (ud : UserCreate) (code hashed code8 : string) (d : DB)
    (fs : list bool) (c c' : ReferralCode) (cs : list ReferralCode) :
  referral_code ud = Some code → code ≠ "" → code_by_code code d = c :: c' :: cs →
  (run_request (register ud hashed code8) d fs).2 = d.
Proof.
  intros Hc Hne Hcode. unfold run_request, register, start.
  rewrite Hc, (truthy_nonempty _ Hne). run_cases; try reflexivity.
  all: rewrite Hcode in *; discriminate.
Qed.

Lemma register_known_code (ud : UserCreate) (code hashed code8 : string) (d : DB) (c : ReferralCode) :
  referral_code ud = Some code → code ≠ "" → code_by_code code d = [c] →
  user_by_email (email ud) d = [] →
  run_request (register ud hashed code8) d []
  = (inr (mkUserResponse (email ud) (full_name ud) false),
     mkDB (users d ++ [new_user ud hashed d]) (orders d)
          (referral_codes d ++ [mkReferralCode (next_id rc_id (referral_codes d)) code8
                                   (next_id u_id (users d))])
          (referral_uses d ++ [mkReferralUse (next_id ru_id (referral_uses d)) (rc_id c)
                                 (next_id u_id (users d)) None false false false])).
Proof.
  intros Hc Hne Hcode Hemail.
  unfold run_request, register, start, bind, execute, fallible, bind.
  rewrite Hc, (truthy_nonempty _ Hne). cbn. rewrite Hemail. cbn. rewrite Hcode. cbn.
  unfold new_user. rewrite Hc. reflexivity.
Qed.

Lemma use_of_fresh_user (d : DB) (code_id : Z) (row : ReferralUse) :
  (∀ r, r ∈ referral_uses d → ∃ u, u ∈ users d ∧ u_id u = ru_referred_user_id r) →
  ru_referral_code_id row = code_id →
  ru_referred_user_id row = next_id u_id (users d) →
  filter (λ r, ru_referral_code_id r = code_id ∧ ru_referred_user_id r = next_id u_id (users d))
         (referral_uses d ++ [row]) = [row].
Proof.
  intros Hfk Hc Hu. rewrite filter_app.
  replace (filter _ (referral_uses d)) with (@nil ReferralUse).
  - rewrite app_nil_l, filter_cons_True by done. reflexivity.
  - symmetry. apply filter_none. intros r Hr [_ Hu'].
    destruct (Hfk r Hr) as (u & Hin & Hid).
    pose proof (next_id_gt u_id _ _ Hin). lia.
Qed.

Lemma register_without_code (ud : UserCreate) (hashed code8 : string) (d : DB) :
  truthy (referral_code ud) = None → user_by_email (email ud) d = [] →
  run_request (register ud hashed code8) d []
  = (inr (mkUserResponse (email ud) (full_name ud) false),
     mkDB (users d ++ [new_user ud hashed d]) (orders d)
          (referral_codes d ++ [mkReferralCode (next_id rc_id (referral_codes d)) code8
                                   (next_id u_id (users d))])
          (referral_uses d)).
Proof.
  intros Hc Hemail.
  unfold run_request, register, start, bind, execute, fallible, bind.
  rewrite Hc. cbn. rewrite Hemail. cbn. reflexivity.
Qed.

(** The empty string is a supplied code that matches no row, and the
    registration goes through: Carol is registered, with [referred_by] the
    empty string and no ReferralUse. *)
Lemma empty_code_registers :
  ¬ unknown_code_rejected (mkUserCreate "carol@example.com" "pw" "Carol" (Some ""))
      "h3" "CCCC3333" Examples.inactive_referral.
Proof.
  unfold unknown_code_rejected. intros H. specialize (H "" eq_refl eq_refl).
  vm_compute in H. destruct H as [[detail H] _]. discriminate H.
Qed.

(** C8, amended.  A registration that supplies a non-empty referral code
    matching no ReferralCode row is rejected and leaves the database as it
    was, so no User row is created; when the database calls do not fail the
    rejection is a 400.  With a non-empty code that matches one row, an
    email not yet registered, a generated code [code8] that is not in use,
    and no call failing, the user is created with [referred_by] set to the
    code, together with the user's own code and exactly one new ReferralUse
    row, which is for that code and that user; where every earlier
    ReferralUse refers to an existing user, it is the only row of that pair.
    (A code that matches several rows makes the lookup raise, and nothing
    is created either.)  The empty string is taken for no code by Python's
    test [if user_data.referral_code]: under the same conditions the user is
    registered with [referred_by] the empty string and no ReferralUse row is
    added, whatever rows there are. *)
Theorem register_with_referral_code (ud : UserCreate) (code hashed code8 : string)
    (d : DB) (fs : list bool) :
  referral_code ud = Some code →
  (code ≠ "" →
   match code_by_code code d with
   | [] =>
       let '(r, d') := run_request (register ud hashed code8) d fs in
       d' = d ∧ (∃ e, r = inl e) ∧
       (fs = [] → (length (user_by_email (email ud) d) ≤ 1)%nat →
        ∃ detail, r = inl (HTTPException 400 detail))
   | [c] =>
       user_by_email (email ud) d = [] → code_by_code code8 d = [] →
       ∃ u row d',
         run_request (register ud hashed code8) d []
         = (inr (mkUserResponse (email ud) (full_name ud) false), d') ∧
         users d' = users d ++ [u] ∧ u_email u = email ud ∧ u_referred_by u = Some code ∧
         referral_uses d' = referral_uses d ++ [row] ∧
         ru_referral_code_id row = rc_id c ∧ ru_referred_user_id row = u_id u ∧
         ((∀ r, r ∈ referral_uses d → ∃ u', u' ∈ users d ∧ u_id u' = ru_referred_user_id r) →
          use_of (rc_id c) (u_id u) d' = [row])
   | _ => (run_request (register ud hashed code8) d fs).2 = d
   end) ∧
  (code = "" →
   user_by_email (email ud) d = [] → code_by_code code8 d = [] →
   ∃ u d',
     run_request (register ud hashed code8) d []
     = (inr (mkUserResponse (email ud) (full_name ud) false), d') ∧
     users d' = users d ++ [u] ∧ u_email u = email ud ∧ u_referred_by u = Some "" ∧
     referral_uses d' = referral_uses d).
Proof.
  intros Hc. split.
  - intros Hne.
    destruct (code_by_code code d) as [|c [|c' cs]] eqn:Hcode;
      [| |by apply (register_ambiguous_code ud code hashed code8 d fs c c' cs)].
    + by apply (register_unknown_code ud code).
    + intros Hemail _. do 3 eexists. split.
      { by apply (register_known_code ud code hashed code8 d c). }
      unfold new_user. cbn. rewrite ?Hc. do 6 (split; [reflexivity|]).
      intros Hfk. unfold use_of. cbn. by apply use_of_fresh_user.
  - intros -> Hemail _. do 2 eexists. split.
    { apply register_without_code; [by rewrite Hc|done]. }
    unfold new_user. cbn. rewrite Hc. done.
Qed.

(** [register_with_referral_code] for Carol, with a code nobody owns, with
    Ann's code, and with the empty string, the generated code CCCC3333
    being new. *)
Lemma register_with_referral_code_witness :
  let carol code := mkUserCreate "carol@example.com" "pw" "Carol" (Some code) in
  (run_request (register (carol "ZZZZ9999") "h3" "CCCC3333") Examples.inactive_referral []).2
  = Examples.inactive_referral ∧
  (∃ d', (run_request (register (carol "AAAA1111") "h3" "CCCC3333")
            Examples.inactive_referral []).2 = d' ∧
         length (users d') = 3%nat ∧ length (referral_uses d') = 2%nat) ∧
  (∃ d', (run_request (register (carol "") "h3" "CCCC3333")
            Examples.inactive_referral []).2 = d' ∧
         length (users d') = 3%nat ∧ length (referral_uses d') = 1%nat).
Proof.
  cbv zeta. split; [|split].
  - destruct (register_with_referral_code
                (mkUserCreate "carol@example.com" "pw" "Carol" (Some "ZZZZ9999"))
                "ZZZZ9999" "h3" "CCCC3333" Examples.inactive_referral [] eq_refl) as [H _].
    specialize (H ltac:(discriminate)). cbn in H.
    destruct (run_request _ _ _) as [r d']. by destruct H.
  - destruct (register_with_referral_code
                (mkUserCreate "carol@example.com" "pw" "Carol" (Some "AAAA1111"))
                "AAAA1111" "h3" "CCCC3333" Examples.inactive_referral [] eq_refl) as [H _].
    specialize (H ltac:(discriminate)). cbn in H. specialize (H eq_refl eq_refl).
    destruct H as (u & row & d' & Hrun & Hu & _ & _ & Hr & _).
    exists d'. rewrite Hrun, Hu, Hr. done.
  - destruct (register_with_referral_code
                (mkUserCreate "carol@example.com" "pw" "Carol" (Some ""))
                "" "h3" "CCCC3333" Examples.inactive_referral [] eq_refl) as [_ H].
    destruct (H eq_refl eq_refl eq_refl) as (u & d' & Hrun & Hu & _ & _ & Hr).
    exists d'. rewrite Hrun, Hu, Hr. done.
Defined.

(** ** The referee branch of apply_referral_discount *)


Lemma apply_referee (uid : Z) (p : pynum) (d : DB) (r : ReferralUse) (fs : list bool) :
  unused_referee uid d = [r] →
  let d1 := with_referral_uses (update_row ru_id (ru_id r) set_referee_discount_used) d in
  run_request (apply_referral_discount uid p) d fs
  = match fs, py_mul_float p 0.9%float with
    | true :: _, _ => (inr (p, None), d)
    | _, None => (inr (p, None), d)
    | [], Some p' | [false], Some p' | false :: false :: _, Some p' =>
        (inr (p', Some "referee"), d1)
    | false :: true :: _, Some p' => (inr (p', Some "referee"), d)
    end.
Proof.
  intros Hr. unfold run_request, apply_referral_discount, apply_referral_discount_body.
  unfold start, bind, attempt, execute, fallible, bind, py_mul, lift.
  destruct fs as [|[] [|[] fs]]; cbn; rewrite ?Hr; cbn.
  all: destruct (py_mul_float p 0.9%float) as [p'|]; cbn; reflexivity.
Qed.

(** ** The completed handler *)

Lemma activate_referral_bonus_spec (user_id order_id : Z) (w : World) :
  let '(res, w') := activate_referral_bonus user_id order_id w in
  res = inr () ∧
  match activation_target user_id (session w) with
  | inl _ => rolled_back w w'
  | inr None => rolled_back w w' ∨ untouched w w'
  | inr (Some r) => rolled_back w w' ∨ activated order_id r w w'
  end ∧
  (faults w = [] →
   faults w' = [] ∧
   match activation_target user_id (session w) with
   | inl _ => rolled_back w w'
   | inr None => untouched w w'
   | inr (Some r) => activated order_id r w w'
   end).
Proof.
  unfold activate_referral_bonus, activate_referral_bonus_body, activation_target.
  unfold rolled_back, untouched, activated.
  destruct w as [c s fs l]. run_cases.
  all: try (by intuition (try discriminate; auto)).
Qed.

Lemma handle_successful_payment_spec (sid : string) (d : DB) (fs : list bool)
    (l : list (level * string)) :
  let d' := committed (handle_successful_payment sid (mkWorld d d fs l)).2 in
  match order_of_session sid d with
  | [o] =>
      if bool_decide (o_payment_status o = "paid") then d' = d
      else
        match activation_target (o_user_id o) (mark_paid o d) with
        | inl _ => d' = d
        | inr None =>
            (d' = d ∨ d' = mark_paid o d) ∧ (fs = [] → d' = mark_paid o d)
        | inr (Some r) =>
            (d' = d ∨ d' = mark_active (o_id o) r (mark_paid o d))
            ∧ (fs = [] → d' = mark_active (o_id o) r (mark_paid o d))
        end
  | _ => d' = d
  end.
Proof.
  cbv zeta. unfold handle_successful_payment.
  unfold bind at 1. unfold execute, bind, fallible. cbn.
  destruct fs as [|[] fs]; cbn.
  all: destruct (order_of_session sid d) as [|o [|o' os]]; cbn; try reflexivity.
  all: case_bool_decide; cbn; try reflexivity.
  all: unfold logger, modify_session; cbn.
  all: try (repeat case_match; auto; fail).
  all: try (repeat case_match; intuition (try discriminate; auto); fail).
  all: match goal with |- context [activate_referral_bonus ?a ?b ?c] =>
         pose proof (activate_referral_bonus_spec a b c) as Ha;
         destruct (activate_referral_bonus a b c) as [res w'] end.
  all: destruct Ha as (-> & Hany & Hnone); cbn in *.
  all: fold (mark_paid o d) in *.
  all: unfold rolled_back, untouched, activated in *; cbn in *.
  all: fold (mark_paid o d) in *.
  all: unfold commit, bind, fallible; destruct w' as [c' s' fs' l']; cbn in *.
  all: unfold mark_active.
  all: destruct (activation_target _ _) as [e|[r|]].
  all: destruct fs' as [|[] fs'']; cbn.
  all: intuition (subst; try discriminate; auto).
Qed.

Lemma deliver_completed_eq (sid : string) (d : DB) (fs : list bool) :
  ∃ l, deliver (completed sid) d fs
       = committed (handle_successful_payment sid (mkWorld d d fs l)).2.
Proof.
  exists [(INFO, "Verified Stripe webhook event: checkout.session.completed");
          (INFO, "Processing checkout session completed: " +:+ sid)].
  unfold deliver, run_request, stripe_webhook, completed, start.
  unfold bind, attempt, logger. cbn.
  case_bool_decide; [|done]. cbn.
  destruct (handle_successful_payment _ _) as [[e|[]] w']; reflexivity.
Qed.

Lemma filter_update_row {A} (P : A → Prop) `{∀ x, Decision (P x)} (key : A → Z) (k : Z)
    (f : A → A) (t : list A) :
  (∀ x, P (f x) ↔ P x) →
  filter P (update_row key k f t) = update_row key k f (filter P t).
Proof.
  intros Hf. unfold update_row. induction t as [|x t IH]; [done|].
  rewrite fmap_cons.
  assert (Hx : P (if bool_decide (key x = k) then f x else x) ↔ P x).
  { case_bool_decide; [apply Hf | done]. }
  destruct (decide (P x)) as [Hp|Hp].
  - rewrite (filter_cons_True P x), filter_cons_True by tauto.
    by rewrite fmap_cons, IH.
  - rewrite (filter_cons_False P x), filter_cons_False by tauto. done.
Qed.

Lemma order_of_session_mark_paid (sid : string) (o : Order) (d : DB) :
  order_of_session sid d = [o] →
  order_of_session sid (mark_paid o d) = [set_payment_status "paid" o].
Proof.
  intros Ho. unfold order_of_session, mark_paid. cbn.
  rewrite filter_update_row by done.
  fold (order_of_session sid d). rewrite Ho. cbn.
  by rewrite bool_decide_eq_true_2.
Qed.

Lemma deliver_completed_paid (sid : string) (d : DB) (o : Order) (fs : list bool) :
  order_of_session sid d = [o] → o_payment_status o = "paid" →
  deliver (completed sid) d fs = d.
Proof.
  intros Ho Hp. destruct (deliver_completed_eq sid d fs) as [l ->].
  pose proof (handle_successful_payment_spec sid d fs l) as H.
  cbv zeta in H. rewrite Ho in H. by rewrite bool_decide_eq_true_2 in H.
Qed.

Lemma deliver_completed_twice (sid : string) (d : DB) (fs' : list bool) :
  deliver (completed sid) (deliver (completed sid) d []) fs' = deliver (completed sid) d [].
Proof.
  destruct (deliver_completed_eq sid d []) as [l Hd1].
  pose proof (handle_successful_payment_spec sid d [] l) as H1.
  cbv zeta in H1. rewrite <- Hd1 in H1.
  set (d1 := deliver (completed sid) d []) in *.
  assert (Hsame : ∀ d0, d0 = d → deliver (completed sid) d0 fs' = d0 → d1 = d →
                        deliver (completed sid) d1 fs' = d1) by (intros; congruence).
  destruct (deliver_completed_eq sid d fs') as [l' Hd2].
  pose proof (handle_successful_payment_spec sid d fs' l') as H2.
  cbv zeta in H2. rewrite <- Hd2 in H2.
  destruct (order_of_session sid d) as [|o [|o' os]] eqn:Ho.
  1,3: rewrite H1; exact H2.
  case_bool_decide as Hp; [rewrite H1; exact H2|].
  destruct (activation_target _ _) as [e|[r|]].
  - rewrite H1; exact H2.
  - destruct H1 as [_ H1]. rewrite (H1 eq_refl).
    apply (deliver_completed_paid sid _ (set_payment_status "paid" o)); [|done].
    unfold mark_active. apply (order_of_session_mark_paid sid o d Ho).
  - destruct H1 as [_ H1]. rewrite (H1 eq_refl).
    apply (deliver_completed_paid sid _ (set_payment_status "paid" o)); [|done].
    by apply order_of_session_mark_paid.
Qed.

Lemma filter_key_unique {A K} `{EqDecision K} (key : A → K) (k : K) (t : list A) :
  NoDup (key <$> t) →
  filter (λ x, key x = k) t = [] ∨ ∃ x, filter (λ x, key x = k) t = [x].
Proof.
  induction t as [|x t IH]; intros Hnd; [by left|].
  rewrite fmap_cons in Hnd. apply NoDup_cons in Hnd as [Hx Hnd].
  destruct (decide (key x = k)) as [Hk|Hk].
  - right. exists x. rewrite filter_cons_True by done. f_equal.
    apply filter_none. intros y Hy Hyk. apply Hx.
    rewrite <- Hk in Hyk. rewrite <- Hyk. by apply list_elem_of_fmap_2.
  - rewrite filter_cons_False by done. by apply IH.
Qed.

Lemma use_of_pair (code_id user_id : Z) (d : DB) :
  use_of code_id user_id d
  = filter (λ r, (ru_referral_code_id r, ru_referred_user_id r) = (code_id, user_id))
           (referral_uses d).
Proof.
  unfold use_of. apply list_filter_iff. intros r. split.
  - intros [-> ->]. done.
  - intros [= -> ->]. done.
Qed.

Lemma activation_target_unique (user_id : Z) (d : DB) :
  lookups_unique d →
  activation_target user_id d = inr None ∨
  ∃ r, activation_target user_id d = inr (Some r) ∧ r ∈ referral_uses d ∧
       ru_is_active r = false.
Proof.
  intros (Hu & Hc & Hr). unfold activation_target.
  destruct (filter_key_unique u_id user_id (users d) Hu) as [Hf|[u Hf]];
    unfold user_by_id; rewrite Hf; [by left|].
  destruct (truthy (u_referred_by u)) as [code|]; [|by left].
  destruct (filter_key_unique rc_code code (referral_codes d) Hc) as [Hf'|[c Hf']];
    unfold code_by_code; rewrite Hf'; [by left|].
  rewrite use_of_pair.
  destruct (filter_key_unique (λ r, (ru_referral_code_id r, ru_referred_user_id r))
              (rc_id c, user_id) (referral_uses d) Hr) as [Hf''|[r Hf'']];
    rewrite Hf''; [by left|].
  destruct (ru_is_active r) eqn:Ha; [by left|].
  right. exists r. split; [done|]. split; [|done].
  assert (Hin : r ∈ [r]) by by left.
  rewrite <- Hf'' in Hin. by apply list_elem_of_filter in Hin as [_ ?].
Qed.

Lemma lookups_unique_mark_paid (o : Order) (d : DB) :
  lookups_unique d → lookups_unique (mark_paid o d).
Proof. done. Qed.

Lemma activated_row (order_id k : Z) (t : list ReferralUse) (r' : ReferralUse) :
  r' ∈ update_row ru_id k (set_active order_id) t → ru_id r' = k →
  ru_is_active r' = true ∧ ru_first_order_id r' = Some order_id.
Proof.
  unfold update_row. intros (y & -> & Hy)%list_elem_of_fmap.
  case_bool_decide; [done|]. intros. done.
Qed.

Lemma deliver_completed_first (sid : string) (d : DB) (o : Order) :
  order_of_session sid d = [o] → o_payment_status o ≠ "paid" → lookups_unique d →
  let d1 := deliver (completed sid) d [] in
  orders d1 = update_row o_id (o_id o) (set_payment_status "paid") (orders d) ∧
  order_of_session sid d1 = [set_payment_status "paid" o] ∧
  (referral_uses d1 = referral_uses d ∨
   ∃ r, r ∈ referral_uses d ∧ ru_is_active r = false ∧
        referral_uses d1 = update_row ru_id (ru_id r) (set_active (o_id o)) (referral_uses d)).
Proof.
  intros Ho Hp Hu. cbv zeta.
  destruct (deliver_completed_eq sid d []) as [l ->].
  pose proof (handle_successful_payment_spec sid d [] l) as H.
  cbv zeta in H. rewrite Ho in H. rewrite bool_decide_eq_false_2 in H by done.
  destruct (activation_target_unique (o_user_id o) (mark_paid o d)
              (lookups_unique_mark_paid o d Hu)) as [Ht|(r & Ht & Hin & Ha)];
    rewrite Ht in H; destruct H as [_ H]; rewrite (H eq_refl).
  - split; [done|]. split; [by apply order_of_session_mark_paid|]. by left.
  - split; [done|]. split; [by apply (order_of_session_mark_paid sid o d)|].
    right. exists r. done.
Qed.

(** C4: delivering checkout.session.completed again changes nothing.  A
    second delivery after a first one that no failure interrupted leaves
    the database of the first, whatever fails during the second; more
    generally, once the order of the session is 'paid' a further delivery
    is a no-op.  Where the lookups are unambiguous, the first delivery is
    the one pending→paid transition: the order of the session, which was not
    'paid', is 'paid' afterwards, and no order with another key changes.
    It activates at most one ReferralUse, which was inactive before and is
    afterwards active with the order as its first order. *)
Theorem completed_idempotent (sid : string) (d : DB) (fs fs' : list bool) :
  deliver (completed sid) (deliver (completed sid) d []) fs'
  = deliver (completed sid) d [] ∧
  (∀ o, order_of_session sid (deliver (completed sid) d fs) = [o] →
        o_payment_status o = "paid" →
        deliver (completed sid) (deliver (completed sid) d fs) fs'
        = deliver (completed sid) d fs) ∧
  (∀ o, order_of_session sid d = [o] → o_payment_status o ≠ "paid" → lookups_unique d →
        let d1 := deliver (completed sid) d [] in
        o_payment_status <$> order_of_session sid d1 = ["paid"] ∧
        orders d1 = update_row o_id (o_id o) (set_payment_status "paid") (orders d) ∧
        order_of_session sid d1 = [set_payment_status "paid" o] ∧
        (referral_uses d1 = referral_uses d ∨
         ∃ r, r ∈ referral_uses d ∧ ru_is_active r = false ∧
              referral_uses d1
              = update_row ru_id (ru_id r) (set_active (o_id o)) (referral_uses d) ∧
              ∀ r', r' ∈ referral_uses d1 → ru_id r' = ru_id r →
                    ru_is_active r' = true ∧ ru_first_order_id r' = Some (o_id o))).
Proof.
  split; [apply deliver_completed_twice|]. split.
  - intros o Ho Hp. by apply (deliver_completed_paid sid _ o).
  - intros o Ho Hp Hu. cbv zeta.
    destruct (deliver_completed_first sid d o Ho Hp Hu) as (Hord & Hs & Hr).
    split; [by rewrite Hs|]. split; [done|]. split; [done|].
    destruct Hr as [Hr|(r & Hin & Ha & Hr)]; [by left|].
    right. exists r. split; [done|]. split; [done|]. split; [done|].
    intros r' Hr' Hid. rewrite Hr in Hr'. by apply (activated_row _ _ _ _ Hr').
Qed.

Lemma lookups_unique_pending_db : lookups_unique Examples.pending_db.
Proof. repeat split; apply (bool_decide_unpack _); vm_compute; exact I. Qed.

(** [completed_idempotent] on Bob's order, written out as 'pending': the
    first delivery marks it paid and activates Ann's referral with that
    order, the second changes nothing even if its lookup succeeds. *)
Lemma completed_idempotent_witness :
  let d1 := deliver (completed "cs_1") Examples.pending_db [] in
  o_payment_status <$> orders Examples.pending_db = ["pending"] ∧
  ru_is_active <$> referral_uses Examples.pending_db = [false] ∧
  o_payment_status <$> orders d1 = ["paid"] ∧
  (ru_is_active <$> referral_uses d1 = [true] ∧
   ru_first_order_id <$> referral_uses d1 = [Some 1]) ∧
  deliver (completed "cs_1") d1 [false; false] = d1.
Proof.
  cbv zeta.
  destruct (completed_idempotent "cs_1" Examples.pending_db [] [false; false])
    as (_ & Hpaid & Hfirst).
  destruct (Hfirst Examples.pending_order eq_refl ltac:(discriminate)
              lookups_unique_pending_db) as (Hstatus & Ho & Hs & _).
  split; [reflexivity|]. split; [reflexivity|]. split; [|split].
  - rewrite Ho. reflexivity.
  - split; vm_compute; reflexivity.
  - by apply (Hpaid _ Hs).
Defined.

(** ** Referral rows over the requests *)

Lemma apply_referral_discount_outcome (uid : Z) (p : pynum) (w : World) :
  let '(res, w') := apply_referral_discount uid p w in
  (∃ total kind, res = inr (total, kind)) ∧ session w' = committed w' ∧
  (committed w' = committed w ∨ committed w' = session w ∨
   ∃ k f, (f = set_referee_discount_used ∨ f = set_referrer_discount_used) ∧
          committed w' = with_referral_uses (update_row ru_id k f) (session w)).
Proof.
  unfold apply_referral_discount, apply_referral_discount_body.
  destruct w as [c s fs l]. run_cases.
  all: split; [eauto|]; split; [reflexivity|]; eauto 7.
Qed.

Lemma db_step_ext (d d1 d2 : DB) :
  db_step d d1 → users d2 = users d1 → referral_uses d2 = referral_uses d1 → db_step d d2.
Proof.
  intros H Hu Hr. destruct H.
  - apply step_same; etrans; eauto.
  - eapply step_flag; [done|etrans; eauto..].
  - eapply step_activate; [done|done|etrans; eauto..].
  - eapply step_user; [done|etrans; eauto..].
  - eapply step_referred; [done|etrans; eauto..].
Qed.

Lemma db_step_ru_change (d d' : DB) :
  db_step d d' → ru_change (referral_uses d) (referral_uses d').
Proof.
  intros H. destruct H as [d' _ ->|d' k f Hf _ ->|d' r k Hin Ha _ ->|d' u _ _ ->|d' u c _ _ ->];
    by constructor.
Qed.

Lemma register_step (ud : UserCreate) (hashed code8 : string) (d : DB) (fs : list bool) :
  db_step d (run_request (register ud hashed code8) d fs).2.
Proof.
  unfold run_request, register, start. run_cases.
  all: close_step.
Qed.

Lemma create_order_step (od : OrderCreate) (uid : Z) (uuid : string)
    (cs : string * string) (d : DB) (fs : list bool) :
  db_step d (run_request (create_order od uid uuid cs) d fs).2.
Proof.
  unfold run_request, create_order, start.
  unfold bind at 1. unfold logger at 1. cbn.
  unfold bind at 1. unfold lift at 1.
  destruct (calculate_price od) as [e|p]; cbn; [by apply step_same|].
  unfold bind at 1.
  destruct (default false (use_referral_discount od)).
  - match goal with |- context [apply_referral_discount ?a ?b ?c] =>
      pose proof (apply_referral_discount_outcome a b c) as Ha;
      destruct (apply_referral_discount a b c) as [res w1] end.
    destruct Ha as ((total & kind & ->) & Hs & Hc). cbn in Hc.
    destruct w1 as [c1 s1 fs1 l1]. cbn in Hs, Hc. subst s1.
    assert (Hch : db_step d c1).
    { destruct Hc as [-> | [-> | (k & f & Hf & ->)]];
        [by apply step_same..|by eapply step_flag]. }
    clear Hc. run_all_cases; by apply (db_step_ext d c1).
  - run_all_cases; by apply step_same.
Qed.

Lemma activation_target_Some (user_id : Z) (s : DB) (r : ReferralUse) :
  activation_target user_id s = inr (Some r) →
  r ∈ referral_uses s ∧ ru_is_active r = false.
Proof.
  unfold activation_target. intros H.
  repeat case_match; try discriminate.
  injection H as <-. split; [|done].
  match goal with H : use_of _ _ _ = [?x] |- _ =>
    assert (Hin : x ∈ [x]) by (by left); rewrite <- H in Hin end.
  by apply list_elem_of_filter in Hin as [_ ?].
Qed.

Lemma handle_failed_payment_keeps (sid : string) (w : World) :
  users (session w) = users (committed w) →
  referral_uses (session w) = referral_uses (committed w) →
  let c' := committed (handle_failed_payment sid w).2 in
  users c' = users (committed w) ∧ referral_uses c' = referral_uses (committed w).
Proof.
  unfold handle_failed_payment. destruct w as [c s fs l]. cbn. intros Hu Hs.
  run_cases; done.
Qed.

Lemma webhook_step (secret : option string) (constructed : exn + Event) (d : DB)
    (fs : list bool) :
  db_step d (run_request (stripe_webhook secret constructed) d fs).2.
Proof.
  unfold run_request, stripe_webhook, start.
  destruct (truthy secret); [|by apply step_same].
  destruct constructed as [e|ev]; [destruct e; by apply step_same|].
  unfold bind at 1. unfold bind at 1. unfold logger at 1. cbn.
  unfold bind at 1.
  repeat case_bool_decide.
  - unfold bind at 1. unfold logger at 1. cbn. unfold bind at 1. unfold attempt.
    match goal with |- context [handle_successful_payment ?a (mkWorld ?b ?c ?e ?g)] =>
      pose proof (handle_successful_payment_spec a b e g) as Hh;
      destruct (handle_successful_payment a (mkWorld b c e g)) as [res w1] end.
    cbv zeta in Hh. cbn in Hh.
    assert (Hch : db_step d (committed w1)).
    { repeat case_match; try (rewrite Hh; by apply step_same).
      - destruct Hh as [[-> | ->] _]; [by apply step_same|].
        match goal with H : activation_target _ _ = inr (Some _) |- _ =>
          apply activation_target_Some in H as [Hin Hact] end.
        by eapply step_activate.
      - destruct Hh as [[-> | ->] _]; by apply step_same. }
    destruct res as [e|[]]; exact Hch.
  - unfold bind at 1. unfold logger at 1. cbn. unfold bind at 1. unfold attempt.
    match goal with |- context [handle_failed_payment ?a ?b] =>
      pose proof (handle_failed_payment_keeps a b eq_refl eq_refl) as Hh;
      destruct (handle_failed_payment a b) as [res w1] end.
    cbn in Hh. destruct Hh as [Hu Hr]. destruct res as [e|[]]; cbn; by apply step_same.
  - by apply step_same.
Qed.

Lemma row_kept_refl (r : ReferralUse) : row_kept r r.
Proof. by repeat split. Qed.

Lemma update_row_ids (k : Z) (f : ReferralUse → ReferralUse) (t : list ReferralUse) :
  (∀ r, ru_id (f r) = ru_id r) →
  ru_id <$> update_row ru_id k f t = ru_id <$> t.
Proof.
  intros Hf. unfold update_row. rewrite <- list_fmap_compose. apply list_fmap_ext.
  intros i x _. cbn. case_bool_decide; [apply Hf | done].
Qed.

Lemma update_row_evolves (k : Z) (f : ReferralUse → ReferralUse) (t : list ReferralUse) :
  (∀ r, r ∈ t → ru_id r = k → row_kept r (f r)) →
  ru_evolves t (update_row ru_id k f t).
Proof.
  intros Hf i r Hi. rewrite update_row_lookup, Hi. cbn.
  eexists. split; [reflexivity|]. case_bool_decide.
  - apply Hf; [|done]. apply list_elem_of_lookup. eauto.
  - apply row_kept_refl.
Qed.

Lemma update_row_elem (k : Z) (f : ReferralUse → ReferralUse) (t : list ReferralUse)
    (x : ReferralUse) :
  x ∈ update_row ru_id k f t → x ∈ t ∨ ∃ y, y ∈ t ∧ ru_id y = k ∧ x = f y.
Proof.
  unfold update_row. intros (y & -> & Hy)%list_elem_of_fmap.
  case_bool_decide; [right; eauto | by left].
Qed.

Lemma ru_change_sound (t t' : list ReferralUse) :
  ru_inv t → ru_change t t' → ru_inv t' ∧ ru_evolves t t'.
Proof.
  intros [Hnd Hfirst] Hch. destruct Hch as [|k f Hf|r order_id Hin Hact|code_id user_id].
  - split; [done|]. intros i r Hi. exists r. split; [done|apply row_kept_refl].
  - assert (Hid : ∀ r, ru_id (f r) = ru_id r) by (by destruct Hf as [-> | ->]).
    split; [split|].
    + by rewrite update_row_ids.
    + intros x [Hx|(y & Hy & _ & ->)]%update_row_elem Ha; [by apply Hfirst|].
      destruct Hf as [-> | ->]; cbn in *; by apply Hfirst.
    + apply update_row_evolves. intros x _ _. by destruct Hf as [-> | ->].
  - split; [split|].
    + by rewrite update_row_ids.
    + intros x [Hx|(y & Hy & _ & ->)]%update_row_elem Ha; [by apply Hfirst|].
      discriminate Ha.
    + apply update_row_evolves. intros x Hx Hk.
      assert (x = r) as ->.
      { apply list_elem_of_lookup in Hx as [i Hi]. apply list_elem_of_lookup in Hin as [j Hj].
        assert (i = j) as ->; [|congruence].
        eapply NoDup_lookup; [exact Hnd| |]; rewrite list_lookup_fmap.
        - rewrite Hi. cbn. by rewrite Hk.
        - by rewrite Hj. }
      split; [done|]. split; [done|]. intros k Hk'.
      rewrite (Hfirst r Hin Hact) in Hk'. discriminate.
  - split; [split|].
    + rewrite fmap_app. apply NoDup_app. split; [done|]. split.
      * intros k (x & -> & Hx)%list_elem_of_fmap Hk%list_elem_of_singleton.
        cbn in Hk. pose proof (next_id_gt ru_id t x Hx). lia.
      * apply NoDup_singleton.
    + intros x [Hx| ->%list_elem_of_singleton]%elem_of_app Ha; [by apply Hfirst|done].
    + intros i r Hi. exists r. split; [|apply row_kept_refl].
      by apply lookup_app_l_Some.
Qed.

Lemma update_row_referred (k : Z) (f : ReferralUse → ReferralUse) (t : list ReferralUse) :
  (∀ r, ru_referred_user_id (f r) = ru_referred_user_id r) →
  ru_referred_user_id <$> update_row ru_id k f t = ru_referred_user_id <$> t.
Proof.
  intros Hf. unfold update_row. rewrite <- list_fmap_compose. apply list_fmap_ext.
  intros i x _. cbn. case_bool_decide; [apply Hf | done].
Qed.

Lemma referred_once_update (d d' : DB) (k : Z) (f : ReferralUse → ReferralUse) :
  (∀ r, ru_referred_user_id (f r) = ru_referred_user_id r) →
  users d' = users d → referral_uses d' = update_row ru_id k f (referral_uses d) →
  referred_once d → referred_once d'.
Proof.
  intros Hf Hu Hr [Hnd Hlt]. unfold referred_once. rewrite Hu, Hr. split.
  - by rewrite update_row_referred.
  - intros x [Hx|(y & Hy & _ & ->)]%update_row_elem; [by apply Hlt|].
    rewrite Hf. by apply Hlt.
Qed.

Lemma db_step_referred_once (d d' : DB) :
  referred_once d → db_step d d' → referred_once d'.
Proof.
  intros Hd Hst. destruct Hst as [d' Hu Hr|d' k f Hf Hu Hr|d' r k Hin Ha Hu Hr|d' u Hid Hu Hr
                                 |d' u c Hid Hu Hr].
  - destruct Hd as [Hnd Hlt]. unfold referred_once. rewrite Hu, Hr. done.
  - apply (referred_once_update d d' k f); [|done..]. by destruct Hf as [-> | ->].
  - by apply (referred_once_update d d' (ru_id r) (set_active k)).
  - destruct Hd as [Hnd Hlt]. unfold referred_once. rewrite Hu, Hr. split; [done|].
    intros x Hx. pose proof (Hlt x Hx). pose proof (next_id_app_ge u_id (users d) [u]). lia.
  - destruct Hd as [Hnd Hlt]. unfold referred_once. rewrite Hu, Hr. split.
    + rewrite fmap_app. apply NoDup_app. split; [done|]. split; [|apply NoDup_singleton].
      intros k (x & -> & Hx)%list_elem_of_fmap Hk%list_elem_of_singleton. cbn in Hk.
      pose proof (Hlt x Hx). lia.
    + assert (Hu' : u_id u < next_id u_id (users d ++ [u])).
      { apply next_id_gt. apply elem_of_app. right. by left. }
      intros x [Hx| ->%list_elem_of_singleton]%elem_of_app; [|done].
      pose proof (Hlt x Hx). lia.
Qed.



Lemma handle_step (req : request) (d : DB) (fs : list bool) : db_step d (handle req d fs).
Proof.
  destruct req; cbn.
  - apply register_step.
  - apply create_order_step.
  - apply webhook_step.
Qed.

Lemma reachable_inv (d : DB) : reachable d → ru_inv (referral_uses d) ∧ referred_once d.
Proof.
  induction 1 as [|d req fs _ [IH1 IH2]|d d' _ [IH1 IH2] Hr Hu].
  - split; split; try constructor; intros r Hr; by apply elem_of_nil in Hr.
  - pose proof (handle_step req d fs) as Hst. split.
    + by apply (ru_change_sound _ _ IH1 (db_step_ru_change _ _ Hst)).
    + by apply (db_step_referred_once d).
  - split; [by rewrite Hr|]. destruct IH2 as [Hnd Hlt]. unfold referred_once.
    rewrite Hr, (next_id_ext u_id _ _ Hu). done.
Qed.

(** C7: in every database the system reaches, whatever request comes next
    (a registration, an order creation, a webhook delivery) and whatever
    fails while it is served, every ReferralUse row is still there under the
    same key; if it was active it is still active, and if it had a first
    order it still has that one. *)
Theorem activation_permanent (d : DB) (req : request) (fs : list bool) (i : nat)
    (r : ReferralUse) :
  reachable d →
  referral_uses d !! i = Some r →
  ∃ r', referral_uses (handle req d fs) !! i = Some r' ∧
        ru_id r' = ru_id r ∧
        (ru_is_active r = true → ru_is_active r' = true) ∧
        (∀ k, ru_first_order_id r = Some k → ru_first_order_id r' = Some k).
Proof.
  intros Hd Hi.
  destruct (ru_change_sound _ _ (proj1 (reachable_inv d Hd))
              (db_step_ru_change _ _ (handle_step req d fs))) as [_ He].
  exact (He i r Hi).
Qed.

(** Ann registers, Bob registers with her code, orders and pays: the
    database then holds Ann's referral of Bob, active, with first order 1. *)
Lemma reachable_example :
  reachable
    (handle (Webhook (Some "whsec") (inr (completed "cs_1")))
       (handle (CreateOrder (Examples.gold4 false) 2 "uuid-1" ("cs_1", "https://pay/cs_1"))
          (handle (Register (mkUserCreate "bob@example.com" "pw" "Bob" (Some "AAAA1111"))
                     "h2" "BBBB2222")
             (handle (Register (mkUserCreate "ann@example.com" "pw" "Ann" None)
                        "h1" "AAAA1111")
                empty_db []) []) []) []).
Proof. repeat constructor. Qed.

(** [activation_permanent] on that database: neither a late expired event
    for the paid session nor a second order by Bob touches the activation. *)
Lemma activation_permanent_witness :
  let d := handle (Webhook (Some "whsec") (inr (completed "cs_1")))
       (handle (CreateOrder (Examples.gold4 false) 2 "uuid-1" ("cs_1", "https://pay/cs_1"))
          (handle (Register (mkUserCreate "bob@example.com" "pw" "Bob" (Some "AAAA1111"))
                     "h2" "BBBB2222")
             (handle (Register (mkUserCreate "ann@example.com" "pw" "Ann" None)
                        "h1" "AAAA1111")
                empty_db []) []) []) [] in
  referral_uses d = [mkReferralUse 1 1 2 (Some 1) false false true] ∧
  (∃ r', referral_uses (handle (Webhook (Some "whsec") (inr (expired "cs_1"))) d [])
           !! 0%nat = Some r' ∧
         ru_is_active r' = true ∧ ru_first_order_id r' = Some 1) ∧
  (∃ r', referral_uses
           (handle (CreateOrder (Examples.gold4 true) 2 "uuid-2" ("cs_2", "https://pay/cs_2"))
              d []) !! 0%nat = Some r' ∧
         ru_is_active r' = true ∧ ru_first_order_id r' = Some 1).
Proof.
  cbv zeta. split; [vm_compute; reflexivity|]. split.
  - destruct (activation_permanent _ (Webhook (Some "whsec") (inr (expired "cs_1"))) []
                0%nat (mkReferralUse 1 1 2 (Some 1) false false true) reachable_example)
      as (r' & Hr & _ & Ha & Hf); [vm_compute; reflexivity|].
    exists r'. split; [exact Hr|]. split; [by apply Ha | by apply Hf].
  - destruct (activation_permanent _
                (CreateOrder (Examples.gold4 true) 2 "uuid-2" ("cs_2", "https://pay/cs_2")) []
                0%nat (mkReferralUse 1 1 2 (Some 1) false false true) reachable_example)
      as (r' & Hr & _ & Ha & Hf); [vm_compute; reflexivity|].
    exists r'. split; [exact Hr|]. split; [by apply Ha | by apply Hf].
Defined.

(** ** Precedence of the referee discount *)




(** ** Discount flags and the order insert *)

Lemma create_order_referee_flag (od : OrderCreate) (uid : Z) (uuid : string)
    (cs : string * string) (d : DB) (fs : list bool) (p p' : pynum) (r : ReferralUse) :
  calculate_price od = inr p →
  default false (use_referral_discount od) = true →
  unused_referee uid d = [r] →
  py_mul_float p 0.9%float = Some p' →
  referral_uses (run_request (create_order od uid uuid cs) d fs).2
  = if existsb id (take 2 fs) then referral_uses d
    else update_row ru_id (ru_id r) set_referee_discount_used (referral_uses d).
Proof.
  intros Hc Hu Hr Hp.
  unfold run_request, create_order, start, apply_referral_discount, apply_referral_discount_body.
  rewrite Hc, Hu. unfold_M. cbn.
  destruct fs as [|[] [|[] fs]]; cbn; rewrite ?Hr; cbn; rewrite ?Hp; cbn.
  all: run_all_cases; reflexivity.
Qed.

Lemma create_order_referrer_flag (od : OrderCreate) (uid : Z) (uuid : string)
    (cs : string * string) (d : DB) (fs : list bool) (p p' : pynum)
    (c : ReferralCode) (r : ReferralUse) :
  calculate_price od = inr p →
  default false (use_referral_discount od) = true →
  unused_referee uid d = [] →
  code_of_user uid d = [c] →
  unused_referrer (rc_id c) d = [r] →
  py_mul_float p 0.8%float = Some p' →
  referral_uses (run_request (create_order od uid uuid cs) d fs).2
  = if existsb id (take 4 fs) then referral_uses d
    else update_row ru_id (ru_id r) set_referrer_discount_used (referral_uses d).
Proof.
  intros Hc Hu He Hcode Hr Hp.
  unfold run_request, create_order, start, apply_referral_discount, apply_referral_discount_body.
  rewrite Hc, Hu. unfold_M. cbn.
  destruct fs as [|[] [|[] [|[] [|[] fs]]]]; cbn; rewrite ?He; cbn; rewrite ?Hcode; cbn;
    rewrite ?Hr; cbn; rewrite ?Hp; cbn.
  all: run_all_cases; reflexivity.
Qed.

(** Bob's order with his referee discount: the helper's query and commit
    succeed, the commit that inserts the order fails.  No order is left and
    the flag stays used. *)
Lemma flag_consumed_without_order :
  ¬ flag_rolled_back_with_order (Examples.gold4 true) 2 "uuid-1" ("cs_1", "https://pay/cs_1")
      Examples.fresh_referral [false; false; true].
Proof.
  unfold flag_rolled_back_with_order. cbv zeta. intros H.
  specialize (H eq_refl). vm_compute in H. discriminate H.
Qed.

(** C3, amended: the flag is marked used and committed by
    apply_referral_discount, in a transaction of its own that ends before
    the order is inserted.  If one of the helper's calls fails (its one
    query and its commit for the referee discount, its three queries and its
    commit for the referrer discount) the flag is rolled back and the
    referral_uses table is as before; otherwise the flag of the row found is
    used in the database the request leaves, whatever fails afterwards: a
    failing order insert or gateway call does not roll it back.  The
    referrer rows considered are the active ones. *)
Theorem discount_flag_committed_by_helper (od : OrderCreate) (uid : Z) (uuid : string)
    (cs : string * string) (d : DB) (fs : list bool) (p : pynum) :
  calculate_price od = inr p →
  default false (use_referral_discount od) = true →
  let t' := referral_uses (run_request (create_order od uid uuid cs) d fs).2 in
  (∀ r p', unused_referee uid d = [r] → py_mul_float p 0.9%float = Some p' →
     t' = if existsb id (take 2 fs) then referral_uses d
          else update_row ru_id (ru_id r) set_referee_discount_used (referral_uses d)) ∧
  (∀ c r p', unused_referee uid d = [] → code_of_user uid d = [c] →
     unused_referrer (rc_id c) d = [r] → ru_is_active r = true →
     py_mul_float p 0.8%float = Some p' →
     t' = if existsb id (take 4 fs) then referral_uses d
          else update_row ru_id (ru_id r) set_referrer_discount_used (referral_uses d)).
Proof.
  intros Hc Hu. cbv zeta. split.
  - intros r p' Hr Hp. by apply (create_order_referee_flag od uid uuid cs d fs p p').
  - intros c r p' He Hcode Hr _ Hp.
    by apply (create_order_referrer_flag od uid uuid cs d fs p p' c).
Qed.

(** [discount_flag_committed_by_helper] for Bob's order: the flag is rolled
    back when the helper's commit fails, and stays used when the order
    insert fails after it. *)
Lemma discount_flag_committed_by_helper_witness :
  let run fs := (run_request (create_order (Examples.gold4 true) 2 "uuid-1"
                                ("cs_1", "https://pay/cs_1"))
                   Examples.fresh_referral fs).2 in
  ru_referee_discount_used <$> referral_uses (run [false; true]) = [false] ∧
  ru_referee_discount_used <$> referral_uses (run [false; false; true]) = [true] ∧
  orders (run [false; false; true]) = [].
Proof.
  cbv beta zeta.
  assert (H : ∀ fs, referral_uses (run_request (create_order (Examples.gold4 true) 2 "uuid-1"
                                ("cs_1", "https://pay/cs_1")) Examples.fresh_referral fs).2
                    = if existsb id (take 2 fs) then referral_uses Examples.fresh_referral
                      else update_row ru_id 1 set_referee_discount_used
                             (referral_uses Examples.fresh_referral)).
  { intros fs.
    destruct (discount_flag_committed_by_helper (Examples.gold4 true) 2 "uuid-1"
                ("cs_1", "https://pay/cs_1") Examples.fresh_referral fs (PyInt 1196)
                eq_refl eq_refl) as [Hreferee _].
    exact (Hreferee (mkReferralUse 1 1 2 None false false false) (PyFloat 1076.4%float)
             eq_refl eq_refl). }
  rewrite !H. split; [reflexivity|]. split; reflexivity.
Defined.

(** * Further properties *)

(** ** The admin overrides *)

Section more_tables.
Context {A : Type} (key : A → Z).

Lemma update_row_twice (k : Z) (f g : A → A) (t : list A) :
  (∀ r, key (f r) = key r) →
  update_row key k g (update_row key k f t) = update_row key k (g ∘ f) t.
Proof.
  intros Hf. unfold update_row. rewrite <- list_fmap_compose. apply list_fmap_ext.
  intros i x _. unfold compose. cbn. destruct (decide (key x = k)) as [Hk|Hk].
  - rewrite (bool_decide_eq_true_2 (key x = k)) by done.
    by rewrite bool_decide_eq_true_2 by (by rewrite Hf).
  - rewrite (bool_decide_eq_false_2 (key x = k)) by done.
    by rewrite bool_decide_eq_false_2.
Qed.

Lemma update_row_fix (k : Z) (f : A → A) (t : list A) :
  (∀ r, r ∈ t → key r = k → f r = r) → update_row key k f t = t.
Proof.
  intros Hf. unfold update_row. induction t as [|x t IH]; [done|].
  rewrite fmap_cons. f_equal.
  - case_bool_decide; [apply Hf; [by left|done] | done].
  - apply IH. intros r Hr. apply Hf. by right.
Qed.

Lemma update_row_keys (k : Z) (f : A → A) (t : list A) :
  (∀ r, key (f r) = key r) → key <$> update_row key k f t = key <$> t.
Proof.
  intros Hf. unfold update_row. rewrite <- list_fmap_compose. apply list_fmap_ext.
  intros i x _. cbn. case_bool_decide; [apply Hf | done].
Qed.

Lemma filter_key_singleton (k : Z) (t : list A) (x r : A) :
  filter (λ y, key y = k) t = [x] → r ∈ t → key r = k → r = x.
Proof.
  intros Hf Hr Hk.
  assert (H : r ∈ filter (λ y, key y = k) t) by (by apply list_elem_of_filter).
  rewrite Hf in H. by apply list_elem_of_singleton in H.
Qed.
End more_tables.

(** X1.  What update_order_status answers and leaves, whatever fails: an error
    is always an HTTPException and leaves the database as it was; a success
    means the status is one of the five, the order was found, its former
    status is reported, and of the columns of the model the status of that
    order is the only one that changes (the handler also assigns the
    order's updated_at, a timestamp that the model leaves out).  A status
    outside the five is refused with the 400 before any database call; an
    id that selects no order gets the 404. *)
Theorem update_order_status_outcome (order_id : Z) (status : string) (d : DB)
    (fs : list bool) :
  match run_request (update_order_status order_id status) d fs with
  | (inl e, d') => d' = d ∧ ∃ status_code detail, e = HTTPException status_code detail
  | (inr answer, d') =>
      status ∈ STATUSES ∧
      ∃ o, order_by_id order_id d = [o] ∧
           osu_old_status answer = o_payment_status o ∧
           osu_new_status answer = status ∧
           d' = with_orders (update_row o_id order_id (set_payment_status status)) d
  end ∧
  (status ∉ STATUSES →
   run_request (update_order_status order_id status) d fs
   = (inl (HTTPException 400
             "Invalid status. Must be one of: pending, paid, shipped, failed, cancelled"), d)) ∧
  (status ∈ STATUSES → order_by_id order_id d = [] →
   run_request (update_order_status order_id status) d []
   = (inl (HTTPException 404 "Order not found"), d)).
Proof.
  split; [|split].
  - unfold run_request, update_order_status, update_order_status_body, start.
    case_bool_decide as Hs; run_cases; try (split; [reflexivity|eauto]; fail).
    all: split; [done|]; eexists; split; [reflexivity|].
    all: match goal with H : order_by_id _ _ = [?o] |- _ =>
           assert (Hin : o ∈ order_by_id order_id d) by (rewrite H; by left);
           apply list_elem_of_filter in Hin as [-> _] end.
    all: done.
  - intros Hs. unfold run_request, update_order_status, update_order_status_body, start.
    rewrite bool_decide_eq_false_2 by done. reflexivity.
  - intros Hs Ho. unfold run_request, update_order_status, update_order_status_body, start.
    rewrite bool_decide_eq_true_2 by done. run_cases. done.
Qed.

Lemma update_order_status_outcome_witness :
  run_request (update_order_status 1 "refunded") Examples.paid_db []
  = (inl (HTTPException 400
            "Invalid status. Must be one of: pending, paid, shipped, failed, cancelled"),
     Examples.paid_db) ∧
  run_request (update_order_status 7 "shipped") Examples.paid_db []
  = (inl (HTTPException 404 "Order not found"), Examples.paid_db).
Proof.
  destruct (update_order_status_outcome 1 "refunded" Examples.paid_db []) as (_ & H400 & _).
  destruct (update_order_status_outcome 7 "shipped" Examples.paid_db []) as (_ & _ & H404).
  split.
  - apply H400. apply (bool_decide_unpack _). vm_compute. exact I.
  - apply H404; [|reflexivity]. apply (bool_decide_unpack _). vm_compute. exact I.
Defined.

Lemma update_order_status_found (order_id : Z) (status : string) (d : DB) (o : Order) :
  status ∈ STATUSES → order_by_id order_id d = [o] →
  run_request (update_order_status order_id status) d []
  = (inr (mkOrderStatusUpdated true order_id (o_payment_status o) status
            ("Order status updated from " +:+ o_payment_status o +:+ " to " +:+ status)),
     with_orders (update_row o_id order_id (set_payment_status status)) d).
Proof.
  intros Hs Ho. unfold run_request, update_order_status, update_order_status_body, start.
  rewrite bool_decide_eq_true_2 by done. run_cases.
  assert (Hin : o ∈ order_by_id order_id d) by (rewrite Ho; by left).
  apply list_elem_of_filter in Hin as [-> _]. reflexivity.
Qed.

Lemma order_by_id_update (order_id : Z) (status : string) (d : DB) (o : Order) :
  order_by_id order_id d = [o] →
  order_by_id order_id (with_orders (update_row o_id order_id (set_payment_status status)) d)
  = [set_payment_status status o].
Proof.
  intros Ho. unfold order_by_id. cbn. rewrite filter_update_row by done.
  fold (order_by_id order_id d). rewrite Ho. cbn.
  assert (Hin : o ∈ order_by_id order_id d) by (rewrite Ho; by left).
  apply list_elem_of_filter in Hin as [Hid _]. by rewrite bool_decide_eq_true_2.
Qed.

(** X2.  Two overrides of one order in a row leave what the second alone would
    leave, and the second reports the status the first one set; overriding
    back to the former status restores the database (the updated_at
    timestamp, which is left out of the model, aside). *)
Theorem update_order_status_twice (order_id : Z) (s1 s2 : string) (d : DB) (o : Order) :
  s1 ∈ STATUSES → s2 ∈ STATUSES → order_by_id order_id d = [o] →
  let d1 := (run_request (update_order_status order_id s1) d []).2 in
  let '(r2, d2) := run_request (update_order_status order_id s2) d1 [] in
  sum_map id osu_old_status r2 = inr s1 ∧
  d2 = (run_request (update_order_status order_id s2) d []).2 ∧
  (s2 = o_payment_status o → d2 = d).
Proof.
  intros H1 H2 Ho. cbv zeta.
  rewrite (update_order_status_found order_id s1 d o H1 Ho). cbn [snd].
  rewrite (update_order_status_found order_id s2 _ _ H2 (order_by_id_update order_id s1 d o Ho)).
  rewrite (update_order_status_found order_id s2 d o H2 Ho). cbn [snd].
  split; [reflexivity|].
  assert (Heq : with_orders (update_row o_id order_id (set_payment_status s2))
                  (with_orders (update_row o_id order_id (set_payment_status s1)) d)
                = with_orders (update_row o_id order_id (set_payment_status s2)) d).
  { unfold with_orders. cbn [users orders referral_codes referral_uses]. f_equal.
    etrans; [by apply (update_row_twice o_id)|].
    unfold update_row. apply list_fmap_ext. intros i x _. cbn. by case_bool_decide. }
  split; [exact Heq|]. intros ->. rewrite Heq.
  destruct d as [us os cs rs]. unfold with_orders.
  cbn [users orders referral_codes referral_uses]. f_equal.
  apply update_row_fix. intros r Hr Hk.
  rewrite (filter_key_singleton o_id order_id os o r Ho Hr Hk). by destruct o.
Qed.

(** [update_order_status_twice] on Bob's paid order: shipped, then paid
    again. *)
Lemma update_order_status_twice_witness :
  (run_request (update_order_status 1 "paid")
     (run_request (update_order_status 1 "shipped") Examples.paid_db []).2 []).2
  = Examples.paid_db.
Proof.
  pose proof (update_order_status_twice 1 "shipped" "paid" Examples.paid_db Examples.paid_order)
    as H.
  cbv zeta in H.
  destruct (run_request (update_order_status 1 "paid") _ []) as [r2 d2].
  apply H; try reflexivity; apply (bool_decide_unpack _); vm_compute; exact I.
Defined.

(** ** toggle_user_admin *)

Lemma toggle_user_admin_spec (user_id : Z) (current_user : User) (d : DB)
    (fs : list bool) :
  match run_request (toggle_user_admin user_id current_user) d fs with
  | (inl e, d') => d' = d ∧ ∃ status_code detail, e = HTTPException status_code detail
  | (inr answer, d') =>
      ∃ t, user_by_id user_id d = [t] ∧
           ¬ (u_id t = u_id current_user ∧ u_is_admin t = true) ∧
           at_is_admin answer = negb (u_is_admin t) ∧
           d' = with_users (update_row u_id user_id (set_is_admin (negb (u_is_admin t)))) d
  end.
Proof.
  unfold run_request, toggle_user_admin, toggle_user_admin_body, start.
  run_cases; try (split; [reflexivity|eauto]; fail).
  all: eexists; split; [reflexivity|].
  all: match goal with H : user_by_id _ _ = [?o] |- _ =>
         assert (Hin : o ∈ user_by_id user_id d) by (rewrite H; by left);
         apply list_elem_of_filter in Hin as [Hid _] end.
  all: match goal with H : _ && _ = false |- _ => apply andb_false_iff in H end.
  all: split; [intros [Hc Ha]; destruct_or?; [case_bool_decide; done|congruence]|].
  all: rewrite ?Hid; done.
Qed.

Lemma toggle_user_admin_found (user_id : Z) (current_user : User) (d : DB) (t : User) :
  user_by_id user_id d = [t] → u_id t ≠ u_id current_user →
  run_request (toggle_user_admin user_id current_user) d []
  = (inr (mkAdminToggled true
            ("User " +:+ (if negb (u_is_admin t) then "granted" else "removed")
             +:+ " admin access") user_id (negb (u_is_admin t))),
     with_users (update_row u_id user_id (set_is_admin (negb (u_is_admin t)))) d).
Proof.
  intros Ht Hne. unfold run_request, toggle_user_admin, toggle_user_admin_body, start.
  assert (Hin : t ∈ user_by_id user_id d) by (rewrite Ht; by left).
  apply list_elem_of_filter in Hin as [Hid _].
  run_cases; try (by rewrite Hid).
  all: exfalso; match goal with H : _ && _ = true |- _ =>
         apply andb_true_iff in H as [Hk%bool_decide_eq_true _] end; done.
Qed.

(** X3.  An administrator cannot lose the admin flag through
    toggle_user_admin called under the same identity: whatever the target and
    whatever fails, the caller's row is in the users table afterwards, still
    an admin. *)
Theorem toggle_user_admin_keeps_caller (user_id : Z) (current_user : User) (d : DB)
    (fs : list bool) :
  current_user ∈ users d → u_is_admin current_user = true →
  current_user ∈ users (run_request (toggle_user_admin user_id current_user) d fs).2.
Proof.
  intros Hin Hadm. pose proof (toggle_user_admin_spec user_id current_user d fs) as H.
  destruct (run_request _ d fs) as [[e|answer] d']; cbn [snd].
  - by destruct H as [-> _].
  - destruct H as (t & Ht & Hself & _ & ->). cbn [users with_users].
    unfold update_row. apply list_elem_of_fmap. exists current_user. split; [|done].
    case_bool_decide as Hk; [|done]. exfalso. apply Hself.
    assert (current_user = t) as <-; [|done].
    eapply (filter_key_singleton u_id user_id (users d)); eauto.
Qed.

Lemma toggle_user_admin_keeps_caller_witness :
  let ann := mkUser 1 "ann@example.com" "Ann" "h1" true true None in
  let d := with_users (update_row u_id 1 (set_is_admin true)) Examples.inactive_referral in
  ann ∈ users (run_request (toggle_user_admin 1 ann) d []).2.
Proof.
  cbv zeta. apply toggle_user_admin_keeps_caller; [|reflexivity].
  vm_compute. left.
Defined.

(** X4.  Toggling another user twice restores the database: the first call
    answers the flipped flag, the second the original one. *)
Theorem toggle_user_admin_twice (user_id : Z) (current_user : User) (d : DB) (t : User) :
  user_by_id user_id d = [t] → u_id t ≠ u_id current_user →
  let first := run_request (toggle_user_admin user_id current_user) d [] in
  let second := run_request (toggle_user_admin user_id current_user) first.2 [] in
  sum_map id at_is_admin first.1 = inr (negb (u_is_admin t)) ∧
  sum_map id at_is_admin second.1 = inr (u_is_admin t) ∧
  second.2 = d.
Proof.
  intros Ht Hne. cbv zeta.
  rewrite (toggle_user_admin_found user_id current_user d t Ht Hne). cbn [fst snd sum_map].
  assert (Hid : u_id t = user_id).
  { assert (Hin : t ∈ user_by_id user_id d) by (rewrite Ht; by left).
    by apply list_elem_of_filter in Hin as [Hid _]. }
  assert (Ht' : user_by_id user_id
                  (with_users (update_row u_id user_id (set_is_admin (negb (u_is_admin t)))) d)
                = [set_is_admin (negb (u_is_admin t)) t]).
  { unfold user_by_id. cbn [users with_users]. rewrite filter_update_row by done.
    fold (user_by_id user_id d). rewrite Ht. cbn. by rewrite bool_decide_eq_true_2. }
  rewrite (toggle_user_admin_found user_id current_user _ _ Ht') by done.
  cbn [fst snd sum_map u_is_admin set_is_admin]. rewrite negb_involutive.
  split; [done|]. split; [done|].
  destruct d as [us os cs rs]. unfold with_users. cbn [users orders referral_codes referral_uses].
  f_equal. etrans; [by apply (update_row_twice u_id)|].
  apply update_row_fix. intros r Hr Hk. cbn.
  rewrite (filter_key_singleton u_id user_id us t r Ht Hr Hk). by destruct t.
Qed.

Lemma toggle_user_admin_twice_witness :
  let ann := mkUser 1 "ann@example.com" "Ann" "h1" true true None in
  let first := run_request (toggle_user_admin 2 ann) Examples.inactive_referral [] in
  (run_request (toggle_user_admin 2 ann) first.2 []).2 = Examples.inactive_referral.
Proof.
  cbv zeta.
  apply (toggle_user_admin_twice 2 (mkUser 1 "ann@example.com" "Ann" "h1" true true None)
           Examples.inactive_referral
           (mkUser 2 "bob@example.com" "Bob" "h2" true false (Some "AAAA1111"))).
  - reflexivity.
  - cbn. lia.
Defined.

Lemma update_order_status_spec (order_id : Z) (status : string) (d : DB) (fs : list bool) :
  let d' := (run_request (update_order_status order_id status) d fs).2 in
  d' = d ∨ d' = with_orders (update_row o_id order_id (set_payment_status status)) d.
Proof.
  unfold run_request, update_order_status, update_order_status_body, start.
  case_bool_decide as Hs; run_cases; auto.
  all: right.
  all: match goal with H : order_by_id _ _ = [?o] |- _ =>
         assert (Hin : o ∈ order_by_id order_id d) by (rewrite H; by left);
         apply list_elem_of_filter in Hin as [-> _] end.
  all: done.
Qed.

(** X5.  The two admin writes are confined, whatever fails: of the columns
    of the model, update_order_status changes none but payment_status of
    orders (beside it the handler assigns updated_at, a timestamp that the
    model leaves out), and toggle_user_admin none but is_admin of users.
    Neither adds or deletes a row or touches referral_codes or
    referral_uses.  Hence both are steps of the kind [reachable_other]
    allows: they lead from a reachable database to a reachable one. *)
Theorem admin_overrides_confined (order_id user_id : Z) (status : string)
    (current_user : User) (d : DB) (fs : list bool) :
  let d1 := (run_request (update_order_status order_id status) d fs).2 in
  let d2 := (run_request (toggle_user_admin user_id current_user) d fs).2 in
  (users d1 = users d ∧ referral_codes d1 = referral_codes d ∧
   referral_uses d1 = referral_uses d ∧
   set_payment_status "" <$> orders d1 = set_payment_status "" <$> orders d) ∧
  (orders d2 = orders d ∧ referral_codes d2 = referral_codes d ∧
   referral_uses d2 = referral_uses d ∧
   set_is_admin false <$> users d2 = set_is_admin false <$> users d) ∧
  (reachable d → reachable d1 ∧ reachable d2).
Proof.
  cbv zeta.
  assert (H1 : let d1 := (run_request (update_order_status order_id status) d fs).2 in
               users d1 = users d ∧ referral_codes d1 = referral_codes d ∧
               referral_uses d1 = referral_uses d ∧
               set_payment_status "" <$> orders d1 = set_payment_status "" <$> orders d).
  { cbv zeta. destruct (update_order_status_spec order_id status d fs) as [->| ->]; [done|].
    repeat split. cbn [orders with_orders]. unfold update_row.
    rewrite <- list_fmap_compose. apply list_fmap_ext. intros i o _. cbn.
    by case_bool_decide. }
  assert (H2 : let d2 := (run_request (toggle_user_admin user_id current_user) d fs).2 in
               orders d2 = orders d ∧ referral_codes d2 = referral_codes d ∧
               referral_uses d2 = referral_uses d ∧
               set_is_admin false <$> users d2 = set_is_admin false <$> users d).
  { cbv zeta. pose proof (toggle_user_admin_spec user_id current_user d fs) as H.
    destruct (run_request (toggle_user_admin user_id current_user) d fs)
      as [[e|answer] d']; cbn [snd].
    - by destruct H as [-> _].
    - destruct H as (t & _ & _ & _ & ->). repeat split.
      cbn [users with_users]. unfold update_row.
      rewrite <- list_fmap_compose. apply list_fmap_ext. intros i o _. cbn.
      by case_bool_decide. }
  cbv zeta in H1, H2. split; [exact H1|]. split; [exact H2|].
  intros Hd. destruct H1 as (Hu1 & _ & Hr1 & _), H2 as (_ & _ & Hr2 & Hu2). split.
  - eapply reachable_other; [exact Hd|exact Hr1|by rewrite Hu1].
  - eapply reachable_other; [exact Hd|exact Hr2|].
    apply (f_equal (fmap u_id)) in Hu2. rewrite <- !list_fmap_compose in Hu2. exact Hu2.
Qed.

Lemma admin_overrides_confined_witness :
  reachable (run_request (update_order_status 1 "shipped") Examples.both_discounts []).2 ∧
  reachable (run_request (toggle_user_admin 2 Scenarios.ann_admin)
               Examples.both_discounts []).2.
Proof.
  destruct (admin_overrides_confined 1 2 "shipped" Scenarios.ann_admin
              Examples.both_discounts []) as (_ & _ & H).
  apply H. repeat constructor.
Defined.

(** ** Registration, step by step *)

Lemma register_spec (ud : UserCreate) (hashed code8 : string) (d : DB) (fs : list bool) :
  match run_request (register ud hashed code8) d fs with
  | (inr resp, d') =>
      resp = mkUserResponse (email ud) (full_name ud) false ∧
      user_by_email (email ud) d = [] ∧
      users d' = users d ++ [new_user ud hashed d] ∧
      orders d' = orders d ∧
      referral_codes d'
      = referral_codes d ++ [mkReferralCode (next_id rc_id (referral_codes d)) code8
                               (next_id u_id (users d))] ∧
      match truthy (referral_code ud) with
      | None => referral_uses d' = referral_uses d
      | Some code =>
          ∃ c, code_by_code code d = [c] ∧
               referral_uses d'
               = referral_uses d ++ [mkReferralUse (next_id ru_id (referral_uses d)) (rc_id c)
                                       (next_id u_id (users d)) None false false false]
      end
  | (inl e, d') =>
      d' = d ∨
      user_by_email (email ud) d = [] ∧ d' = with_users (λ t, t ++ [new_user ud hashed d]) d
  end.
Proof.
  unfold run_request, register, start, new_user.
  destruct (truthy (referral_code ud)) as [code|] eqn:Hc; run_cases; auto.
  all: repeat split; eauto.
Qed.

(** ** Who is calling: the token, the current user, the admin gate *)

Section tokens_facts.

Variable pwd_verify : string → string → exn + bool.
Variable jwt_encode : gmap string jval → string → string → string.
Variable jwt_decode : string → string → string → option (option string).
Variable utcnow : Z.

(** X6.  What a handler of the back-office receives from its dependencies
    (require_admin over get_optional_current_user over get_current_user),
    case by case; the database is never written.  The caller is anonymous
    when there is no cookie or an empty one, when the token does not decode
    or has no subject, or when no user has the email of its subject: the
    answer is then 401 for a path under /admin/api/ and a 303 to /auth/login
    for any other path.  When the lookup of the user fails, the
    SQLAlchemyError propagates, and so does MultipleResultsFound when several
    users have the email: neither is turned into a denial.  When exactly
    one user has the email, that user is returned if an admin and answered
    403 otherwise. *)
Theorem admin_of_request_outcome (path : string) (auth_token : option string) (d : DB)
    (fs : list bool) :
  let anonymous : Denial :=
    if String.prefix "/admin/api/" path
    then mkDenial 401 "Authentication required" None
    else mkDenial 303 "Redirecting to login" (Some "/auth/login") in
  run_request (admin_of_request jwt_decode path auth_token) d fs
  = (match truthy auth_token with
     | None => inr (inl anonymous)
     | Some tok =>
         match jwt_decode tok SECRET_KEY ALGORITHM with
         | Some (Some email) =>
             match fs with
             | true :: _ => inl SQLAlchemyError
             | _ =>
                 match user_by_email email d with
                 | [] => inr (inl anonymous)
                 | [user] =>
                     if u_is_admin user then inr (inr user)
                     else inr (inl (mkDenial 403 "Admin access required" None))
                 | _ => inl MultipleResultsFound
                 end
             end
         | _ => inr (inl anonymous)
         end
     end, d).
Proof.
  cbv zeta. unfold run_request, admin_of_request, get_optional_current_user, start,
    require_admin.
  destruct (String.prefix "/admin/api/" path).
  all: destruct (truthy auth_token) as [tok|] eqn:Htok; [|reflexivity].
  all: unfold get_current_user; rewrite Htok.
  all: destruct (jwt_decode tok SECRET_KEY ALGORITHM) as [[email|]|]; [|reflexivity..].
  all: destruct fs as [|[] fs]; unfold_M; cbn; try reflexivity.
  all: destruct (user_by_email email d) as [|u [|u' us]]; cbn; try reflexivity.
  all: destruct (u_is_admin u); reflexivity.
Qed.

Lemma get_current_user_found (tok : string) (d : DB) (u : User) :
  tok ≠ "" → jwt_decode tok SECRET_KEY ALGORITHM = Some (Some (u_email u)) →
  user_by_email (u_email u) d = [u] →
  run_request (get_current_user jwt_decode (Some tok)) d [] = (inr u, d).
Proof.
  intros Hne Hdec Hu. unfold run_request, get_current_user, start.
  rewrite truthy_nonempty by done. rewrite Hdec. run_cases. done.
Qed.

Lemma admin_of_request_found (path tok : string) (d : DB) (u : User) :
  tok ≠ "" → jwt_decode tok SECRET_KEY ALGORITHM = Some (Some (u_email u)) →
  user_by_email (u_email u) d = [u] →
  run_request (admin_of_request jwt_decode path (Some tok)) d []
  = (inr (require_admin path (Some u)), d).
Proof.
  intros Hne Hdec Hu. pose proof (get_current_user_found tok d u Hne Hdec Hu) as H.
  unfold run_request, admin_of_request, get_optional_current_user, bind, attempt, ret in *.
  rewrite truthy_nonempty by done.
  destruct (get_current_user jwt_decode (Some tok) (start d [])) as [r w].
  by simplify_eq.
Qed.

(** X7.  Removing a user's admin flag takes effect at that user's next
    request: the cookie that passed the admin gate before the toggle is
    answered 403 after it. *)
Theorem revoked_admin_denied (path tok : string) (user_id : Z) (current_user : User)
    (d : DB) (t : User) :
  tok ≠ "" → jwt_decode tok SECRET_KEY ALGORITHM = Some (Some (u_email t)) →
  user_by_email (u_email t) d = [t] → user_by_id user_id d = [t] →
  u_is_admin t = true → u_id t ≠ u_id current_user →
  let d' := (run_request (toggle_user_admin user_id current_user) d []).2 in
  (run_request (admin_of_request jwt_decode path (Some tok)) d []).1 = inr (inr t) ∧
  (run_request (admin_of_request jwt_decode path (Some tok)) d' []).1
  = inr (inl (mkDenial 403 "Admin access required" None)).
Proof.
  intros Hne Hdec Hmail Hid Hadm Hother. cbv zeta.
  rewrite (admin_of_request_found path tok d t Hne Hdec Hmail). cbn [fst require_admin].
  rewrite Hadm. split; [done|].
  rewrite (toggle_user_admin_found user_id current_user d t Hid Hother). cbn [snd].
  assert (Hk : u_id t = user_id).
  { assert (Hin : t ∈ user_by_id user_id d) by (rewrite Hid; by left).
    by apply list_elem_of_filter in Hin as [? _]. }
  rewrite (admin_of_request_found path tok _ (set_is_admin (negb (u_is_admin t)) t)); try done.
  - cbn. by rewrite Hadm.
  - unfold user_by_email. cbn [users with_users u_email set_is_admin].
    rewrite filter_update_row by done. fold (user_by_email (u_email t) d). rewrite Hmail.
    cbn. by rewrite bool_decide_eq_true_2.
Qed.


Lemma login_spec (user_data : UserLogin) (d : DB) (fs : list bool) :
  match run_request (login pwd_verify jwt_encode utcnow user_data) d fs with
  | (inr resp, d') =>
      d' = d ∧
      ∃ u, user_by_email (login_email user_data) d = [u] ∧
           pwd_verify (login_password user_data) (u_hashed_password u) = inr true ∧
           resp = mkLoginResponse "Login successful"
                    (mkCookie "auth_token"
                       (jwt_encode (<["exp" := JInt (utcnow + 1800)]>
                                      {[ "sub" := JStr (login_email user_data) ]})
                          SECRET_KEY ALGORITHM)
                       true 86400 "lax")
  | (inl e, d') => d' = d
  end.
Proof.
  unfold run_request, login, verify_password, create_access_token, start.
  run_cases; auto.
  all: destruct (pwd_verify _ _) as [e|[]] eqn:Hv; cbn; auto.
  all: split; [done|]; eexists; split; [reflexivity|]; split; [done|].
  all: match goal with H : user_by_email ?e _ = [?u] |- _ =>
         assert (Hin : u ∈ user_by_email e d) by (rewrite H; by left);
         apply list_elem_of_filter in Hin as [Hmail _]; rewrite Hmail end.
  all: done.
Qed.

Lemma login_found (user_data : UserLogin) (d : DB) (u : User) :
  user_by_email (login_email user_data) d = [u] →
  pwd_verify (login_password user_data) (u_hashed_password u) = inr true →
  run_request (login pwd_verify jwt_encode utcnow user_data) d []
  = (inr (mkLoginResponse "Login successful"
            (mkCookie "auth_token"
               (jwt_encode (<["exp" := JInt (utcnow + 1800)]>
                              {[ "sub" := JStr (login_email user_data) ]})
                  SECRET_KEY ALGORITHM)
               true 86400 "lax")), d).
Proof.
  intros Hu Hv. unfold run_request, login, verify_password, create_access_token, start.
  assert (Hin : u ∈ user_by_email (login_email user_data) d) by (rewrite Hu; by left).
  apply list_elem_of_filter in Hin as [Hmail _].
  run_cases; rewrite Hv; cbn; [done|by rewrite Hmail].
Qed.

(** X8.  login, whatever fails, never writes; it succeeds only when
    exactly one user has the email and the password verifies against that
    user's hash, and then sets the auth_token cookie to a token whose subject
    is the email and which expires 30 minutes after the call.  When no call
    fails, an unknown email and a wrong password are answered alike, with the
    same 401. *)
Theorem login_outcome (user_data : UserLogin) (d : DB) (fs : list bool) :
  match run_request (login pwd_verify jwt_encode utcnow user_data) d fs with
  | (inr resp, d') =>
      d' = d ∧
      ∃ u, user_by_email (login_email user_data) d = [u] ∧
           pwd_verify (login_password user_data) (u_hashed_password u) = inr true ∧
           resp = mkLoginResponse "Login successful"
                    (mkCookie "auth_token"
                       (jwt_encode (<["exp" := JInt (utcnow + 1800)]>
                                      {[ "sub" := JStr (login_email user_data) ]})
                          SECRET_KEY ALGORITHM)
                       true 86400 "lax")
  | (inl e, d') => d' = d
  end ∧
  ((user_by_email (login_email user_data) d = [] ∨
    ∃ u, user_by_email (login_email user_data) d = [u] ∧
         pwd_verify (login_password user_data) (u_hashed_password u) = inr false) →
   run_request (login pwd_verify jwt_encode utcnow user_data) d []
   = (inl (HTTPException 401 "Incorrect email or password"), d)).
Proof.
  split; [apply login_spec|].
  unfold run_request, login, verify_password, start.
  intros [Hu|(u & Hu & Hv)]; run_cases; [done|]. by rewrite Hv.
Qed.

(** X9.  A registration that succeeded, whatever the database held, can
    be followed by a login with the same email and password: provided the
    library verifies the password against the hash that register stored, the
    login succeeds and issues a token for that email. *)
Theorem register_then_login (ud : UserCreate) (hashed code8 : string) (d d' : DB)
    (fs : list bool) (resp : UserResponse) :
  run_request (register ud hashed code8) d fs = (inr resp, d') →
  pwd_verify (password ud) hashed = inr true →
  ∃ cookie,
    run_request (login pwd_verify jwt_encode utcnow (mkUserLogin (email ud) (password ud))) d' []
    = (inr (mkLoginResponse "Login successful" cookie), d') ∧
    cookie_value cookie
    = create_access_token jwt_encode utcnow {[ "sub" := JStr (email ud) ]}
        (Some (minutes ACCESS_TOKEN_EXPIRE_MINUTES)).
Proof.
  intros Hreg Hv. pose proof (register_spec ud hashed code8 d fs) as H.
  rewrite Hreg in H. destruct H as (_ & Hnone & Hus & _).
  eexists. split; [apply (login_found (mkUserLogin (email ud) (password ud)) d'
                             (new_user ud hashed d)); [|done]|reflexivity].
  unfold user_by_email in *. cbn [login_email]. rewrite Hus, filter_app, Hnone.
  rewrite app_nil_l, filter_cons_True by done. done.
Qed.

(** X10.  The cookie that login sets identifies the user at the next
    request: if the token it issued decodes to its subject, get_current_user
    returns the user who logged in. *)
Theorem login_then_current_user (user_data : UserLogin) (d : DB) (resp : LoginResponse) :
  (run_request (login pwd_verify jwt_encode utcnow user_data) d []).1 = inr resp →
  let tok := cookie_value (login_cookie resp) in
  tok ≠ "" →
  jwt_decode tok SECRET_KEY ALGORITHM = Some (Some (login_email user_data)) →
  ∃ u, run_request (get_current_user jwt_decode (Some tok)) d [] = (inr u, d) ∧
       u_email u = login_email user_data ∧
       pwd_verify (login_password user_data) (u_hashed_password u) = inr true.
Proof.
  intros Hl tok Hne Hdec. pose proof (login_spec user_data d []) as H.
  destruct (run_request (login pwd_verify jwt_encode utcnow user_data) d [])
    as [[e|resp'] d']; [done|].
  cbn in Hl. simplify_eq. destruct H as (_ & u & Hu & Hv & _).
  assert (Hmail : u_email u = login_email user_data).
  { assert (Hin : u ∈ user_by_email (login_email user_data) d) by (rewrite Hu; by left).
    by apply list_elem_of_filter in Hin as [? _]. }
  exists u. split; [|done].
  apply get_current_user_found; [done|by rewrite Hmail|by rewrite Hmail].
Qed.

End tokens_facts.

(** ** Referral statistics *)

Lemma filter_length_le {A} (P : A → Prop) `{∀ x, Decision (P x)} (l : list A) :
  (length (filter P l) ≤ length l)%nat.
Proof.
  induction l as [|x l IH]; [done|].
  destruct (decide (P x)); [rewrite filter_cons_True by done|rewrite filter_cons_False by done];
    cbn; lia.
Qed.

Lemma filter_length_mono {A} (P Q : A → Prop) `{∀ x, Decision (P x)} `{∀ x, Decision (Q x)}
    (l : list A) :
  (∀ x, P x → Q x) → (length (filter P l) ≤ length (filter Q l))%nat.
Proof.
  intros HPQ. induction l as [|x l IH]; [done|].
  destruct (decide (P x)) as [HP|HP].
  - rewrite !filter_cons_True by auto. cbn. lia.
  - rewrite (filter_cons_False P) by done. destruct (decide (Q x)).
    + rewrite filter_cons_True by done. cbn. lia.
    + by rewrite filter_cons_False by done.
Qed.

Lemma filter_filter_and {A} (P Q : A → Prop) `{∀ x, Decision (P x)} `{∀ x, Decision (Q x)}
    (l : list A) :
  filter P (filter Q l) = filter (λ x, Q x ∧ P x) l.
Proof.
  induction l as [|x l IH]; [done|].
  destruct (decide (Q x)) as [HQ|HQ].
  - rewrite (filter_cons_True Q) by done. destruct (decide (P x)) as [HP|HP].
    + rewrite !filter_cons_True by done. by rewrite IH.
    + rewrite !filter_cons_False by tauto. done.
  - rewrite (filter_cons_False Q) by done. rewrite (filter_cons_False (λ x, Q x ∧ P x)) by tauto.
    done.
Qed.

Lemma count_all {A} (l : list A) : count (λ _, True) l = Z.of_nat (length l).
Proof.
  unfold count. f_equal. induction l as [|x l IH]; [done|].
  rewrite filter_cons_True by done. cbn. by rewrite IH.
Qed.

Lemma or_zero_id (x : Z) : or_zero x = x.
Proof. unfold or_zero. by case_bool_decide. Qed.

Lemma available_count (code_id : Z) (d : DB) :
  count (λ r, ru_is_active r = true ∧ ru_referrer_discount_used r = false)
    (filter (λ r, ru_referral_code_id r = code_id) (referral_uses d))
  = Z.of_nat (length (active_unused_referrer code_id d)).
Proof.
  unfold count, active_unused_referrer. rewrite filter_filter_and. do 2 f_equal.
  apply list_filter_iff. tauto.
Qed.

Lemma get_referral_stats_spec (current_user_id : Z) (d : DB) (fs : list bool) :
  match run_request (get_referral_stats current_user_id) d fs with
  | (inr stats, d') =>
      d' = d ∧
      ∃ c, code_of_user current_user_id d = [c] ∧
           stats_code stats = rc_code c ∧
           referral_url stats = "/register?ref=" +:+ rc_code c ∧
           total_referrals stats
           = Z.of_nat (length (filter (λ r, ru_referral_code_id r = rc_id c) (referral_uses d))) ∧
           successful_referrals stats
           = Z.of_nat (length (filter (λ r, ru_is_active r = true)
                         (filter (λ r, ru_referral_code_id r = rc_id c) (referral_uses d)))) ∧
           available_discounts stats = Z.of_nat (length (active_unused_referrer (rc_id c) d))
  | (inl e, d') =>
      d' = d ∧
      (code_of_user current_user_id d = [] → head fs ≠ Some true →
       e = HTTPException 404 "No referral code found")
  end.
Proof.
  unfold run_request, get_referral_stats, start.
  run_cases; try (split; [done|]; intros; simplify_eq; done).
  all: split; [done|]; eexists; split; [reflexivity|].
  all: rewrite ?or_zero_id, <- ?available_count; repeat split.
  all: apply count_all.
Qed.

(** X11.  The counters of get_referral_stats, whatever fails: the
    endpoint never writes, and in its answer
    0 <= available_discounts <= successful_referrals <= total_referrals,
    where total_referrals is the number of ReferralUse rows under the
    caller's code and available_discounts the number of rows the referrer
    query of check_available_discount selects.  A caller without a referral
    code gets the 404. *)
Theorem get_referral_stats_outcome (current_user_id : Z) (d : DB) (fs : list bool) :
  match run_request (get_referral_stats current_user_id) d fs with
  | (inr stats, d') =>
      d' = d ∧
      0 ≤ available_discounts stats ≤ successful_referrals stats ∧
      successful_referrals stats ≤ total_referrals stats ∧
      ∃ c, code_of_user current_user_id d = [c] ∧
           stats_code stats = rc_code c ∧
           total_referrals stats
           = Z.of_nat (length (filter (λ r, ru_referral_code_id r = rc_id c) (referral_uses d))) ∧
           available_discounts stats = Z.of_nat (length (active_unused_referrer (rc_id c) d))
  | (inl e, d') =>
      d' = d ∧
      (code_of_user current_user_id d = [] → head fs ≠ Some true →
       e = HTTPException 404 "No referral code found")
  end.
Proof.
  pose proof (get_referral_stats_spec current_user_id d fs) as H.
  destruct (run_request (get_referral_stats current_user_id) d fs) as [[e|stats] d']; [done|].
  destruct H as (-> & c & Hc & Hcode & _ & Htot & Hact & Hav). split; [done|].
  pose proof Hav as Hav'. rewrite <- available_count in Hav'. unfold count in Hav'.
  pose proof (filter_length_mono
                (λ r, ru_is_active r = true ∧ ru_referrer_discount_used r = false)
                (λ r, ru_is_active r = true)
                (filter (λ r, ru_referral_code_id r = rc_id c) (referral_uses d))
                ltac:(by intros x [? _])) as H1.
  pose proof (filter_length_le (λ r, ru_is_active r = true)
                (filter (λ r, ru_referral_code_id r = rc_id c) (referral_uses d))) as H2.
  split; [lia|]. split; [lia|]. by exists c.
Qed.

(** X12.  check_available_discount against the statistics, for a caller
    without an unused referee discount and when no call fails: it offers the
    referrer discount exactly when available_discounts is 1, offers nothing
    when it is 0, and raises MultipleResultsFound as soon as two or more
    referrer discounts are available. *)
Theorem check_discount_against_stats (current_user_id : Z) (d : DB) (stats : ReferralStats) :
  (run_request (get_referral_stats current_user_id) d []).1 = inr stats →
  unused_referee current_user_id d = [] →
  (run_request (check_available_discount current_user_id) d []).1
  = if bool_decide (available_discounts stats = 0) then inr (PyInt 0, None)
    else if bool_decide (available_discounts stats = 1)
         then inr (PyFloat 0.20%float, Some "referrer")
         else inl MultipleResultsFound.
Proof.
  intros Hs Hnone. pose proof (get_referral_stats_spec current_user_id d []) as H.
  destruct (run_request (get_referral_stats current_user_id) d []) as [[e|stats'] d']; [done|].
  cbn in Hs. simplify_eq. destruct H as (_ & c & Hc & _ & _ & _ & _ & ->).
  unfold run_request, check_available_discount, start.
  run_cases.
  all: repeat match goal with H : active_unused_referrer _ _ = _ |- _ => rewrite H end.
  all: cbn [length]; repeat case_bool_decide; try done; lia.
Qed.

(** ** Orders: what creation and the webhook may change *)

Lemma create_order_spec (od : OrderCreate) (uid : Z) (uuid : string)
    (cs : string * string) (d : DB) (fs : list bool) :
  create_order_effect od uid uuid cs d (run_request (create_order od uid uuid cs) d fs).2.
Proof.
  pose proof (update_row_next_id o_id (set_stripe_payment_intent cs.1) (orders d)) as Hn.
  unfold update_row in Hn.
  unfold run_request, create_order, start.
  unfold bind at 1. unfold logger at 1. cbn.
  unfold bind at 1. unfold lift at 1.
  destruct (calculate_price od) as [e|p]; cbn; [by repeat split; auto|].
  unfold bind at 1.
  destruct (default false (use_referral_discount od)).
  - match goal with |- context [apply_referral_discount ?a ?b ?c] =>
      pose proof (apply_referral_discount_outcome a b c) as Ha;
      destruct (apply_referral_discount a b c) as [res w1] end.
    destruct Ha as ((total & kind & ->) & Hs & Hc). cbn in Hc.
    destruct w1 as [c1 s1 fs1 l1]. cbn in Hs, Hc. subst s1.
    destruct Hc as [-> | [-> | (k & f & Hf & ->)]].
    all: run_all_cases; unfold create_order_effect, order_added; cbn.
    all: (split; [done|]); (split; [done|]); auto.
    all: right; rewrite ?fmap_app, ?Hn; cbn; rewrite ?bool_decide_eq_true_2 by done.
    all: do 3 eexists; (split; [reflexivity|]); auto.
  - run_all_cases; unfold create_order_effect, order_added; cbn.
    all: (split; [done|]); (split; [done|]); auto.
    all: right; rewrite ?fmap_app, ?Hn; cbn; rewrite ?bool_decide_eq_true_2 by done.
    all: do 3 eexists; (split; [reflexivity|]); auto.
Qed.

Lemma handle_failed_payment_spec (sid : string) (d : DB) (fs : list bool)
    (l : list (level * string)) :
  let d' := committed (handle_failed_payment sid (mkWorld d d fs l)).2 in
  match order_of_session sid d with
  | [o] => (d' = d ∨ d' = mark_failed o d) ∧ (fs = [] → d' = mark_failed o d)
  | _ => d' = d
  end.
Proof.
  cbv zeta. unfold handle_failed_payment, mark_failed.
  destruct (order_of_session sid d) as [|o [|o' os]] eqn:Ho; run_cases; auto.
  all: split; [auto|]; intros; done.
Qed.

Lemma deliver_expired_eq (sid : string) (d : DB) (fs : list bool) :
  ∃ l, deliver (expired sid) d fs
       = committed (handle_failed_payment sid (mkWorld d d fs l)).2.
Proof.
  exists [(INFO, "Verified Stripe webhook event: checkout.session.expired");
          (INFO, "Processing checkout session expired: " +:+ sid)].
  unfold deliver, run_request, stripe_webhook, expired, start.
  unfold bind, attempt, logger. cbn.
  case_bool_decide; [done|]. case_bool_decide; [|done]. cbn.
  destruct (handle_failed_payment _ _) as [[e|[]] w']; reflexivity.
Qed.

Lemma order_of_session_mark_failed (sid : string) (o : Order) (d : DB) :
  order_of_session sid d = [o] →
  order_of_session sid (mark_failed o d) = [set_payment_status "failed" o].
Proof.
  intros Ho. unfold order_of_session, mark_failed. cbn.
  rewrite filter_update_row by done.
  fold (order_of_session sid d). rewrite Ho. cbn.
  by rewrite bool_decide_eq_true_2.
Qed.

Lemma mark_failed_twice (o : Order) (d : DB) :
  mark_failed (set_payment_status "failed" o) (mark_failed o d) = mark_failed o d.
Proof.
  unfold mark_failed, with_orders. cbn [users orders referral_codes referral_uses o_id
    set_payment_status]. f_equal.
  etrans; [by apply (update_row_twice o_id)|].
  unfold update_row. apply list_fmap_ext. intros i x _. cbn. by case_bool_decide.
Qed.

Lemma deliver_expired_found (sid : string) (d : DB) (o : Order) :
  order_of_session sid d = [o] → deliver (expired sid) d [] = mark_failed o d.
Proof.
  intros Ho. destruct (deliver_expired_eq sid d []) as [l ->].
  pose proof (handle_failed_payment_spec sid d [] l) as H. cbv zeta in H.
  rewrite Ho in H. by apply H.
Qed.

(** X13.  A repeated expired event changes no column of the model.  After
    a delivery of a checkout.session.expired event during which nothing
    failed, a second delivery of the same event, whatever fails during it,
    leaves every table as the first left it, the timestamps aside, which
    the model leaves out.  It is not a detected no-op: the handler has no
    test of the status, so a second delivery that finds the order assigns
    payment_status and updated_at again and logs the order as marked failed
    once more. *)
Theorem expired_idempotent (sid : string) (d : DB) (fs' : list bool) :
  deliver (expired sid) (deliver (expired sid) d []) fs' = deliver (expired sid) d [] ∧
  ∀ o, order_of_session sid d = [o] →
       (INFO, "Order " +:+ o_uuid o +:+ " marked as failed")
         ∈ log (stripe_webhook (Some "whsec") (inr (expired sid))
                  (start (deliver (expired sid) d []) [])).2.
Proof.
  split.
  - destruct (deliver_expired_eq sid d []) as [l Hd1].
    pose proof (handle_failed_payment_spec sid d [] l) as H1.
    cbv zeta in H1. rewrite <- Hd1 in H1.
    destruct (deliver_expired_eq sid d fs') as [l' Hd2].
    pose proof (handle_failed_payment_spec sid d fs' l') as H2.
    cbv zeta in H2. rewrite <- Hd2 in H2.
    destruct (order_of_session sid d) as [|o [|o' os]] eqn:Ho.
    1,3: rewrite H1; exact H2.
    destruct H1 as [_ H1]. rewrite (H1 eq_refl).
    destruct (deliver_expired_eq sid (mark_failed o d) fs') as [l'' ->].
    pose proof (handle_failed_payment_spec sid (mark_failed o d) fs' l'') as H3.
    cbv zeta in H3. rewrite (order_of_session_mark_failed sid o d Ho) in H3.
    rewrite mark_failed_twice in H3. by destruct H3 as [[?|?] _].
  - intros o Ho. rewrite (deliver_expired_found sid d o Ho).
    pose proof (order_of_session_mark_failed sid o d Ho) as Ho1.
    unfold stripe_webhook, handle_failed_payment, expired, start.
    run_cases; try done. all: set_solver.
Qed.

(** [expired_idempotent] on Bob's paid order: the second expired event
    leaves the database of the first and logs the order as marked failed
    again. *)
Lemma expired_idempotent_witness :
  let d1 := deliver (expired "cs_1") Examples.paid_db [] in
  o_payment_status <$> orders d1 = ["failed"] ∧
  deliver (expired "cs_1") d1 [] = d1 ∧
  (INFO, "Order uuid-1 marked as failed")
    ∈ log (stripe_webhook (Some "whsec") (inr (expired "cs_1")) (start d1 [])).2.
Proof.
  cbv zeta.
  destruct (expired_idempotent "cs_1" Examples.paid_db []) as [Hsame Hlog].
  split; [reflexivity|]. split; [exact Hsame|].
  exact (Hlog Examples.paid_order eq_refl).
Defined.

(** X14.  The last event wins.  For an order found by its checkout
    session, where the lookups of the reconciliation are unambiguous: a
    completed event followed by an expired one leaves the order 'failed', the
    same two events in the other order leave it 'paid'. *)
Theorem last_event_wins (sid : string) (d : DB) (o : Order) :
  order_of_session sid d = [o] → lookups_unique d →
  o_payment_status <$>
    order_of_session sid (deliver (expired sid) (deliver (completed sid) d []) []) = ["failed"] ∧
  o_payment_status <$>
    order_of_session sid (deliver (completed sid) (deliver (expired sid) d []) []) = ["paid"].
Proof.
  intros Ho Hu. split.
  - assert (∃ o1, order_of_session sid (deliver (completed sid) d []) = [o1]) as [o1 Ho1].
    { destruct (decide (o_payment_status o = "paid")) as [Hp|Hp].
      - rewrite (deliver_completed_paid sid d o [] Ho Hp). eauto.
      - destruct (deliver_completed_first sid d o Ho Hp Hu) as (_ & ? & _). eauto. }
    rewrite (deliver_expired_found sid _ o1 Ho1).
    by rewrite (order_of_session_mark_failed sid o1 _ Ho1).
  - rewrite (deliver_expired_found sid d o Ho).
    pose proof (order_of_session_mark_failed sid o d Ho) as Ho1.
    destruct (deliver_completed_first sid (mark_failed o d) _ Ho1) as (_ & -> & _); done.
Qed.

Lemma last_event_wins_witness :
  o_payment_status <$>
    order_of_session "cs_1"
      (deliver (expired "cs_1") (deliver (completed "cs_1") Examples.pending_db []) [])
  = ["failed"].
Proof.
  apply (last_event_wins "cs_1" Examples.pending_db
           Examples.pending_order).
  - reflexivity.
  - exact lookups_unique_pending_db.
Defined.
Lemma webhook_spec (secret : option string) (constructed : exn + Event) (d : DB)
    (fs : list bool) :
  webhook_effect constructed d (run_request (stripe_webhook secret constructed) d fs).2.
Proof.
  assert (Hsame : webhook_effect constructed d d) by (repeat split; auto).
  unfold run_request, stripe_webhook, start.
  destruct (truthy secret); [|exact Hsame].
  destruct constructed as [e|ev]; [destruct e; exact Hsame|].
  unfold bind at 1. unfold bind at 1. unfold logger at 1. cbn.
  unfold bind at 1.
  repeat case_bool_decide.
  - unfold bind at 1. unfold logger at 1. cbn. unfold bind at 1. unfold attempt.
    match goal with |- context [handle_successful_payment ?a (mkWorld ?b ?c ?e ?g)] =>
      pose proof (handle_successful_payment_spec a b e g) as Hh;
      destruct (handle_successful_payment a (mkWorld b c e g)) as [res w1] end.
    cbv zeta in Hh. cbn in Hh.
    assert (Hch : webhook_effect (inr ev) d (committed w1)).
    { destruct (order_of_session (ev_session_id ev) d) as [|o [|o' os]] eqn:Ho;
        try (rewrite Hh; exact Hsame).
      assert (Hpaid : ∀ d1, users d1 = users d → referral_codes d1 = referral_codes d →
                orders d1 = orders (mark_paid o d) → webhook_effect (inr ev) d d1).
      { intros d1 Hu Hc Hord. split; [done|]. split; [done|]. right.
        exists ev, o, "paid". rewrite Ho. repeat split; auto. }
      repeat case_match; try (rewrite Hh; exact Hsame).
      - destruct Hh as [[-> | ->] _]; [exact Hsame|]. by apply Hpaid.
      - destruct Hh as [[-> | ->] _]; [exact Hsame|]. by apply Hpaid. }
    destruct res as [e|[]]; exact Hch.
  - unfold bind at 1. unfold logger at 1. cbn. unfold bind at 1. unfold attempt.
    match goal with |- context [handle_failed_payment ?a (mkWorld ?b ?c ?e ?g)] =>
      pose proof (handle_failed_payment_spec a b e g) as Hh;
      destruct (handle_failed_payment a (mkWorld b c e g)) as [res w1] end.
    cbv zeta in Hh. cbn in Hh.
    assert (Hch : webhook_effect (inr ev) d (committed w1)).
    { destruct (order_of_session (ev_session_id ev) d) as [|o [|o' os]] eqn:Ho;
        try (rewrite Hh; exact Hsame).
      destruct Hh as [[-> | ->] _]; [exact Hsame|].
      split; [done|]. split; [done|]. right.
      exists ev, o, "failed". rewrite Ho. repeat split; auto. }
    destruct res as [e|[]]; exact Hch.
  - exact Hsame.
Qed.

Section more_tables2.
Context {A : Type} (key : A → Z).

Lemma next_id_fresh (t : list A) : next_id key t ∉ key <$> t.
Proof.
  intros (r & Hk & Hr)%list_elem_of_fmap. pose proof (next_id_gt key t r Hr). lia.
Qed.

Lemma NoDup_keys_snoc (t : list A) (r : A) :
  key r = next_id key t → NoDup (key <$> t) → NoDup (key <$> t ++ [r]).
Proof.
  intros Hr Hnd. rewrite fmap_app. apply NoDup_app. split; [done|]. split.
  - intros k Hk Hin%list_elem_of_singleton. subst k. rewrite Hr in Hk.
    by apply next_id_fresh in Hk.
  - cbn. apply NoDup_singleton.
Qed.

End more_tables2.

Lemma db_step_keys (d d' : DB) :
  db_step d d' → NoDup (u_id <$> users d) → NoDup (ru_id <$> referral_uses d) →
  NoDup (u_id <$> users d') ∧ NoDup (ru_id <$> referral_uses d').
Proof.
  intros H Hu Hr.
  destruct H as [d' -> ->|d' k f Hf -> ->|d' r k Hin Ha -> ->|d' u Hid -> ->|d' u c Hid -> ->].
  - done.
  - split; [done|]. rewrite update_row_ids; [done|]. by destruct Hf as [-> | ->].
  - split; [done|]. by rewrite update_row_ids.
  - split; [by apply NoDup_keys_snoc|done].
  - split; [by apply NoDup_keys_snoc|]. by apply NoDup_keys_snoc.
Qed.

Lemma register_codes (ud : UserCreate) (hashed code8 : string) (d : DB) (fs : list bool) :
  let d' := (run_request (register ud hashed code8) d fs).2 in
  orders d' = orders d ∧
  (referral_codes d' = referral_codes d ∨
   ∃ c, rc_id c = next_id rc_id (referral_codes d) ∧
        referral_codes d' = referral_codes d ++ [c]).
Proof.
  cbv zeta. pose proof (register_spec ud hashed code8 d fs) as H.
  destruct (run_request (register ud hashed code8) d fs) as [[e|resp] d']; cbn [snd].
  - destruct H as [-> | [_ ->]]; auto.
  - destruct H as (_ & _ & _ & -> & -> & _). split; [done|]. right. eexists. split; [|reflexivity]. reflexivity.
Qed.

(** X15.  Every write that is modelled (registration, order creation, a
    webhook delivery, the two admin overrides), whatever fails during it,
    keeps the primary keys of the four tables distinct. *)
Theorem keys_unique_preserved (req : any_request) (d : DB) (fs : list bool) :
  keys_unique d → keys_unique (handle_any req d fs).
Proof.
  intros (Hu & Ho & Hc & Hr).
  destruct req as [req|order_id status|user_id current_user].
  - destruct (db_step_keys d (handle req d fs) (handle_step req d fs) Hu Hr) as [Hu' Hr'].
    split; [done|]. split; [|split; [|done]]; destruct req as [ud h c8|od uid uuid cs|s c]; cbn.
    + by destruct (register_codes ud h c8 d fs) as [-> _].
    + destruct (create_order_spec od uid uuid cs d fs) as (_ & _ & [-> |(x & y & z & -> & _)]);
        [done|]. by apply NoDup_keys_snoc.
    + destruct (webhook_spec s c d fs) as (_ & _ & [-> |(ev & o & st & _ & _ & _ & ->)]);
        [done|]. by rewrite update_row_keys.
    + destruct (register_codes ud h c8 d fs) as [_ [-> | (x & Hx & ->)]]; [done|].
      by apply NoDup_keys_snoc.
    + by destruct (create_order_spec od uid uuid cs d fs) as (_ & -> & _).
    + by destruct (webhook_spec s c d fs) as (_ & -> & _).
  - cbn. destruct (update_order_status_spec order_id status d fs) as [-> | ->]; [done|].
    repeat split; try done. cbn. by rewrite update_row_keys.
  - cbn. pose proof (toggle_user_admin_spec user_id current_user d fs) as H.
    destruct (run_request (toggle_user_admin user_id current_user) d fs)
      as [[e|answer] d']; cbn [snd].
    + by destruct H as [-> _].
    + destruct H as (t & _ & _ & _ & ->). repeat split; try done. cbn.
      by rewrite update_row_keys.
Qed.

(** X16.  No public request (registration, order creation, webhook)
    grants admin rights or touches an existing user, whatever fails: the
    users table is left as it was, or gets one new row at its end, which is
    active, not an admin, and has the next key. *)
Theorem public_requests_keep_users (req : request) (d : DB) (fs : list bool) :
  users (handle req d fs) = users d ∨
  ∃ u, users (handle req d fs) = users d ++ [u] ∧
       u_is_admin u = false ∧ u_is_active u = true ∧ u_id u = next_id u_id (users d).
Proof.
  destruct req as [ud h c8|od uid uuid cs|s c]; cbn.
  - pose proof (register_spec ud h c8 d fs) as H.
    destruct (run_request (register ud h c8) d fs) as [[e|resp] d']; cbn [snd].
    + destruct H as [-> | [_ ->]]; [by left|]. right. by eexists.
    + destruct H as (_ & _ & -> & _). right. by eexists.
  - left. by destruct (create_order_spec od uid uuid cs d fs) as (-> & _).
  - left. by destruct (webhook_spec s c d fs) as (-> & _).
Qed.

(** X17.  create_order, whatever the request and whatever fails, only
    appends: users and referral codes are kept, every order that was there is
    still there unchanged at its position, and at most one order is added,
    which has the next key, belongs to the caller, carries the uuid of the
    request, is 'pending', and has either no checkout session or the one the
    gateway opened. *)
Theorem create_order_appends (od : OrderCreate) (uid : Z) (uuid : string)
    (cs : string * string) (d : DB) (fs : list bool) :
  let d' := (run_request (create_order od uid uuid cs) d fs).2 in
  users d' = users d ∧ referral_codes d' = referral_codes d ∧
  (∀ i o, orders d !! i = Some o → orders d' !! i = Some o) ∧
  (length (orders d') ≤ S (length (orders d)))%nat ∧
  (∀ o, o ∈ orders d' → o ∈ orders d ∨
        o_id o = next_id o_id (orders d) ∧ o_user_id o = uid ∧ o_uuid o = uuid ∧
        o_payment_status o = "pending" ∧
        (o_stripe_payment_intent o = None ∨ o_stripe_payment_intent o = Some cs.1)).
Proof.
  cbv zeta. destruct (create_order_spec od uid uuid cs d fs) as (Hu & Hc & Ho).
  split; [done|]. split; [done|].
  destruct Ho as [-> | (details & total & intent & -> & Hi)].
  - split; [done|]. split; [lia|]. auto.
  - split; [|split].
    + intros i o Hi'. by apply lookup_app_l_Some.
    + rewrite length_app. cbn. lia.
    + intros o [Hin|Hin%list_elem_of_singleton]%elem_of_app; [by left|]. right.
      subst o. cbn. done.
Qed.

(** X18.  The price of a watch or a bracelet is the number the client
    sends in product_details.price.  A missing price, or an integer price
    that is not positive, is refused with the 400 'Invalid product price';
    a price that is not a number (a string, null, a list, an object) raises
    TypeError; both leave the database unchanged whatever else fails.  A
    positive integer price is taken as it is, whatever it is: it is the
    total_price the handler computes.  Up to 2^53, where the Float column
    of total_price holds an integer exactly, it is with no discount
    requested and no failure the total_price of the stored order and of the
    answer (a larger integer comes back from the column rounded, or makes
    the insert fail beyond the binary64 range).  A float is refused when it
    is <= 0 and taken otherwise; true counts as 1 and false as 0. *)
Theorem client_price_trusted (od : OrderCreate) (uid : Z) (uuid : string)
    (cs : string * string) (d : DB) (fs : list bool) (details : gmap string jval) :
  product_type od = "watch" ∨ product_type od = "bracelet" →
  product_details od = Some details →
  match details !! "price" with
  | None =>
      run_request (create_order od uid uuid cs) d fs
      = (inl (HTTPException 400 "Invalid product price"), d)
  | Some (JInt z) =>
      if bool_decide (z ≤ 0) then
        run_request (create_order od uid uuid cs) d fs
        = (inl (HTTPException 400 "Invalid product price"), d)
      else
        calculate_price od = inr (PyInt z) ∧
        (z ≤ 2 ^ 53 → default false (use_referral_discount od) = false →
         ∃ o, run_request (create_order od uid uuid cs) d []
              = (inr (mkCreateOrderResponse true uuid (PyInt z) "USD" (Some cs.2) (Some cs.1)
                        "Order created successfully"),
                 with_orders (λ t, t ++ [o]) d) ∧
              o_total_price o = PyInt z ∧ o_user_id o = uid ∧ o_payment_status o = "pending")
  | Some (JStr _) | Some JNull | Some (JArr _) | Some (JObj _) =>
      run_request (create_order od uid uuid cs) d fs = (inl TypeError, d)
  | Some (JBool b) =>
      if b then calculate_price od = inr (PyInt 1)
      else run_request (create_order od uid uuid cs) d fs
           = (inl (HTTPException 400 "Invalid product price"), d)
  | Some (JFloat f) =>
      if PrimFloat.leb f 0%float
      then run_request (create_order od uid uuid cs) d fs
           = (inl (HTTPException 400 "Invalid product price"), d)
      else calculate_price od = inr (PyFloat f)
  end.
Proof.
  intros Hp Hd.
  assert (Hne : product_type od ≠ "grillz") by (destruct Hp as [-> | ->]; done).
  assert (Hcalc : calculate_price od = price_of_jval (default (JInt 0) (details !! "price"))).
  { unfold calculate_price. rewrite bool_decide_eq_false_2 by done.
    rewrite bool_decide_eq_true_2 by done. by rewrite Hd. }
  destruct (details !! "price") as [[|b| z |f| | |]|] eqn:Hprice; cbn in Hcalc; try done.
  all: try (by apply create_order_rejected).
  - destruct b; [done|]. by apply create_order_rejected.
  - case_bool_decide as Hz.
    + by apply create_order_rejected.
    + split; [done|]. intros _ Hno. eexists. split; [by apply create_order_plain|]. done.
  - destruct (PrimFloat.leb f 0%float); [|done]. by apply create_order_rejected.
Qed.

Lemma client_price_trusted_witness :
  let od := mkOrderCreate "watch" "steel" None (Some {[ "price" := JInt 1 ]})
              "Bob" "1 Main St" "Springfield" "12345" None in
  ∃ o, (run_request (create_order od 2 "uuid-7" ("cs_7", "https://pay/cs_7"))
          Examples.paid_db []).2
       = with_orders (λ t, t ++ [o]) Examples.paid_db ∧
       o_total_price o = PyInt 1.
Proof.
  cbv zeta.
  pose proof (client_price_trusted
                (mkOrderCreate "watch" "steel" None (Some {[ "price" := JInt 1 ]})
                   "Bob" "1 Main St" "Springfield" "12345" None)
                2 "uuid-7" ("cs_7", "https://pay/cs_7") Examples.paid_db []
                {[ "price" := JInt 1 ]} (or_introl eq_refl) eq_refl) as H.
  cbn in H. destruct H as [_ H].
  destruct (H ltac:(vm_compute; discriminate) eq_refl) as (o & Hrun & Hp & _).
  exists o. by rewrite Hrun.
Defined.

(** X19.  A gateway call that fails leaves a stranded order.  With a
    price computed, no discount requested, and the insert committed and
    refreshed, a failing stripe.checkout.Session.create is answered with the
    StripeError, but the 'pending' order stays in the database without a
    checkout session, so no webhook event finds it: for every session id the
    lookup of the webhook handlers returns what it returned before. *)
Theorem gateway_failure_strands_order (od : OrderCreate) (uid : Z) (uuid : string)
    (cs : string * string) (d : DB) (p : Z) (details : gmap string jval) (fs : list bool) :
  calculate_price od = inr (PyInt p) →
  default false (use_referral_discount od) = false →
  product_details od = Some details →
  let '(r, d') := run_request (create_order od uid uuid cs) d (false :: false :: true :: fs) in
  r = inl StripeError ∧
  (∃ o, orders d' = orders d ++ [o] ∧ o_payment_status o = "pending" ∧
        o_stripe_payment_intent o = None ∧ o_user_id o = uid ∧ o_total_price o = PyInt p) ∧
  ∀ sid, order_of_session sid d' = order_of_session sid d.
Proof.
  intros Hc Hno Hd. unfold run_request, create_order, start.
  unfold_M. cbn. rewrite Hc, Hno, Hd. cbn.
  split; [done|]. split; [eexists; split; [reflexivity|done]|].
  intros sid. unfold order_of_session. cbn. rewrite filter_app.
  rewrite (filter_cons_False _ _ []) by done. by rewrite app_nil_r.
Qed.

Lemma gateway_failure_strands_order_witness :
  let '(r, d') := run_request (create_order (Examples.gold4 false) 2 "uuid-2"
                                 ("cs_2", "https://pay/cs_2"))
                    Examples.paid_db [false; false; true] in
  r = inl StripeError ∧ length (orders d') = 2%nat ∧
  order_of_session "cs_2" d' = [].
Proof.
  pose proof (gateway_failure_strands_order (Examples.gold4 false) 2 "uuid-2"
                ("cs_2", "https://pay/cs_2") Examples.paid_db 1196 ∅ []
                eq_refl eq_refl eq_refl) as H.
  destruct (run_request _ Examples.paid_db [false; false; true]) as [r d'].
  destruct H as (-> & (o & Ho & _) & Hs). split; [done|]. split.
  - by rewrite Ho.
  - by rewrite Hs.
Defined.

(** X20.  A delivery that is not a verified event of one of the two
    handled types reaches no database call: the database and the session are
    as before and no call is made.  Without a configured secret (unset or
    empty) the answer is the 500; with one, a payload or a signature that
    construct_event refuses is answered 400, any other exception of
    construct_event propagates, and an event of another type is acknowledged
    with 'success'. *)
Theorem webhook_without_effect (secret : option string) (constructed : exn + Event)
    (d : DB) (fs : list bool) :
  truthy secret = None ∨ (∃ e, constructed = inl e) ∨
  (∃ ev, constructed = inr ev ∧ ev_type ev ≠ "checkout.session.completed" ∧
         ev_type ev ≠ "checkout.session.expired") →
  let '(r, w) := stripe_webhook secret constructed (start d fs) in
  committed w = d ∧ session w = d ∧ faults w = fs ∧
  r = match truthy secret, constructed with
      | None, _ => inl (HTTPException 500 "Webhook secret not configured")
      | Some _, inl ValueError => inl (HTTPException 400 "Invalid payload")
      | Some _, inl SignatureVerificationError => inl (HTTPException 400 "Invalid signature")
      | Some _, inl e => inl e
      | Some _, inr _ => inr "success"
      end.
Proof.
  intros H. unfold stripe_webhook, start.
  destruct (truthy secret) as [s|]; [|done].
  destruct H as [?|[[e ->]|(ev & -> & H1 & H2)]]; [done| |].
  - destruct e; done.
  - unfold_M. cbn. rewrite !bool_decide_eq_false_2 by done. done.
Qed.

Lemma webhook_without_effect_witness :
  (stripe_webhook None (inr (completed "cs_1")) (start Examples.pending_db [])).1
  = inl (HTTPException 500 "Webhook secret not configured") ∧
  (stripe_webhook (Some "whsec") (inl SignatureVerificationError)
     (start Examples.pending_db [])).1
  = inl (HTTPException 400 "Invalid signature").
Proof.
  split.
  - pose proof (webhook_without_effect None (inr (completed "cs_1")) Examples.pending_db []
                  (or_introl eq_refl)) as H.
    destruct (stripe_webhook None _ _) as [r w]. by destruct H as (_ & _ & _ & ->).
  - pose proof (webhook_without_effect (Some "whsec") (inl SignatureVerificationError)
                  Examples.pending_db []
                  (or_intror (or_introl (ex_intro _ SignatureVerificationError eq_refl)))) as H.
    destruct (stripe_webhook (Some "whsec") _ _) as [r w]. by destruct H as (_ & _ & _ & ->).
Defined.

Lemma update_row_set_status_other (k : Z) (s : string) (t : list Order) (i : nat) (o : Order) :
  t !! i = Some o →
  ∃ o', update_row o_id k (set_payment_status s) t !! i = Some o' ∧
        (o' = o ∨ o_id o = k ∧ o' = set_payment_status s o).
Proof.
  intros Hi. rewrite update_row_lookup, Hi. cbn. case_bool_decide; eauto.
Qed.

(** X21.  A webhook delivery, whatever the event and whatever fails,
    leaves users and referral codes alone and every order in its place; where
    the order keys are distinct, the only order it may change is the one
    found by the event's checkout session, and of the columns of the model
    only its payment_status, which becomes 'paid' or 'failed' (the handlers
    assign the order's updated_at with it, a timestamp that the model leaves
    out). *)
Theorem webhook_changes_one_status (secret : option string) (constructed : exn + Event)
    (d : DB) (fs : list bool) :
  NoDup (o_id <$> orders d) →
  let d' := (run_request (stripe_webhook secret constructed) d fs).2 in
  users d' = users d ∧ referral_codes d' = referral_codes d ∧
  ∀ i o, orders d !! i = Some o →
    orders d' !! i = Some o ∨
    ∃ ev s, constructed = inr ev ∧ o_stripe_payment_intent o = Some (ev_session_id ev) ∧
            (s = "paid" ∨ s = "failed") ∧
            orders d' !! i = Some (set_payment_status s o).
Proof.
  intros Hnd. cbv zeta.
  destruct (webhook_spec secret constructed d fs) as (Hu & Hc & Ho).
  split; [done|]. split; [done|]. intros i o Hi.
  destruct Ho as [-> | (ev & o1 & s & -> & Ho1 & Hs & ->)]; [by left|].
  destruct (update_row_set_status_other (o_id o1) s (orders d) i o Hi) as (o' & Hl & [-> | [Hk ->]]);
    [by left|].
  right. exists ev, s. split; [done|]. split; [|done].
  assert (Hin1 : o1 ∈ order_of_session (ev_session_id ev) d) by (rewrite Ho1; by left).
  apply list_elem_of_filter in Hin1 as [Hint Hin1].
  apply list_elem_of_lookup in Hin1 as [j Hj].
  assert (i = j) as ->.
  { eapply NoDup_lookup; [exact Hnd| |]; rewrite list_lookup_fmap.
    - by rewrite Hi.
    - rewrite Hj. cbn. by rewrite Hk. }
  by simplify_eq.
Qed.

Lemma webhook_changes_one_status_witness :
  let d' := (run_request (stripe_webhook (Some "whsec") (inr (expired "cs_1")))
               Examples.paid_db []).2 in
  users d' = users Examples.paid_db ∧
  (orders d' !! 0%nat = Some Examples.paid_order ∨
   ∃ s, orders d' !! 0%nat = Some (set_payment_status s Examples.paid_order)).
Proof.
  cbv zeta.
  assert (Hnd : NoDup (o_id <$> orders Examples.paid_db)).
  { apply (bool_decide_unpack _). vm_compute. exact I. }
  destruct (webhook_changes_one_status (Some "whsec") (inr (expired "cs_1"))
              Examples.paid_db [] Hnd) as (Hu & _ & Ho).
  split; [exact Hu|].
  destruct (Ho 0%nat Examples.paid_order eq_refl) as [H|(ev & s & _ & _ & _ & H)];
    [by left|right; by exists s].
Defined.

(** ** Registration: once, and interrupted *)

Lemma register_email_taken (ud : UserCreate) (hashed code8 : string) (d : DB) (u : User) :
  user_by_email (email ud) d = [u] →
  run_request (register ud hashed code8) d []
  = (inl (HTTPException 400 "Email already registered"), d).
Proof. intros Hu. unfold run_request, register, start. run_cases. done. Qed.

Lemma user_by_email_new (ud : UserCreate) (hashed : string) (d d' : DB) :
  user_by_email (email ud) d = [] → users d' = users d ++ [new_user ud hashed d] →
  user_by_email (email ud) d' = [new_user ud hashed d].
Proof.
  unfold user_by_email. intros Hnone ->.
  rewrite filter_app, Hnone, app_nil_l, filter_cons_True by done. done.
Qed.

(** X22.  An email registers once.  If a registration left a user row,
    whatever it answered and whatever failed in it, a later registration with
    the same email is answered 400 'Email already registered' and changes
    nothing. *)
Theorem register_once (ud ud' : UserCreate) (hashed code8 hashed' code8' : string)
    (d : DB) (fs : list bool) :
  let d' := (run_request (register ud hashed code8) d fs).2 in
  users d' ≠ users d → email ud' = email ud →
  run_request (register ud' hashed' code8') d' []
  = (inl (HTTPException 400 "Email already registered"), d').
Proof.
  cbv zeta. intros Hne Hmail. pose proof (register_spec ud hashed code8 d fs) as H.
  destruct (run_request (register ud hashed code8) d fs) as [[e|resp] d']; cbn [snd] in *.
  - destruct H as [-> | [Hnone ->]]; [done|].
    apply (register_email_taken _ _ _ _ (new_user ud hashed d)). rewrite Hmail.
    by apply user_by_email_new.
  - destruct H as (_ & Hnone & Hus & _).
    apply (register_email_taken _ _ _ _ (new_user ud hashed d)). rewrite Hmail.
    by apply user_by_email_new.
Qed.

Lemma register_once_witness :
  let d' := (run_request (register Scenarios.dora "h4" "DDDD4444") Examples.paid_db []).2 in
  run_request (register Scenarios.dora "h5" "EEEE5555") d' []
  = (inl (HTTPException 400 "Email already registered"), d').
Proof.
  cbv zeta. apply register_once; [|reflexivity].
  vm_compute. discriminate.
Defined.

(** X23.  A registration interrupted after its first commit leaves half
    an account.  If register answers with an error and yet changed the
    database, then the database holds the new user, with referred_by as
    supplied, but neither a referral code for that user nor the ReferralUse
    row that would link the user to the code that was supplied. *)
Theorem register_interrupted (ud : UserCreate) (hashed code8 : string) (d d' : DB)
    (fs : list bool) (e : exn) :
  run_request (register ud hashed code8) d fs = (inl e, d') → d' ≠ d →
  ∃ u, users d' = users d ++ [u] ∧ u_email u = email ud ∧
       u_referred_by u = referral_code ud ∧ u_id u = next_id u_id (users d) ∧
       referral_codes d' = referral_codes d ∧ referral_uses d' = referral_uses d ∧
       orders d' = orders d.
Proof.
  intros Hrun Hne. pose proof (register_spec ud hashed code8 d fs) as H.
  rewrite Hrun in H. destruct H as [-> | [_ ->]]; [done|].
  by eexists.
Qed.

Lemma register_interrupted_witness :
  ∃ u, users (run_request (register Scenarios.dora "h4" "DDDD4444") Examples.paid_db
                [false; false; false; false; true]).2
       = users Examples.paid_db ++ [u] ∧
       u_referred_by u = Some "AAAA1111" ∧
       referral_uses (run_request (register Scenarios.dora "h4" "DDDD4444") Examples.paid_db
                        [false; false; false; false; true]).2
       = referral_uses Examples.paid_db.
Proof.
  destruct (register_interrupted Scenarios.dora "h4" "DDDD4444" Examples.paid_db
              (run_request (register Scenarios.dora "h4" "DDDD4444") Examples.paid_db
                 [false; false; false; false; true]).2
              [false; false; false; false; true] SQLAlchemyError)
    as (u & Hu & _ & Hr & _ & _ & Huses & _).
  - vm_compute. reflexivity.
  - vm_compute. discriminate.
  - exists u. done.
Defined.

(** ** Two referrals *)

(** X24.  A referrer with two or more unused referrer rows gets no
    discount from apply_referral_discount: the lookup raises
    MultipleResultsFound, which the helper swallows, so for a user without an
    unused referee discount the price comes back unchanged with no discount
    type and the database is untouched, whatever fails. *)
Theorem two_referrals_no_discount (user_id : Z) (p : pynum) (d : DB) (c : ReferralCode)
    (r1 r2 : ReferralUse) (rs : list ReferralUse) (fs : list bool) :
  unused_referee user_id d = [] → code_of_user user_id d = [c] →
  unused_referrer (rc_id c) d = r1 :: r2 :: rs →
  run_request (apply_referral_discount user_id p) d fs = (inr (p, None), d).
Proof.
  intros H1 H2 H3. unfold run_request, apply_referral_discount, apply_referral_discount_body,
    start.
  run_cases; done.
Qed.

Lemma two_referrals_no_discount_witness :
  run_request (apply_referral_discount 1 (PyInt 1196)) Scenarios.two_referrals []
  = (inr (PyInt 1196, None), Scenarios.two_referrals).
Proof.
  by apply (two_referrals_no_discount 1 (PyInt 1196) Scenarios.two_referrals
              (mkReferralCode 1 "AAAA1111" 1)
              (mkReferralUse 1 1 2 (Some 1) false true true)
              (mkReferralUse 2 1 3 (Some 2) false true true) []).
Defined.

(** ** The properties above on concrete states *)

Lemma revoked_admin_denied_witness :
  let d' := (run_request (toggle_user_admin 2 Scenarios.ann_admin)
               Scenarios.back_office []).2 in
  (run_request (admin_of_request Scenarios.plain_decode "/admin/api/stats"
                  (Some "sub:bob@example.com")) Scenarios.back_office []).1
  = inr (inr Scenarios.bob_admin) ∧
  (run_request (admin_of_request Scenarios.plain_decode "/admin/api/stats"
                  (Some "sub:bob@example.com")) d' []).1
  = inr (inl (mkDenial 403 "Admin access required" None)).
Proof.
  apply (revoked_admin_denied Scenarios.plain_decode "/admin/api/stats"
           "sub:bob@example.com" 2 Scenarios.ann_admin Scenarios.back_office
           Scenarios.bob_admin); try reflexivity; discriminate.
Defined.

(** [admin_of_request_outcome] at the gate of the back-office: no cookie on
    an API path, a token that does not decode on a page, Bob who is not an
    admin, and Ann when the lookup fails. *)
Lemma admin_of_request_outcome_witness :
  (run_request (admin_of_request Scenarios.plain_decode "/admin/api/stats" None)
     Scenarios.with_password []).1
  = inr (inl (mkDenial 401 "Authentication required" None)) ∧
  (run_request (admin_of_request Scenarios.plain_decode "/admin/users" (Some "garbage"))
     Scenarios.with_password []).1
  = inr (inl (mkDenial 303 "Redirecting to login" (Some "/auth/login"))) ∧
  (run_request (admin_of_request Scenarios.plain_decode "/admin/api/stats"
                  (Some "sub:bob@example.com")) Scenarios.with_password []).1
  = inr (inl (mkDenial 403 "Admin access required" None)) ∧
  (run_request (admin_of_request Scenarios.plain_decode "/admin/api/stats"
                  (Some "sub:ann@example.com")) Scenarios.back_office []).1
  = inr (inr Scenarios.ann_admin) ∧
  (run_request (admin_of_request Scenarios.plain_decode "/admin/api/stats"
                  (Some "sub:ann@example.com")) Scenarios.back_office [true]).1
  = inl SQLAlchemyError.
Proof.
  rewrite !(admin_of_request_outcome Scenarios.plain_decode). repeat split.
Defined.

Lemma login_outcome_witness :
  run_request (login Scenarios.plain_verify Scenarios.plain_encode 1700000000
                 (mkUserLogin "bob@example.com" "guess")) Scenarios.with_password []
  = (inl (HTTPException 401 "Incorrect email or password"), Scenarios.with_password) ∧
  run_request (login Scenarios.plain_verify Scenarios.plain_encode 1700000000
                 (mkUserLogin "eve@example.com" "pw")) Scenarios.with_password []
  = (inl (HTTPException 401 "Incorrect email or password"), Scenarios.with_password).
Proof.
  split.
  - apply (login_outcome Scenarios.plain_verify Scenarios.plain_encode 1700000000
             (mkUserLogin "bob@example.com" "guess") Scenarios.with_password []).
    right. eexists. split; reflexivity.
  - apply (login_outcome Scenarios.plain_verify Scenarios.plain_encode 1700000000
             (mkUserLogin "eve@example.com" "pw") Scenarios.with_password []).
    left. reflexivity.
Defined.

Lemma register_then_login_witness :
  let d' := (run_request (register Scenarios.dora "hash:pw" "DDDD4444")
               Examples.paid_db []).2 in
  ∃ cookie,
    run_request (login Scenarios.plain_verify Scenarios.plain_encode 1700000000
                   (mkUserLogin "dora@example.com" "pw")) d' []
    = (inr (mkLoginResponse "Login successful" cookie), d') ∧
    cookie_value cookie = "sub:dora@example.com".
Proof.
  cbv zeta.
  destruct (register_then_login Scenarios.plain_verify Scenarios.plain_encode 1700000000
              Scenarios.dora "hash:pw" "DDDD4444" Examples.paid_db
              (run_request (register Scenarios.dora "hash:pw" "DDDD4444")
                 Examples.paid_db []).2
              [] (mkUserResponse "dora@example.com" "Dora" false))
    as (cookie & Hrun & Hval).
  - vm_compute. reflexivity.
  - vm_compute. reflexivity.
  - exists cookie. split; [exact Hrun|]. rewrite Hval. vm_compute. reflexivity.
Defined.

Lemma login_then_current_user_witness :
  ∃ u, run_request (get_current_user Scenarios.plain_decode (Some "sub:bob@example.com"))
         Scenarios.with_password []
       = (inr u, Scenarios.with_password) ∧
       u_email u = "bob@example.com".
Proof.
  destruct (login_then_current_user Scenarios.plain_verify Scenarios.plain_encode
              Scenarios.plain_decode 1700000000 (mkUserLogin "bob@example.com" "pw")
              Scenarios.with_password
              (mkLoginResponse "Login successful"
                 (mkCookie "auth_token" "sub:bob@example.com" true 86400 "lax")))
    as (u & Hrun & Hmail & _).
  - vm_compute. reflexivity.
  - discriminate.
  - vm_compute. reflexivity.
  - exists u. split; [exact Hrun|exact Hmail].
Defined.

Lemma check_discount_against_stats_witness :
  (run_request (check_available_discount 1) Scenarios.two_referrals []).1
  = inl MultipleResultsFound.
Proof.
  apply (check_discount_against_stats 1 Scenarios.two_referrals
           (mkReferralStats "AAAA1111" 2 2 2 "/register?ref=AAAA1111")).
  - vm_compute. reflexivity.
  - reflexivity.
Defined.

Lemma keys_unique_preserved_witness :
  keys_unique (handle_any (Public (CreateOrder (Examples.gold4 false) 2 "uuid-2"
                                     ("cs_2", "https://pay/cs_2")))
                 Scenarios.back_office [false; false; true]).
Proof.
  apply keys_unique_preserved.
  repeat split; apply (bool_decide_unpack _); vm_compute; exact I.
Defined.

(** ** A discount is used once *)

Lemma no_referee_no_referee_discount (user_id : Z) (p : pynum) (d : DB) (fs : list bool) :
  unused_referee user_id d = [] →
  ∃ total kind, (run_request (apply_referral_discount user_id p) d fs).1 = inr (total, kind) ∧
                kind ≠ Some "referee".
Proof.
  intros Hnone. unfold run_request, apply_referral_discount, apply_referral_discount_body,
    start.
  run_cases; eauto.
Qed.

(** X25.  The referee discount is used once.  When apply_referral_discount
    grants it (one unused referee row, no failure), the user has no unused
    referee row afterwards, and no later call for that user returns the
    referee discount, whatever the price and whatever fails. *)
Theorem referee_discount_used_once (user_id : Z) (p p1 p2 : pynum) (d : DB)
    (r : ReferralUse) (fs : list bool) :
  unused_referee user_id d = [r] → py_mul_float p 0.9%float = Some p1 →
  let first := run_request (apply_referral_discount user_id p) d [] in
  first.1 = inr (p1, Some "referee") ∧
  unused_referee user_id first.2 = [] ∧
  ∃ total kind,
    (run_request (apply_referral_discount user_id p2) first.2 fs).1 = inr (total, kind) ∧
    kind ≠ Some "referee".
Proof.
  intros Hr Hp. cbv zeta. rewrite (apply_referee user_id p d r [] Hr). cbv zeta.
  rewrite Hp. cbn [fst snd]. split; [done|].
  assert (Hnone : unused_referee user_id
                    (with_referral_uses (update_row ru_id (ru_id r) set_referee_discount_used) d)
                  = []).
  { unfold unused_referee. cbn [referral_uses with_referral_uses]. apply filter_none.
    intros x (y & -> & Hy)%list_elem_of_fmap [Hu Hf].
    case_bool_decide as Hk; [done|].
    assert (Hin : y ∈ unused_referee user_id d) by (by apply list_elem_of_filter).
    rewrite Hr in Hin. apply list_elem_of_singleton in Hin. by subst y. }
  split; [exact Hnone|]. by apply no_referee_no_referee_discount.
Qed.

Lemma referee_discount_used_once_witness :
  let first := run_request (apply_referral_discount 2 (PyInt 1196)) Examples.fresh_referral [] in
  first.1 = inr (PyFloat 1076.4%float, Some "referee") ∧
  unused_referee 2 first.2 = [].
Proof.
  cbv zeta.
  destruct (referee_discount_used_once 2 (PyInt 1196) (PyFloat 1076.4%float) (PyInt 1196)
              Examples.fresh_referral (mkReferralUse 1 1 2 None false false false) [])
    as (H1 & H2 & _).
  - reflexivity.
  - vm_compute. reflexivity.
  - split; [exact H1|exact H2].
Defined.

(** ** From the referred user's payment to the referrer's discount *)

Lemma active_unused_after_activation (order_id : Z) (r : ReferralUse) (d : DB) :
  NoDup (ru_id <$> referral_uses d) → r ∈ referral_uses d →
  ru_referrer_discount_used r = false →
  active_unused_referrer (ru_referral_code_id r) d = [] →
  active_unused_referrer (ru_referral_code_id r)
    (with_referral_uses (update_row ru_id (ru_id r) (set_active order_id)) d)
  = [set_active order_id r].
Proof.
  intros Hnd Hin Hunused Hnone.
  apply list_elem_of_lookup in Hin as [i Hi].
  unfold active_unused_referrer in *. cbn [referral_uses with_referral_uses].
  rewrite (update_row_unique ru_id _ _ i r Hnd Hi).
  rewrite <- (take_drop_middle _ _ _ Hi) in Hnone |- *.
  rewrite filter_app, filter_cons in Hnone.
  apply app_eq_nil in Hnone as [Hl Hr].
  rewrite insert_app_r_alt by (rewrite length_take; apply lookup_lt_Some in Hi; lia).
  rewrite length_take_le by (apply lookup_lt_Some in Hi; lia).
  rewrite Nat.sub_diag, filter_app, Hl, app_nil_l. cbn [insert list_insert].
  rewrite filter_cons_True by (by cbn).
  case_decide; [done|]. by rewrite Hr.
Qed.

Lemma activation_target_mark_paid (user_id : Z) (o : Order) (d : DB) :
  activation_target user_id (mark_paid o d) = activation_target user_id d.
Proof. reflexivity. Qed.

Lemma check_available_discount_referrer (user_id : Z) (d : DB) (c : ReferralCode)
    (rows : list ReferralUse) :
  unused_referee user_id d = [] → code_of_user user_id d = [c] →
  active_unused_referrer (rc_id c) d = rows →
  (run_request (check_available_discount user_id) d []).1
  = match rows with
    | [] => inr (PyInt 0, None)
    | [_] => inr (PyFloat 0.20%float, Some "referrer")
    | _ => inl MultipleResultsFound
    end.
Proof.
  intros H1 H2 H3. unfold run_request, check_available_discount, start.
  run_cases; done.
Qed.

(** X26.  The referred user's payment unlocks the referrer's discount.
    Take a pending order found by its checkout session, whose buyer was
    referred through a ReferralUse row that is not yet active and whose
    referrer discount is unused, and a referrer (the owner of that row's
    code) with no unused referee discount and no referrer discount available
    so far.  Before the completed event check_available_discount offers the
    referrer nothing; after it, delivered without failure, it offers the 20%
    referrer discount. *)
Theorem payment_unlocks_referrer_discount (sid : string) (d : DB) (o : Order)
    (r : ReferralUse) (c : ReferralCode) (referrer : Z) :
  lookups_unique d → NoDup (ru_id <$> referral_uses d) →
  order_of_session sid d = [o] → o_payment_status o ≠ "paid" →
  activation_target (o_user_id o) d = inr (Some r) →
  ru_referrer_discount_used r = false →
  code_of_user referrer d = [c] → rc_id c = ru_referral_code_id r →
  unused_referee referrer d = [] → active_unused_referrer (rc_id c) d = [] →
  (run_request (check_available_discount referrer) d []).1 = inr (PyInt 0, None) ∧
  (run_request (check_available_discount referrer) (deliver (completed sid) d []) []).1
  = inr (PyFloat 0.20%float, Some "referrer").
Proof.
  intros Hlu Hnd Ho Hp Ht Hunused Hc Hcid Href Hnone. split.
  - by rewrite (check_available_discount_referrer referrer d c [] Href Hc Hnone).
  - destruct (deliver_completed_eq sid d []) as [l ->].
    pose proof (handle_successful_payment_spec sid d [] l) as H. cbv zeta in H.
    rewrite Ho, bool_decide_eq_false_2, activation_target_mark_paid, Ht in H by done.
    destruct H as [_ H]. rewrite (H eq_refl). clear H.
    apply activation_target_Some in Ht as [Hin _].
    rewrite (check_available_discount_referrer referrer _ c [set_active (o_id o) r]); [done| | |].
    + unfold unused_referee, mark_active. cbn [referral_uses with_referral_uses mark_paid
        with_orders].
      rewrite filter_update_row by done. fold (unused_referee referrer d). by rewrite Href.
    + exact Hc.
    + rewrite Hcid in *.
      by apply (active_unused_after_activation (o_id o) r (mark_paid o d)).
Qed.

Lemma payment_unlocks_referrer_discount_witness :
  (run_request (check_available_discount 1) Examples.pending_db []).1 = inr (PyInt 0, None) ∧
  (run_request (check_available_discount 1)
     (deliver (completed "cs_1") Examples.pending_db []) []).1
  = inr (PyFloat 0.20%float, Some "referrer").
Proof.
  apply (payment_unlocks_referrer_discount "cs_1" Examples.pending_db
           Examples.pending_order
           (mkReferralUse 1 1 2 None false false false)
           (mkReferralCode 1 "AAAA1111" 1) 1); try reflexivity.
  - repeat split; apply (bool_decide_unpack _); vm_compute; exact I.
  - apply (bool_decide_unpack _). vm_compute. exact I.
  - discriminate.
Defined.

Lemma unused_referrer_active (code_id : Z) (d : DB) (r : ReferralUse) :
  r ∈ active_unused_referrer code_id d → r ∈ unused_referrer code_id d.
Proof.
  unfold active_unused_referrer, unused_referrer.
  intros [(? & ? & ?) ?]%list_elem_of_filter. by apply list_elem_of_filter.
Qed.

(** X27.  What check_available_discount offers, apply_referral_discount
    grants, when no call fails: an offered referee discount always yields the
    price times 0.9 with type 'referee'; an offered referrer discount yields
    the price times 0.8 with type 'referrer' provided the caller's code has
    no second ReferralUse row with the referrer discount unused (an inactive
    one included). *)
Theorem offered_discount_granted (user_id : Z) (p p' : pynum) (d : DB) :
  ((run_request (check_available_discount user_id) d []).1
   = inr (PyFloat 0.10%float, Some "referee") →
   py_mul_float p 0.9%float = Some p' →
   (run_request (apply_referral_discount user_id p) d []).1 = inr (p', Some "referee")) ∧
  ((run_request (check_available_discount user_id) d []).1
   = inr (PyFloat 0.20%float, Some "referrer") →
   (∀ c, code_of_user user_id d = [c] → (length (unused_referrer (rc_id c) d) ≤ 1)%nat) →
   py_mul_float p 0.8%float = Some p' →
   (run_request (apply_referral_discount user_id p) d []).1 = inr (p', Some "referrer")).
Proof.
  split.
  - unfold run_request, check_available_discount, apply_referral_discount,
      apply_referral_discount_body, start.
    destruct (unused_referee user_id d) as [|r [|r' rs]] eqn:Hr; run_cases; try done.
    all: intros; simplify_eq; done.
  - intros Hcheck Hone Hp.
    destruct (unused_referee user_id d) as [|r0 [|r' rs]] eqn:Hr;
      [|exfalso; revert Hcheck; unfold run_request, check_available_discount, start;
        run_cases; done..].
    destruct (code_of_user user_id d) as [|c [|c' cs]] eqn:Hc;
      [exfalso; revert Hcheck; unfold run_request, check_available_discount, start;
        run_cases; done| |exfalso; revert Hcheck;
        unfold run_request, check_available_discount, start; run_cases; done].
    destruct (active_unused_referrer (rc_id c) d) as [|r [|r' rs]] eqn:Ha;
      [exfalso; revert Hcheck; unfold run_request, check_available_discount, start;
        run_cases; done| |exfalso; revert Hcheck;
        unfold run_request, check_available_discount, start; run_cases; done].
    assert (Hin : r ∈ unused_referrer (rc_id c) d).
    { apply unused_referrer_active. rewrite Ha. by left. }
    specialize (Hone c eq_refl).
    destruct (unused_referrer (rc_id c) d) as [|x [|y ys]] eqn:Hu;
      [by apply elem_of_nil in Hin| |cbn in Hone; lia].
    revert Hp. unfold run_request, apply_referral_discount, apply_referral_discount_body, start.
    run_cases; intros; simplify_eq; done.
Qed.

Lemma offered_discount_granted_witness :
  (run_request (apply_referral_discount 2 (PyInt 1196)) Examples.fresh_referral []).1
  = inr (PyFloat 1076.4%float, Some "referee").
Proof.
  apply (offered_discount_granted 2 (PyInt 1196) (PyFloat 1076.4%float)
           Examples.fresh_referral).
  - reflexivity.
  - vm_compute. reflexivity.
Defined.
